(** * kindle-lock: reading-progress ledger, extractor, navigator and scrape orchestrator

    A shallow embedding of [archived/src/database.py] and
    [archived/src/scraper.py] (with the library-only pass of
    [src/scraper.py] and the settings endpoints of [src/main.py]), the
    properties the specification states about them, and further
    properties of the code.

    Conventions of the embedding.
    - A SQLite table with a primary key is a finite map from the key to the
      remaining columns; [reading_progress], whose key is an
      autoincremented row id, is the list of its rows in insertion order.
    - [CURRENT_TIMESTAMP] is the number of seconds it denotes; the text
      SQLite stores orders the same way.
    - Python integers are [Z].  An integer bound to a SQL statement must
      fit SQLite's 64-bit integers: [sqlite3] raises [OverflowError]
      otherwise ([Ledger.sqlite_int]).
    - A Python exception is the [None] of an [option] (ledger) or the
      [Raise] of a [result] (orchestrator). *)

From Stdlib Require Import ZArith List String Ascii Bool Lia.
From Stdlib Require Import SpecFloat.
From stdpp Require Import gmap strings list fin_maps sorting.

Local Open Scope string_scope.
Local Open Scope Z_scope.
Local Open Scope list_scope.

(** ** Python values used by the ledger *)

Module Py.

(** [int(str)] on text of the Latin-1 range.  The white space [int]
    skips around a numeral: tab to carriage return and the space, and,
    of the characters above 127, NEL and the no-break space.  The
    separators 28 to 31 are white space for [str.strip] but not for
    [int]. *)
Definition is_space (c : ascii) : bool :=
  let n := nat_of_ascii c in
  ((9 <=? n) && (n <=? 13) || (n =? 32) || (n =? 133) || (n =? 160))%nat.

Definition is_digit (c : ascii) : bool :=
  let n := nat_of_ascii c in ((48 <=? n) && (n <=? 57))%nat.

Definition digit_val (c : ascii) : Z := Z.of_nat (nat_of_ascii c) - 48.

Fixpoint lstrip (s : string) : string :=
  match s with
  | String c s' => if is_space c then lstrip s' else s
  | EmptyString => EmptyString
  end.

Definition strip (s : string) : string :=
  String.rev (lstrip (String.rev (lstrip s))).

(** Digits after a first digit; one underscore may separate two digits. *)
Fixpoint int_digits (acc : Z) (s : string) : option Z :=
  match s with
  | EmptyString => Some acc
  | String c s' =>
      if is_digit c then int_digits (10 * acc + digit_val c) s'
      else if Ascii.eqb c "_" then
        match s' with
        | String d s'' =>
            if is_digit d then int_digits (10 * acc + digit_val d) s'' else None
        | EmptyString => None
        end
      else None
  end.

Definition int_unsigned (s : string) : option Z :=
  match s with
  | String c s' => if is_digit c then int_digits (digit_val c) s' else None
  | EmptyString => None
  end.

(** [int(s)]; [None] is [ValueError]. *)
Definition int (s : string) : option Z :=
  match strip s with
  | String "-" s' => Z.opp <$> int_unsigned s'
  | String "+" s' => int_unsigned s'
  | s' => int_unsigned s'
  end.

(** [int(v or default)] for [v : Optional[str]]: [None] and the empty
    string are falsy, so the integer default is taken. *)
Definition int_or (v : option string) (default : Z) : option Z :=
  match v with
  | None => Some default
  | Some EmptyString => Some default
  | Some s => int s
  end.

(** A [datetime.date] and a naive [datetime.datetime]. *)
Record date := Date { year : Z; month : Z; day : Z }.

Record datetime := DateTime {
  dt_date : date; hour : Z; minute : Z; second : Z }.

Definition is_leap (y : Z) : bool :=
  (y mod 4 =? 0) && (negb (y mod 100 =? 0) || (y mod 400 =? 0)).

Definition days_in_month (y m : Z) : Z :=
  if m =? 2 then (if is_leap y then 29 else 28)
  else if (m =? 4) || (m =? 6) || (m =? 9) || (m =? 11) then 30
  else 31.

(** [d - timedelta(days=1)]; [None] is the [OverflowError] raised below
    [date.min], 0001-01-01. *)
Definition sub_one_day (d : date) : option date :=
  if 1 <? day d then Some (Date (year d) (month d) (day d - 1))
  else if 1 <? month d then
    Some (Date (year d) (month d - 1) (days_in_month (year d) (month d - 1)))
  else if 1 <? year d then Some (Date (year d - 1) 12 31)
  else None.

(** [date.toordinal()]: days since 0001-01-01, which has ordinal 1. *)
Definition days_before_year (y : Z) : Z :=
  365 * (y - 1) + (y - 1) / 4 - (y - 1) / 100 + (y - 1) / 400.

Definition days_before_month (y m : Z) : Z :=
  (if m =? 1 then 0 else if m =? 2 then 31 else if m =? 3 then 59
   else if m =? 4 then 90 else if m =? 5 then 120 else if m =? 6 then 151
   else if m =? 7 then 181 else if m =? 8 then 212 else if m =? 9 then 243
   else if m =? 10 then 273 else if m =? 11 then 304 else 334)
  + (if (2 <? m) && is_leap y then 1 else 0).

Definition toordinal (d : date) : Z :=
  days_before_year (year d) + days_before_month (year d) (month d) + day d.

(** The dates a [datetime.date] can hold. *)
Definition valid_date (d : date) : Prop :=
  1 <= year d <= 9999 /\ 1 <= month d <= 12
  /\ 1 <= day d <= days_in_month (year d) (month d).

Definition digit_char (n : Z) : ascii :=
  ascii_of_nat (Z.to_nat (48 + n mod 10)).

Definition two_digits (n : Z) : string :=
  String (digit_char (n / 10)) (String (digit_char n) EmptyString).

Definition four_digits (n : Z) : string :=
  String (digit_char (n / 1000)) (String (digit_char (n / 100)) (two_digits n)).

(** [date.isoformat()], YYYY-MM-DD. *)
Definition isoformat (d : date) : string :=
  four_digits (year d) +:+ "-" +:+ two_digits (month d) +:+ "-" +:+ two_digits (day d).

(** [datetime.isoformat()] of a time without microseconds. *)
Definition datetime_isoformat (t : datetime) : string :=
  isoformat (dt_date t) +:+ "T" +:+ two_digits (hour t) +:+ ":"
  +:+ two_digits (minute t) +:+ ":" +:+ two_digits (second t).

(** [str.lower()], on the Latin-1 range. *)
Definition lower_char (c : ascii) : ascii :=
  let n := nat_of_ascii c in
  if ((65 <=? n) && (n <=? 90) || (192 <=? n) && (n <=? 222) && negb (n =? 215))%nat
  then ascii_of_nat (n + 32) else c.

Fixpoint lower (s : string) : string :=
  match s with
  | String c s' => String (lower_char c) (lower s')
  | EmptyString => EmptyString
  end.

(** [pat in s] for strings. *)
Fixpoint contains (pat s : string) : bool :=
  String.prefix pat s ||
  match s with
  | String _ s' => contains pat s'
  | EmptyString => false
  end.

(** Truth value of a string: the empty string is falsy. *)
Definition nonempty (s : string) : bool :=
  match s with EmptyString => false | String _ _ => true end.

(** [s[:n]] *)
Definition take (n : nat) (s : string) : string := String.substring 0 n s.

(** A Python number: [int] or [float] (IEEE binary64). *)
Inductive number :=
| PyInt (z : Z)
| PyFloat (f : spec_float).

(** [float(z)]: the double nearest to an integer, ties to even. *)
Definition float (z : Z) : spec_float := binary_normalize 53 1024 z 0 false.

(** [str(n)] of an integer: its decimal digits, after a minus sign when
    it is negative.  [fuel] bounds the number of digits. *)
Fixpoint str_digits (fuel : nat) (n : Z) (acc : string) : string :=
  match fuel with
  | O => acc
  | S fuel' =>
      let acc' := String (digit_char n) acc in
      if n <? 10 then acc' else str_digits fuel' (n / 10) acc'
  end.

Definition str_unsigned (n : Z) : string :=
  str_digits (S (Z.to_nat (Z.log2 n))) n EmptyString.

Definition str (n : Z) : string :=
  if n <? 0 then String "-" (str_unsigned (- n)) else str_unsigned n.

End Py.

(** ** The progress ledger ([archived/src/database.py]) *)

Module Ledger.

(** Static fallback defaults, [settings.daily_page_goal] and
    [settings.day_reset_hour] of the configuration object. *)
Record Settings := {
  cfg_daily_page_goal : Z;
  cfg_day_reset_hour : Z }.

(** Row of [books], keyed by [asin].  [authors] is the list that the
    stored JSON array encodes. *)
Record Book := {
  title : string;
  authors : list string;
  total_pages : option Z;
  cover_url : option string;
  last_updated : Z }.

(** Row of [reading_progress]; the row id is the position in the list. *)
Record Progress := {
  pr_asin : string;
  position : Z;
  percent_complete : option Py.number;
  recorded_at : Z }.

(** Row of [daily_stats], keyed by [date]. *)
Record DailyStat := {
  pages_read : Z;
  goal_met_at : option Z;
  ds_last_updated : Z }.

Record DB := {
  books : gmap string Book;
  reading_progress : list Progress;
  daily_stats : gmap string DailyStat;
  settings : gmap string string }.

(** What [init_db] leaves in a new file. *)
Definition init_db : DB := {|
  books := ∅;
  reading_progress := [];
  daily_stats := ∅;
  settings := <["day_reset_hour" := "4"]> (<["daily_page_goal" := "30"]> ∅) |}.

Definition get_setting (db : DB) (key : string) : option string :=
  settings db !! key.

(** The integers [sqlite3] binds to a statement: for a Python [int]
    outside them [execute] raises [OverflowError]. *)
Definition sqlite_int (z : Z) : bool := (- 2 ^ 63 <=? z) && (z <? 2 ^ 63).

(** Whether [sqlite3] binds an optional number: [None] and a [float]
    always, an [int] when it fits 64 bits. *)
Definition binds (v : option Py.number) : bool :=
  match v with
  | Some (Py.PyInt z) => sqlite_int z
  | _ => true
  end.

(** What the column [percent_complete REAL] holds for a bound value: an
    integer is stored as the double nearest to it, and NaN as NULL. *)
Definition stored_percent (v : option Py.number) : option Py.number :=
  match v with
  | Some (Py.PyInt z) => Some (Py.PyFloat (Py.float z))
  | Some (Py.PyFloat S754_nan) => None
  | Some (Py.PyFloat f) => Some (Py.PyFloat f)
  | None => None
  end.

Definition set_setting (db : DB) (key value : string) : DB := {|
  books := books db;
  reading_progress := reading_progress db;
  daily_stats := daily_stats db;
  settings := <[key := value]> (settings db) |}.

(** [int(get_setting("day_reset_hour") or settings.day_reset_hour)] *)
Definition reset_hour (cfg : Settings) (db : DB) : option Z :=
  Py.int_or (get_setting db "day_reset_hour") (cfg_day_reset_hour cfg).

(** [int(get_setting("daily_page_goal") or settings.daily_page_goal)] *)
Definition page_goal (cfg : Settings) (db : DB) : option Z :=
  Py.int_or (get_setting db "daily_page_goal") (cfg_daily_page_goal cfg).

(** [get_today_key()], with [now = datetime.now()]. *)
Definition get_today_key (cfg : Settings) (db : DB) (now : Py.datetime) : option string :=
  h ← reset_hour cfg db;
  effective_date ←
    (if Py.hour now <? h then Py.sub_one_day (Py.dt_date now)
     else Some (Py.dt_date now));
  Some (Py.isoformat effective_date).

(** [upsert_book]: INSERT ... ON CONFLICT(asin) DO UPDATE with COALESCE on
    the two optional columns.  [ts] is CURRENT_TIMESTAMP.  This is the
    statement once its parameters are bound; a caller that hands over a
    number read from a page checks [sqlite_int] first
    ([Scraper.upsert_book]). *)
Definition upsert_book (db : DB) (ts : Z) (asin title : string)
    (authors : list string) (total_pages : option Z) (cover_url : option string) : DB :=
  let row :=
    match books db !! asin with
    | None => Build_Book title authors total_pages cover_url ts
    | Some old =>
        Build_Book title authors
          (match total_pages with Some n => Some n | None => Ledger.total_pages old end)
          (match cover_url with Some u => Some u | None => Ledger.cover_url old end)
          ts
    end in
  {| books := <[asin := row]> (books db);
     reading_progress := reading_progress db;
     daily_stats := daily_stats db;
     settings := settings db |}.

(** The query of [record_progress] for the previous position,
    [SELECT position FROM reading_progress WHERE asin = ?
     ORDER BY recorded_at DESC LIMIT 1]: a row of the book with the
    greatest [recorded_at].  SQL leaves the choice among rows with equal
    [recorded_at] open; the scan of [idx_progress_asin_time] meets them in
    row-id order, so the earliest inserted of them is kept here. *)
Fixpoint latest (best : option Progress) (rows : list Progress) : option Progress :=
  match rows with
  | [] => best
  | r :: rows' =>
      latest
        (match best with
         | None => Some r
         | Some b => if recorded_at b <? recorded_at r then Some r else Some b
         end) rows'
  end.

Definition rows_of (db : DB) (asin : string) : list Progress :=
  List.filter (λ r, String.eqb (pr_asin r) asin) (reading_progress db).

Definition last_progress (db : DB) (asin : string) : option Progress :=
  latest None (rows_of db asin).

(** [INSERT INTO reading_progress (asin, position, percent_complete)],
    for parameters that are bound; the row holds [stored_percent]. *)
Definition insert_progress (db : DB) (ts : Z) (asin : string) (pos : Z)
    (percent : option Py.number) : DB := {|
  books := books db;
  reading_progress :=
    reading_progress db ++ [Build_Progress asin pos (stored_percent percent) ts];
  daily_stats := daily_stats db;
  settings := settings db |}.

(** [INSERT INTO daily_stats (date, pages_read, last_updated) ...
     ON CONFLICT(date) DO UPDATE SET pages_read = daily_stats.pages_read + ?] *)
Definition add_pages (db : DB) (ts : Z) (today : string) (pages_delta : Z) : DB :=
  let row :=
    match daily_stats db !! today with
    | None => Build_DailyStat pages_delta None ts
    | Some old => Build_DailyStat (pages_read old + pages_delta) (goal_met_at old) ts
    end in
  {| books := books db;
     reading_progress := reading_progress db;
     daily_stats := <[today := row]> (daily_stats db);
     settings := settings db |}.

(** [UPDATE daily_stats SET goal_met_at = CURRENT_TIMESTAMP WHERE date = ?] *)
Definition mark_goal_met (db : DB) (ts : Z) (today : string) : DB := {|
  books := books db;
  reading_progress := reading_progress db;
  daily_stats :=
    alter (λ old, Build_DailyStat (pages_read old) (Some ts) (ds_last_updated old))
      today (daily_stats db);
  settings := settings db |}.

(** The dictionary [get_today_stats] returns. *)
Record TodayStats := {
  st_date : string;
  st_pages_read : Z;
  st_page_goal : Z;
  st_goal_met : bool;
  st_goal_met_at : option Z;
  st_pages_remaining : Z }.

Definition get_today_stats (cfg : Settings) (db : DB) (now : Py.datetime) : option TodayStats :=
  today ← get_today_key cfg db now;
  goal ← page_goal cfg db;
  Some
    match daily_stats db !! today with
    | Some row =>
        Build_TodayStats today (pages_read row) goal (goal <=? pages_read row)
          (goal_met_at row) (Z.max 0 (goal - pages_read row))
    | None => Build_TodayStats today 0 goal false None goal
    end.

(** [pages_read] of a date as [get_today_stats] reports it: 0 without a row. *)
Definition pages_on (db : DB) (date : string) : Z :=
  match daily_stats db !! date with
  | Some row => pages_read row
  | None => 0
  end.

Definition goal_met_on (db : DB) (date : string) : option Z :=
  daily_stats db !! date ≫= goal_met_at.

(** The clock readings one call of [record_progress] makes, in the order
    it makes them. *)
Record Clock := {
  now_key : Py.datetime;    (* datetime.now() of get_today_key() *)
  ts_snapshot : Z;          (* CURRENT_TIMESTAMP default of recorded_at *)
  ts_daily : Z;             (* CURRENT_TIMESTAMP of the daily_stats upsert *)
  now_stats : Py.datetime;  (* datetime.now() inside get_today_stats() *)
  ts_goal : Z }.            (* CURRENT_TIMESTAMP of the goal_met_at update *)

(** [record_progress].  [db] is the committed content of the file when the
    call starts and the result is what [conn.commit()] leaves on leaving
    the [with get_db() as conn] block; an exception skips the commit and
    the file keeps [db].

    [sqlite3] opens a transaction on [conn] before the first INSERT, and
    the statements run on [conn] see its uncommitted writes ([c1], [c2]
    below).  [get_setting] and [get_today_stats] each go through
    [get_db()] again, that is a new [sqlite3.connect]: SQLite shows a
    second connection only what is committed, so both are evaluated on
    [db], the file as it was before the call.

    The INSERT raises [OverflowError] when [position] or an integer
    [percent] does not fit 64 bits, and so does the upsert of
    [daily_stats] for [pages_delta].  When the sum
    [daily_stats.pages_read + ?] leaves the 64-bit integers SQLite does
    not raise: it carries the count on as a floating-point number.  This
    ledger holds integer counts, and such a call is not followed: it is
    [None] as well. *)
Definition record_progress (cfg : Settings) (db : DB) (ck : Clock)
    (asin : string) (pos : Z) (percent : option Py.number) : option DB :=
  today ← get_today_key cfg db (now_key ck);
  let last := last_progress db asin in
  if sqlite_int pos && binds percent then
    let c1 := insert_progress db (ts_snapshot ck) asin pos percent in
    match last with
    | None => Some c1
    | Some last_row =>
        let last_position := position last_row in
        if last_position <? pos then
          let pages_delta := pos - last_position in
          if sqlite_int pages_delta && sqlite_int (pages_on c1 today + pages_delta) then
            let c2 := add_pages c1 (ts_daily ck) today pages_delta in
            goal ← page_goal cfg db;
            stats ← get_today_stats cfg db (now_stats ck);
            if (goal <=? st_pages_read stats)
               && negb (bool_decide (is_Some (st_goal_met_at stats)))
            then Some (mark_goal_met c2 (ts_goal ck) today)
            else Some c2
          else None
        else Some c1
    end
  else None.

(** [reset_daily_stats]: DELETE FROM daily_stats. *)
Definition reset_daily_stats (db : DB) : DB := {|
  books := books db;
  reading_progress := reading_progress db;
  daily_stats := ∅;
  settings := settings db |}.

(** [reset_all_progress]: both tables emptied. *)
Definition reset_all_progress (db : DB) : DB := {|
  books := books db;
  reading_progress := [];
  daily_stats := ∅;
  settings := settings db |}.

(** A dictionary of the list [get_library] returns. *)
Record LibraryRow := {
  lr_asin : string;
  lr_title : string;
  lr_authors : list string;
  lr_total_pages : option Z;
  lr_cover_url : option string;
  current_position : option Z;
  lr_percent_complete : option Py.number;
  last_read : option Z }.

(** The row the LEFT JOIN of [get_library] gives for one book: the
    columns of the book with those of the snapshot numbered [rn = 1] in
    the partition of the book, the first in [ORDER BY recorded_at DESC],
    or NULLs when the book has no snapshot; among snapshots with equal
    [recorded_at] it is the one [last_progress] takes.  [authors] is the
    decoded list, as in [Book]. *)
Definition library_row (db : DB) (asin : string) (b : Book) : LibraryRow :=
  let p := last_progress db asin in
  {| lr_asin := asin;
     lr_title := title b;
     lr_authors := authors b;
     lr_total_pages := total_pages b;
     lr_cover_url := cover_url b;
     current_position := position <$> p;
     lr_percent_complete := p ≫= percent_complete;
     last_read := recorded_at <$> p |}.

(** [ORDER BY p.recorded_at DESC NULLS LAST]: [a] may stand before [b]. *)
Definition read_before (a b : LibraryRow) : Prop :=
  match last_read a, last_read b with
  | Some x, Some y => y <= x
  | Some _, None => True
  | None, Some _ => False
  | None, None => True
  end.

#[global] Instance read_before_dec : RelDecision read_before.
Proof.
  intros a b. unfold read_before.
  destruct (last_read a), (last_read b); apply _.
Defined.

(** [get_library]: one row for each book, sorted.  SQL leaves the order
    of rows with equal [recorded_at] open; here it is the one the sort
    gives to the books taken in the order of the map. *)
Definition get_library (db : DB) : list LibraryRow :=
  merge_sort read_before
    ((λ '(asin, b), library_row db asin b) <$> map_to_list (books db)).

(** [get_book]: the first entry of [get_library()] with the [asin]. *)
Definition get_book (db : DB) (asin : string) : option LibraryRow :=
  List.find (λ book, String.eqb (lr_asin book) asin) (get_library db).

End Ledger.

(** ** The settings endpoints of the API ([src/main.py])

    [main.py] calls [get_setting] and [set_setting] of the ledger; each
    call commits on its own connection before it returns. *)

Module Api.

(** The configuration object [settings] as the endpoints read it. *)
Record Config := {
  api_secret_key : string;
  defaults : Ledger.Settings }.

(** [SettingsUpdate] and [SettingsResponse]. *)
Record SettingsUpdate := {
  upd_daily_page_goal : option Z;
  upd_day_reset_hour : option Z }.

Record SettingsResponse := {
  daily_page_goal : Z;
  day_reset_hour : Z }.

(** What a request ends with: the response model, an [HTTPException], or
    the [ValueError] of an [int()] that the endpoint does not catch. *)
Inductive response (A : Type) :=
| Returns (a : A)
| HTTPException (status_code : Z) (detail : string)
| ValueError.

Arguments Returns {A} a.
Arguments HTTPException {A} status_code detail.
Arguments ValueError {A}.

(** [verify_api_key], with [x_api_key] the header of the request. *)
Definition verify_api_key (cfg : Config) (x_api_key : option string) : response bool :=
  if String.eqb (api_secret_key cfg) "change-me-in-production" then Returns true
  else if bool_decide (x_api_key = Some (api_secret_key cfg)) then Returns true
  else HTTPException 401 "Invalid API key".

(** The body of [get_app_settings]. *)
Definition get_app_settings (cfg : Config) (db : Ledger.DB) : response SettingsResponse :=
  match Ledger.page_goal (defaults cfg) db with
  | None => ValueError
  | Some goal =>
      match Ledger.reset_hour (defaults cfg) db with
      | None => ValueError
      | Some h => Returns {| daily_page_goal := goal; day_reset_hour := h |}
      end
  end.

(** The body of [update_app_settings]: the response and the ledger file
    the request leaves. *)
Definition update_app_settings (cfg : Config) (db : Ledger.DB) (update : SettingsUpdate)
    : response SettingsResponse * Ledger.DB :=
  let after_goal : response Ledger.DB :=
    match upd_daily_page_goal update with
    | Some goal =>
        if (goal <? 1) || (1000 <? goal)
        then HTTPException 400 "daily_page_goal must be between 1 and 1000"
        else Returns (Ledger.set_setting db "daily_page_goal" (Py.str goal))
    | None => Returns db
    end in
  match after_goal with
  | Returns db1 =>
      match upd_day_reset_hour update with
      | Some h =>
          if (h <? 0) || (23 <? h)
          then (HTTPException 400 "day_reset_hour must be between 0 and 23", db1)
          else
            let db2 := Ledger.set_setting db1 "day_reset_hour" (Py.str h) in
            (get_app_settings cfg db2, db2)
      | None => (get_app_settings cfg db1, db1)
      end
  | HTTPException status detail => (HTTPException status detail, db)
  | ValueError => (ValueError, db)
  end.

(** [PUT /settings]: the dependency [verify_api_key] runs before the body. *)
Definition put_settings (cfg : Config) (x_api_key : option string) (db : Ledger.DB)
    (update : SettingsUpdate) : response SettingsResponse * Ledger.DB :=
  match verify_api_key cfg x_api_key with
  | Returns _ => update_app_settings cfg db update
  | HTTPException status detail => (HTTPException status detail, db)
  | ValueError => (ValueError, db)
  end.

(** The body of [get_book_progress], [GET /progress/{asin}]. *)
Definition get_book_progress (db : Ledger.DB) (asin : string) : response Ledger.LibraryRow :=
  match Ledger.get_book db asin with
  | None => HTTPException 404 "Book not found"
  | Some book => Returns book
  end.

End Api.

(** ** JavaScript text, regular expressions and numbers

    Text is a [string] with one character per UTF-16 code unit, which
    covers the Latin-1 range.  Numbers are binary64.  The number
    [parseInt] gives for a numeral captured by [\d+] is the double
    nearest to the numeral; it is kept as the integer that double
    denotes ([integer_of]), with 2^1024 for the [Infinity] of a numeral
    past the largest double.  [Math.round((c / t) * 100)] is evaluated on
    binary64. *)

Module Js.

Definition code (c : ascii) : N := N_of_ascii c.

(** [\s] and [String.prototype.trim]: white space and line terminators. *)
Definition is_space (c : ascii) : bool :=
  let n := code c in
  ((9 <=? n) && (n <=? 13) || (n =? 32) || (n =? 160))%N.

(** [\d] *)
Definition is_digit (c : ascii) : bool :=
  let n := code c in ((48 <=? n) && (n <=? 57))%N.

(** Equality of a text character with a lower-case ASCII letter of the
    pattern under the [i] flag. *)
Definition ci_char (l c : ascii) : bool :=
  ((code c =? code l) || (code c + 32 =? code l))%N.

(** The longest prefix of characters in a class, and the rest: what a
    greedy [c+] takes when the next pattern item starts outside the class. *)
Fixpoint span (p : ascii -> bool) (s : string) : string * string :=
  match s with
  | String c s' =>
      if p c then let '(a, r) := span p s' in (String c a, r)
      else (EmptyString, s)
  | EmptyString => (EmptyString, EmptyString)
  end.

(** [\s+] *)
Definition spaces1 (s : string) : option string :=
  match span is_space s with
  | (EmptyString, _) => None
  | (_, r) => Some r
  end.

(** [(\d+)] *)
Definition digits1 (s : string) : option (string * string) :=
  match span is_digit s with
  | (EmptyString, _) => None
  | (d, r) => Some (d, r)
  end.

(** A literal under the [i] flag; [pat] is given in lower case. *)
Fixpoint lit_ci (pat s : string) : option string :=
  match pat, s with
  | EmptyString, _ => Some s
  | String p pat', String c s' => if ci_char p c then lit_ci pat' s' else None
  | String _ _, EmptyString => None
  end.

(** [\s+(\d+)\s+of\s+(\d+)] at the head of [s]: the two captures and
    the rest. *)
Definition x_of_y (s : string) : option (string * string * string) :=
  r1 ← spaces1 s;
  '(d1, r2) ← digits1 r1;
  r3 ← spaces1 r2;
  r4 ← lit_ci "of" r3;
  r5 ← spaces1 r4;
  '(d2, r6) ← digits1 r5;
  Some (d1, d2, r6).

(** [Page\s+(\d+)\s+of\s+(\d+)] with flag [i], at the head of [s]. *)
Definition page_at (s : string) : option (string * string) :=
  r ← lit_ci "page" s;
  '(d1, d2, _) ← x_of_y r;
  Some (d1, d2).

(** [Loc(?:ation)?\s+(\d+)\s+of\s+(\d+)] with flag [i], at the head of
    [s]: the optional group is tried first. *)
Definition loc_at (s : string) : option (string * string) :=
  r ← lit_ci "loc" s;
  '(d1, d2, _) ←
    match lit_ci "ation" r ≫= x_of_y with
    | Some m => Some m
    | None => x_of_y r
    end;
  Some (d1, d2).

(** [^(\d+)\s+of\s+(\d+)$] with flag [i]. *)
Definition generic_whole (s : string) : option (string * string) :=
  '(d1, r2) ← digits1 s;
  r3 ← spaces1 r2;
  r4 ← lit_ci "of" r3;
  r5 ← spaces1 r4;
  '(d2, r6) ← digits1 r5;
  match r6 with
  | EmptyString => Some (d1, d2)
  | String _ _ => None
  end.

(** [(\d+)%] at the head of [s]. *)
Definition percent_at (s : string) : option string :=
  '(d, r) ← digits1 s;
  match r with
  | String "%" _ => Some d
  | _ => None
  end.

(** [(\d+)] at the head of [s]. *)
Definition number_at (s : string) : option string := fst <$> digits1 s.

(** [text.match(re)] for a pattern without [^]: the match at the leftmost
    position where the pattern matches. *)
Fixpoint search {A} (at_head : string -> option A) (s : string) : option A :=
  match at_head s with
  | Some a => Some a
  | None =>
      match s with
      | String _ s' => search at_head s'
      | EmptyString => None
      end
  end.

(** The integer a numeral of decimal digits denotes. *)
Fixpoint digits_value (acc : Z) (ds : string) : Z :=
  match ds with
  | String c ds' => digits_value (10 * acc + Z.of_N (code c) - 48) ds'
  | EmptyString => acc
  end.

(** binary64 *)
Definition prec : Z := 53.

Definition emax : Z := 1024.

(** The double nearest to an integer, ties to even; [Infinity] past the
    largest double. *)
Definition of_Z (z : Z) : spec_float := binary_normalize prec emax z 0 false.

(** The integer an integer-valued double denotes, and 2^1024 for
    [Infinity]: [of_Z] gives the double back. *)
Definition integer_of (x : spec_float) : Z :=
  match x with
  | S754_finite s m e =>
      if 0 <=? e then cond_Zopp s (Zpos m) * 2 ^ e
      else cond_Zopp s (Zpos m) / 2 ^ (- e)
  | S754_infinity s => cond_Zopp s (2 ^ emax)
  | _ => 0
  end.

(** [parseInt] of a capture of [\d+]: the double nearest to the numeral,
    which is the numeral itself below 2^53. *)
Definition parseInt (ds : string) : Z := integer_of (of_Z (digits_value 0 ds)).

(** [Math.round]: the integer nearest to [x], ties towards +infinity. *)
Definition Math_round (x : spec_float) : spec_float :=
  match x with
  | S754_finite s m e =>
      if 0 <=? e then x
      else
        let n := (2 * cond_Zopp s (Zpos m) + 2 ^ (- e)) / 2 ^ (- e + 1) in
        if n =? 0 then S754_zero s else of_Z n
  | _ => x
  end.

(** [Math.round((current / total) * 100)] *)
Definition percent_of (current total : Z) : spec_float :=
  Math_round (SFmul prec emax (SFdiv prec emax (of_Z current) (of_Z total)) (of_Z 100)).

(** [a || b] on strings. *)
Definition or_else (a b : string) : string :=
  match a with EmptyString => b | _ => a end.

Fixpoint drop_spaces (s : string) : string :=
  match s with
  | String c s' => if is_space c then drop_spaces s' else s
  | EmptyString => EmptyString
  end.

Definition trim (s : string) : string :=
  String.rev (drop_spaces (String.rev (drop_spaces s))).

(** [s.includes(pat)] in JavaScript, [pat in s] in Python. *)
Fixpoint includes (pat s : string) : bool :=
  String.prefix pat s ||
  match s with
  | String _ s' => includes pat s'
  | EmptyString => false
  end.

(** [s.replace(pat, '')] for a string pattern: the first occurrence goes. *)
Fixpoint remove_first (pat s : string) : string :=
  if String.prefix pat s then
    String.substring (String.length pat) (String.length s - String.length pat) s
  else
    match s with
    | String c s' => String c (remove_first pat s')
    | EmptyString => EmptyString
    end.

(** How Python receives a JavaScript number of a script result.  The
    number crosses as JSON text: an integer-valued number below 10^21 is
    written with its digits and arrives as an [int]; from 10^21 on it is
    written with an exponent and arrives as a [float], and so do a
    number with a fraction, NaN, the infinities and -0. *)
Definition to_python (x : spec_float) : Py.number :=
  match x with
  | S754_zero false => Py.PyInt 0
  | S754_finite s m e =>
      if (0 <=? e) || ((Zpos m) mod 2 ^ (- e) =? 0) then
        if Z.abs (integer_of x) <? 10 ^ 21 then Py.PyInt (integer_of x)
        else Py.PyFloat x
      else Py.PyFloat x
  | _ => Py.PyFloat x
  end.

(** Every character of [s] satisfies [p]. *)
Fixpoint all_chars (p : ascii -> bool) (s : string) : bool :=
  match s with
  | String c s' => p c && all_chars p s'
  | EmptyString => true
  end.

Definition starts_with_digit (s : string) : bool :=
  match s with
  | String c _ => is_digit c
  | EmptyString => false
  end.

End Js.

(** ** The progress extractor: the scripts [scraper.py] evaluates in the page *)

Module Extractor.

(** *** Reader view *)

Inductive match_type := type_page | type_location | type_generic.

(** What [findPattern] returns when it is not [null]. *)
Inductive found :=
| FoundPosition (current total : Z) (type : match_type)
| FoundPercent (percent : Z).

Definition position_of (type : match_type) (m : string * string) : found :=
  FoundPosition (Js.parseInt (fst m)) (Js.parseInt (snd m)) type.

(** The four rules of [findPattern], each [text.match(...)] on its own. *)
Definition rule_page (text : string) : option found :=
  position_of type_page <$> Js.search Js.page_at text.

Definition rule_location (text : string) : option found :=
  position_of type_location <$> Js.search Js.loc_at text.

Definition rule_generic (text : string) : option found :=
  position_of type_generic <$> Js.generic_whole text.

Definition rule_percent (text : string) : option found :=
  (λ d, FoundPercent (Js.parseInt d)) <$> Js.search Js.percent_at text.

Definition findPattern (text : string) : option found :=
  match rule_page text with
  | Some f => Some f
  | None =>
      match rule_location text with
      | Some f => Some f
      | None =>
          match rule_generic text with
          | Some f => Some f
          | None => rule_percent text
          end
      end
  end.

(** An element as the scripts read it. *)
Record Element := {
  textContent : string;
  innerText : string }.

(** The rendered reader page: what [querySelectorAll] gives for a
    selector, and [document.body.innerText]. *)
Record Document := {
  querySelectorAll : string -> list Element;
  body_innerText : string }.

(** A double quote, and the attribute selectors [[a*="v"]], [[a^="v"]]. *)
Definition dquote : string := String (ascii_of_nat 34) EmptyString.

Definition attr_has (a v : string) : string :=
  "[" +:+ a +:+ "*=" +:+ dquote +:+ v +:+ dquote +:+ "]".

Definition attr_starts (a v : string) : string :=
  "[" +:+ a +:+ "^=" +:+ dquote +:+ v +:+ dquote +:+ "]".

Definition progressSelectors : list string := [
  attr_has "class" "location"; attr_has "class" "Location";
  attr_has "class" "page"; attr_has "class" "Page";
  attr_has "class" "progress"; attr_has "class" "Progress";
  attr_has "class" "position"; attr_has "class" "Position";
  attr_has "id" "location"; attr_has "id" "page"; attr_has "id" "progress";
  "[data-page]"; "[data-location]";
  "#kindleReader_footer"; ".kindleReader_pageTurnAreaRight";
  ".kindleReader_footer"; attr_has "class" "footer"; attr_has "class" "Footer" ].

(** The object the reader script returns; [None] is [null]. *)
Record ProgressInfo := {
  current : option Z;
  total : option Z;
  percent : option spec_float;
  debug : list (string * string) }.

(** The assignments made to [result] once a pattern is found. *)
Definition with_found (f : found) (debug : list (string * string)) : ProgressInfo :=
  match f with
  | FoundPosition c t _ =>
      {| current := Some c; total := Some t;
         percent := Some (Js.percent_of c t); debug := debug |}
  | FoundPercent p =>
      {| current := Some p; total := Some 100;
         percent := Some (Js.of_Z p); debug := debug |}
  end.

(** [(el.textContent || el.innerText || '').trim()] *)
Definition fragment (el : Element) : string :=
  Js.trim (Js.or_else (textContent el) (Js.or_else (innerText el) EmptyString)).

(** A fragment is examined when [text.length > 0 && text.length < 50]. *)
Definition short (text : string) : bool :=
  ((0 <? String.length text) && (String.length text <? 50))%nat.

(** The inner loop, over the elements of one selector. *)
Fixpoint scan_elements (selector : string) (els : list Element)
    (debug : list (string * string)) : option found * list (string * string) :=
  match els with
  | [] => (None, debug)
  | el :: els' =>
      let text := fragment el in
      if short text then
        let debug' := debug ++ [(selector, String.substring 0 50 text)] in
        match findPattern text with
        | Some f => (Some f, debug')
        | None => scan_elements selector els' debug'
        end
      else scan_elements selector els' debug
  end.

(** The outer loop, over the selectors. *)
Fixpoint scan_selectors (doc : Document) (selectors : list string)
    (debug : list (string * string)) : option found * list (string * string) :=
  match selectors with
  | [] => (None, debug)
  | selector :: rest =>
      match scan_elements selector (querySelectorAll doc selector) debug with
      | (Some f, debug') => (Some f, debug')
      | (None, debug') => scan_selectors doc rest debug'
      end
  end.

(** The reader script of [get_book_progress_from_reader]. *)
Definition progress_info (doc : Document) : ProgressInfo :=
  match scan_selectors doc progressSelectors [] with
  | (Some f, debug) => with_found f debug
  | (None, debug) =>
      match findPattern (Js.or_else (body_innerText doc) EmptyString) with
      | Some f => with_found f debug
      | None => {| current := None; total := None; percent := None; debug := debug |}
      end
  end.

(** The short fragments in the order the script meets them, and the first
    pattern found in them or else in the body text. *)
Definition fragments (doc : Document) : list string :=
  List.filter short
    (flat_map (λ selector, map fragment (querySelectorAll doc selector)) progressSelectors).

Fixpoint first_found (texts : list string) : option found :=
  match texts with
  | [] => None
  | text :: rest =>
      match findPattern text with
      | Some f => Some f
      | None => first_found rest
      end
  end.

(** The license dialog check on [document.body.innerText || '']. *)
Definition license_dialog (bodyText : string) : bool :=
  Js.includes "License Limit Reached" bodyText
  || Js.includes "exceeded the limit on the number of devices" bodyText.

(** *** Library view *)

(** A library item, [item] of the library script, with the results of
    the queries the script makes on it. *)
Record LibraryItem := {
  item_id : string;                       (* item.id *)
  aria_label : option string;             (* item.getAttribute('aria-label') *)
  text_nodes : list string;               (* textContent of its span, div, p *)
  img_src : option string;                (* src of item.querySelector('img') *)
  author_text : option string;            (* textContent of the author element *)
  progress_text : option string;          (* textContent of the progress element *)
  progress_class_text : option string;    (* the same, found by class name only *)
  item_innerText : string;
  item_textContent : string;
  item_outerHTML : string }.

(** The library page: the items [querySelectorAll] finds, in document
    order, and [document.getElementById]. *)
Record LibraryDocument := {
  library_items : list LibraryItem;
  getElementById : string -> option Element;
  element_outerHTML : string -> string }.

(** An entry of [books_data]; [None] is [null], and the debug fields are
    absent from the entries of the library-only script. *)
Record LibraryBook := {
  debug_html : option string;
  debug_text : option string;
  debug_percent_el : option string;
  asin : string;
  title : string;
  authors : list string;
  coverUrl : option string;
  totalPages : option Z;
  currentPosition : option Z;
  percentComplete : Z;
  lastReadTimestamp : option Z }.

(** The first text node whose trimmed text has length in [4, 199]. *)
Fixpoint first_title (nodes : list string) : option string :=
  match nodes with
  | [] => None
  | node :: rest =>
      let text := Js.trim node in
      if ((3 <? String.length text) && (String.length text <? 200))%nat
      then Some text else first_title rest
  end.

Definition item_title (item : LibraryItem) : string :=
  match aria_label item with
  | Some (String c l) => String c l
  | _ => default "Unknown" (first_title (text_nodes item))
  end.

(** The three methods for [percentComplete], each tried while it is 0. *)
Definition percent_method1 (doc : LibraryDocument) (asin : string) : Z :=
  match getElementById doc ("percentage-read-" +:+ asin) with
  | Some el =>
      let percentText := Js.or_else (textContent el) (Js.or_else (innerText el) EmptyString) in
      match Js.search Js.number_at percentText with
      | Some d => Js.parseInt d
      | None => 0
      end
  | None => 0
  end.

Definition percent_method2 (item : LibraryItem) (percentComplete : Z) : Z :=
  if percentComplete =? 0 then
    match progress_text item with
    | Some progressText =>
        match Js.search Js.number_at progressText with
        | Some d => Js.parseInt d
        | None => percentComplete
        end
    | None => percentComplete
    end
  else percentComplete.

Definition percent_method3 (item : LibraryItem) (percentComplete : Z) : Z :=
  if percentComplete =? 0 then
    let allText := Js.or_else (item_innerText item) (Js.or_else (item_textContent item) EmptyString) in
    match Js.search Js.percent_at allText with
    | Some d => Js.parseInt d
    | None => percentComplete
    end
  else percentComplete.

Definition item_percent (doc : LibraryDocument) (item : LibraryItem) (asin : string) : Z :=
  percent_method3 item (percent_method2 item (percent_method1 doc asin)).

(** The body of the loop over [libraryItems]: [None] is [continue]. *)
Definition library_book (doc : LibraryDocument) (first : bool) (item : LibraryItem)
    : option LibraryBook :=
  let id := item_id item in
  if Js.includes "sample" id then None
  else
    let asin := Js.remove_first "library-item-option-" id in
    match asin with
    | EmptyString => None
    | String _ _ =>
        let percentComplete := item_percent doc item asin in
        Some {|
          debug_html := if first then Some (String.substring 0 500 (item_outerHTML item)) else None;
          debug_text := if first then Some (item_innerText item) else None;
          debug_percent_el :=
            if first then
              Some match getElementById doc ("percentage-read-" +:+ asin) with
                   | Some _ => element_outerHTML doc ("percentage-read-" +:+ asin)
                   | None => "NOT FOUND"
                   end
            else None;
          asin := asin;
          title := item_title item;
          authors := match author_text item with
                     | Some a => [Js.trim a]
                     | None => []
                     end;
          coverUrl := img_src item;
          totalPages := Some 100;
          currentPosition := Some percentComplete;
          percentComplete := percentComplete;
          lastReadTimestamp := None |}
    end.

Fixpoint library_loop (doc : LibraryDocument) (items : list LibraryItem)
    (books : list LibraryBook) : list LibraryBook :=
  match items with
  | [] => books
  | item :: rest =>
      match library_book doc (Nat.eqb (length books) 0) item with
      | Some b => library_loop doc rest (books ++ [b])
      | None => library_loop doc rest books
      end
  end.

(** The library script of [get_library_and_progress]. *)
Definition books_data (doc : LibraryDocument) : list LibraryBook :=
  library_loop doc (library_items doc) [].

(** The library script of [src/scraper.py], which the library-only pass
    runs: one method for the percentage, and no position. *)
Definition plain_percent (item : LibraryItem) : Z :=
  match progress_class_text item with
  | Some progressText =>
      match Js.search Js.percent_at progressText with
      | Some d => Js.parseInt d
      | None => 0
      end
  | None => 0
  end.

Definition plain_library_book (item : LibraryItem) : option LibraryBook :=
  let id := item_id item in
  if Js.includes "sample" id then None
  else
    let asin := Js.remove_first "library-item-option-" id in
    match asin with
    | EmptyString => None
    | String _ _ =>
        Some {|
          debug_html := None; debug_text := None; debug_percent_el := None;
          asin := asin;
          title := item_title item;
          authors := match author_text item with
                     | Some a => [Js.trim a]
                     | None => []
                     end;
          coverUrl := img_src item;
          totalPages := None;
          currentPosition := None;
          percentComplete := plain_percent item;
          lastReadTimestamp := None |}
    end.

Definition plain_books_data (doc : LibraryDocument) : list LibraryBook :=
  omap plain_library_book (library_items doc).

End Extractor.

(** ** The scraper ([archived/src/scraper.py]): navigator and orchestrator *)

Module Scraper.

(** A call either returns or raises an [Exception] with a message. *)
Inductive result (A : Type) :=
| Ok (a : A)
| Raise (msg : string).

Arguments Ok {A} a.
Arguments Raise {A} msg.

(** [page.locator(css)], possibly with [.filter(has_text=...)]. *)
Record locator := {
  css : string;
  has_text : option string }.

(** What the scraper does to the page. *)
Inductive Action :=
| Goto (url : string)
| Click (selector : string)
| Fill (selector value : string)
| LocatorClick (l : locator) (nth : nat)
| LocatorFill (l : locator) (value : string)
| MouseClick (x y : Z).

(** The two waits of [login] on the page URL. *)
Inductive url_wait := wait_redirect_or_challenge | wait_reader.

(** The browser and the clocks, as a capability the scraper consumes.
    [W] is the state of the outside world; every call may change it, and
    the calls that can raise return a [result]. *)
Record Env (W : Type) := {
  page_url : W -> string;
  page_goto : string -> W -> result unit * W;
  page_click : string -> W -> result unit * W;
  page_fill : string -> string -> W -> result unit * W;
  page_wait_for_selector : string -> W -> result unit * W;
  page_wait_for_url : url_wait -> W -> result unit * W;
  page_title : W -> result string * W;
  page_viewport_size : W -> option (Z * Z);
  mouse_click : Z -> Z -> W -> result unit * W;
  locator_count : locator -> W -> result nat * W;
  locator_input_value : locator -> W -> result string * W;
  locator_fill : locator -> string -> W -> result unit * W;
  locator_click : locator -> nat -> W -> result unit * W;
  locator_text_content : locator -> nat -> W -> result (option string) * W;
  (* page.evaluate: the page the script runs on *)
  evaluate_body_text : W -> result string * W;
  evaluate_reader : W -> result Extractor.Document * W;
  evaluate_lookup : W -> result unit * W;
  evaluate_library : W -> result Extractor.LibraryDocument * W;
  (* clocks *)
  datetime_now : W -> Py.datetime;
  current_timestamp : W -> Z;
  ledger_clock : W -> Ledger.Clock;
  time_time : W -> Z;
  clock_tick : W -> W }.

Arguments page_url {W}.
Arguments page_goto {W}.
Arguments page_click {W}.
Arguments page_fill {W}.
Arguments page_wait_for_selector {W}.
Arguments page_wait_for_url {W}.
Arguments page_title {W}.
Arguments page_viewport_size {W}.
Arguments mouse_click {W}.
Arguments locator_count {W}.
Arguments locator_input_value {W}.
Arguments locator_fill {W}.
Arguments locator_click {W}.
Arguments locator_text_content {W}.
Arguments evaluate_body_text {W}.
Arguments evaluate_reader {W}.
Arguments evaluate_lookup {W}.
Arguments evaluate_library {W}.
Arguments datetime_now {W}.
Arguments current_timestamp {W}.
Arguments ledger_clock {W}.
Arguments time_time {W}.
Arguments clock_tick {W}.

(** The configuration object [settings]. *)
Record Settings := {
  amazon_email : string;
  amazon_password : string;
  ledger : Ledger.Settings }.

(** A Python value of a result dictionary or of an event. *)
Inductive value :=
| VNone
| VBool (b : bool)
| VInt (z : Z)
| VNumber (n : Py.number)
| VStr (s : string)
| VList (l : list string).

(** State of a run: the world, the ledger file, whether [self.page] is
    set, the actions taken on the page and the events yielded so far. *)
Record State (W : Type) := {
  world : W;
  db : Ledger.DB;
  has_page : bool;
  actions : list Action;
  events : list (gmap string value) }.

Arguments world {W}.
Arguments db {W}.
Arguments has_page {W}.
Arguments actions {W}.
Arguments events {W}.

Definition M (W A : Type) : Type := State W -> result A * State W.

#[global] Instance M_ret {W} : MRet (M W) := λ A a st, (Ok a, st).

#[global] Instance M_bind {W} : MBind (M W) := λ A B f m st,
  match m st with
  | (Ok a, st') => f a st'
  | (Raise msg, st') => (Raise msg, st')
  end.

(** [try: body except Exception as e: handler(str(e))] *)
Definition try_except {W A} (body : M W A) (handler : string -> M W A) : M W A :=
  λ st,
    match body st with
    | (Ok a, st') => (Ok a, st')
    | (Raise msg, st') => handler msg st'
    end.

Definition raise {W A} (msg : string) : M W A := λ st, (Raise msg, st).

Definition with_world {W} (st : State W) (w : W) : State W :=
  {| world := w; db := db st; has_page := has_page st;
     actions := actions st; events := events st |}.

Definition with_db {W} (st : State W) (d : Ledger.DB) : State W :=
  {| world := world st; db := d; has_page := has_page st;
     actions := actions st; events := events st |}.

(** A call into the world. *)
Definition call {W A} (f : W -> result A * W) : M W A :=
  λ st, let '(r, w) := f (world st) in (r, with_world st w).

(** An action on the page, recorded before it is attempted. *)
Definition act {W} (a : Action) (f : W -> result unit * W) : M W unit :=
  λ st,
    let '(r, w) := f (world st) in
    (r, {| world := w; db := db st; has_page := has_page st;
           actions := actions st ++ [a]; events := events st |}).

Definition with_event {W} (st : State W) (event : gmap string value) : State W :=
  {| world := world st; db := db st; has_page := has_page st;
     actions := actions st; events := events st ++ [event] |}.

(** [yield event] *)
Definition yield {W} (event : gmap string value) : M W unit :=
  λ st, (Ok (), with_event st event).

Definition observe {W A} (f : W -> A) : M W A := λ st, (Ok (f (world st)), st).

Definition tick {W} (e : Env W) : M W unit :=
  λ st, (Ok (), with_world st (clock_tick e (world st))).

(** *** Selectors and constants *)

Definition attr_eq (a v : string) : string :=
  "[" +:+ a +:+ "=" +:+ Extractor.dquote +:+ v +:+ Extractor.dquote +:+ "]".

Definition CLOUD_READER_URL : string := "https://read.amazon.com/".

Definition LIBRARY_URL : string := "https://read.amazon.com/kindle-library".

Definition email_selector : string :=
  "input" +:+ attr_eq "type" "email" +:+ ", input" +:+ attr_eq "name" "email".

Definition password_selector : string := "input" +:+ attr_eq "type" "password".

Definition email_field : locator := {| css := email_selector; has_text := None |}.

Definition continue_btn : locator :=
  {| css := "input#continue, span#continue"; has_text := None |}.

Definition password_field : locator := {| css := password_selector; has_text := None |}.

Definition all_signin_btns : locator :=
  {| css := "button, input" +:+ attr_eq "type" "submit" +:+ ", a";
     has_text := Some "Sign in" |}.

Definition submit_btn : locator :=
  {| css := "input#signInSubmit, input" +:+ attr_eq "type" "submit"
            +:+ ", button" +:+ attr_eq "type" "submit";
     has_text := None |}.

Definition login_submit_selector : string :=
  "input#signInSubmit, input" +:+ attr_eq "type" "submit".

Definition sign_in_text : string :=
  "text=" +:+ Extractor.dquote +:+ "Sign in with your account" +:+ Extractor.dquote.

Definition book_el (asin : string) : locator :=
  {| css := "#library-item-option-" +:+ asin; has_text := None |}.

Definition reader_selector : string :=
  "#kindle-reader, " +:+ Extractor.attr_has "class" "reader" +:+ ", "
  +:+ Extractor.attr_has "class" "Reader" +:+ ", iframe" +:+ Extractor.attr_has "id" "reader".

Definition ok_btn : locator :=
  {| css := "button:has-text(" +:+ Extractor.dquote +:+ "Ok" +:+ Extractor.dquote
            +:+ "), button:has-text(" +:+ Extractor.dquote +:+ "OK" +:+ Extractor.dquote +:+ ")";
     has_text := None |}.

Definition library_selector : string :=
  Extractor.attr_has "id" "library" +:+ ", .book-list, "
  +:+ Extractor.attr_has "class" "library" +:+ ", "
  +:+ Extractor.attr_has "class" "book" +:+ ", [data-asin]".

(** [auth_pages] of [is_logged_in], and the list of its inner test. *)
Definition auth_pages : list string :=
  ["signin"; "ap/signin"; "ap/mfa"; "ap/cvf"; "ap/dcq";
   "primememberpromo"; "verification"; "challenge"].

Definition manual_pages : list string :=
  ["ap/mfa"; "ap/cvf"; "ap/dcq"; "challenge"; "verification"].

(** [any(x in url for x in pages)] *)
Definition any_in (pages : list string) (url : string) : bool :=
  existsb (λ x, Py.contains x url) pages.

(** What [is_logged_in] returns: [True], [False] or ["2fa"]. *)
Inductive login_status := LoggedIn | NotLoggedIn | Manual2FARequired.

(** What [get_book_progress_from_reader] returns: the empty dictionary,
    [{"error": "license_limit"}], or the object of the reader script. *)
Inductive reader_result :=
| NoData
| LicenseLimit
| Progress (info : Extractor.ProgressInfo).

(** Outcome of the login precondition of a pass. *)
Inductive admission := Proceed | Refuse (message : string).

Definition msg_2fa : string :=
  "2FA/verification required. Run 'make login' with BROWSER_HEADLESS=false to complete manually.".

Definition msg_no_credentials : string := "Not logged in and no credentials configured".

Section Methods.
Context {W : Type} (env : Env W) (settings : Settings).

Definition goto (url : string) : M W unit := act (Goto url) (page_goto env url).

Definition count (l : locator) : M W nat := call (locator_count env l).

Definition click_nth (l : locator) (i : nat) : M W unit :=
  act (LocatorClick l i) (locator_click env l i).

Definition fill_first (l : locator) (v : string) : M W unit :=
  act (LocatorFill l v) (locator_fill env l v).

(** *** Session navigator: [is_logged_in] *)

(** The e-mail field of an auth page; [Some r] is [return r]. *)
Definition email_step : M W (option login_status) :=
  n ← count email_field;
  if (0 <? n)%nat then
    current_value ← call (locator_input_value env email_field);
    if Py.nonempty current_value then mret None
    else if Py.nonempty (amazon_email settings) then
      fill_first email_field (amazon_email settings);;
      c ← count continue_btn;
      (if (0 <? c)%nat then click_nth continue_btn 0 else mret ());;
      mret None
    else mret (Some NotLoggedIn)
  else mret None.

(** The loop over the "Sign in" buttons: the first one whose label does
    not mention a passkey is clicked. *)
Fixpoint click_password_signin (indices : list nat) : M W unit :=
  match indices with
  | [] => mret ()
  | i :: rest =>
      t ← call (locator_text_content env all_signin_btns i);
      let btn_text := Py.lower (default EmptyString t) in
      if Py.contains "passkey" btn_text then click_password_signin rest
      else click_nth all_signin_btns i
  end.

Definition password_step : M W (option login_status) :=
  n ← count password_field;
  (if (n =? 0)%nat then
     k ← count all_signin_btns;
     click_password_signin (seq 0 k)
   else mret ());;
  n' ← count password_field;
  if (0 <? n')%nat then
    current_value ← call (locator_input_value env password_field);
    if Py.nonempty current_value then mret None
    else if Py.nonempty (amazon_password settings) then
      fill_first password_field (amazon_password settings);;
      mret None
    else mret (Some NotLoggedIn)
  else mret None.

Definition submit_step : M W unit :=
  n ← count submit_btn;
  if (0 <? n)%nat then click_nth submit_btn 0 else mret ().

(** The body of the auth-page branch below the 2FA test. *)
Definition auth_page_steps : M W (option login_status) :=
  try_except
    (r ← email_step;
     match r with
     | Some status => mret (Some status)
     | None =>
         r' ← password_step;
         match r' with
         | Some status => mret (Some status)
         | None => submit_step;; mret None
         end
     end)
    (λ _, mret None).

(** One iteration of [for attempt in range(5)]; [None] is [continue]. *)
Definition attempt : M W (option login_status) :=
  current_url ← observe (λ w, Py.lower (page_url env w));
  if Py.contains "read.amazon.com/kindle-library" current_url then mret (Some LoggedIn)
  else if Py.contains "landing" current_url then
    try_except (act (Click sign_in_text) (page_click env sign_in_text)) (λ _, mret ());;
    mret None
  else if any_in auth_pages current_url then
    if any_in manual_pages current_url then mret (Some Manual2FARequired)
    else auth_page_steps
  else
    try_except (goto LIBRARY_URL) (λ _, mret ());;
    mret None.

Fixpoint login_loop (attempts : nat) : M W login_status :=
  match attempts with
  | O => mret NotLoggedIn
  | S n =>
      r ← attempt;
      match r with
      | Some status => mret status
      | None => login_loop n
      end
  end.

Definition is_logged_in : M W login_status :=
  λ st,
    if has_page st then
      (try_except (goto LIBRARY_URL) (λ _, mret ());; login_loop 5) st
    else (Ok NotLoggedIn, st).

(** *** [login] *)

Definition login (email password : string) : M W unit :=
  λ st,
    if has_page st then
      (goto CLOUD_READER_URL;;
       call (page_wait_for_selector env email_selector);;
       act (Fill email_selector email) (page_fill env email_selector email);;
       c ← count continue_btn;
       (if (0 <? c)%nat then click_nth continue_btn 0 else mret ());;
       call (page_wait_for_selector env password_selector);;
       act (Fill password_selector password) (page_fill env password_selector password);;
       act (Click login_submit_selector) (page_click env login_submit_selector);;
       call (page_wait_for_url env wait_redirect_or_challenge);;
       url ← observe (page_url env);
       if Py.contains "mfa" url || Py.contains "cvf" url
       then call (page_wait_for_url env wait_reader)
       else mret ()) st
    else (Raise "Browser not initialized", st).

(** *** [get_book_progress_from_reader] *)

Definition dismiss_license_dialog : M W unit :=
  try_except
    (n ← count ok_btn;
     if (0 <? n)%nat then click_nth ok_btn 0 else mret ())
    (λ _, mret ()).

Definition reveal_reader_ui : M W unit :=
  try_except
    (viewport ← observe (page_viewport_size env);
     match viewport with
     | Some (width, height) =>
         act (MouseClick (width / 2) (height / 2)) (mouse_click env (width / 2) (height / 2))
     | None => mret ()
     end)
    (λ _, mret ()).

Definition open_and_read (asin : string) : M W reader_result :=
  n ← count (book_el asin);
  if (n =? 0)%nat then mret NoData
  else
    click_nth (book_el asin) 0;;
    try_except (call (page_wait_for_selector env reader_selector)) (λ _, mret ());;
    bodyText ← call (evaluate_body_text env);
    if Extractor.license_dialog (Js.or_else bodyText EmptyString) then
      dismiss_license_dialog;;
      goto LIBRARY_URL;;
      mret LicenseLimit
    else
      reveal_reader_ui;;
      doc ← call (evaluate_reader env);
      let progress_info := Extractor.progress_info doc in
      goto LIBRARY_URL;;
      mret (Progress progress_info).

Definition get_book_progress_from_reader (asin : string) : M W reader_result :=
  λ st,
    if has_page st then
      try_except (open_and_read asin)
        (λ _, try_except (goto LIBRARY_URL) (λ _, mret ());; mret NoData) st
    else (Ok NoData, st).

(** *** [get_library_and_progress] *)

Definition get_library_and_progress : M W (list Extractor.LibraryBook) :=
  λ st,
    if has_page st then
      (current_url ← observe (λ w, Py.lower (page_url env w));
       (if Py.contains "read.amazon.com/kindle-library" current_url then mret ()
        else goto LIBRARY_URL);;
       try_except (call (page_wait_for_selector env library_selector))
         (λ _, call (page_title env);; mret ());;
       call (evaluate_lookup env);;
       doc ← call (evaluate_library env);
       mret (Extractor.books_data doc)) st
    else (Raise "Browser not initialized", st).

End Methods.

(** *** Scrape orchestrator *)

Section Orchestrator.
Context {W : Type} (env : Env W) (settings : Settings).

(** The precondition shared by the passes: [Refuse msg] is the early
    return with a failure, an exception of [login] propagates. *)
Definition ensure_login : M W admission :=
  login_status ← is_logged_in env settings;
  match login_status with
  | Manual2FARequired => mret (Refuse msg_2fa)
  | NotLoggedIn =>
      if Py.nonempty (amazon_email settings) && Py.nonempty (amazon_password settings)
      then login env (amazon_email settings) (amazon_password settings);; mret Proceed
      else mret (Refuse msg_no_credentials)
  | LoggedIn => mret Proceed
  end.

(** How the ledger calls receive a number of a script result.  It
    reaches Python as [Js.to_python] says.  An [int] is bound to the
    statement and must fit 64 bits.  A [float], that is a number of 10^21
    or more, is bound too: SQLite stores it as a REAL in the integer
    column and the pass goes on with floating-point counts.  The ledger of
    this development holds integers and does not follow such a run: it
    is cut at that call, as by an exception. *)
Definition msg_overflow : string := "Python int too large to convert to SQLite INTEGER".

Definition msg_real : string := "REAL".

(** [upsert_book(...)] on the ledger file, with [total_pages] a number of
    a script result or [None]. *)
Definition upsert_book (book : Extractor.LibraryBook) (total_pages : option Z) : M W unit :=
  λ st,
    let after d := with_world (with_db st d) (clock_tick env (world st)) in
    let stored tp :=
      Ledger.upsert_book (db st) (current_timestamp env (world st))
        (Extractor.asin book) (Extractor.title book) (Extractor.authors book)
        tp (Extractor.coverUrl book) in
    match total_pages with
    | None => (Ok (), after (stored None))
    | Some t =>
        match Js.to_python (Js.of_Z t) with
        | Py.PyInt z =>
            if Ledger.sqlite_int z then (Ok (), after (stored (Some z)))
            else (Raise msg_overflow, after (db st))
        | Py.PyFloat _ => (Raise msg_real, after (db st))
        end
    end.

(** [record_progress(...)] on the ledger file, with [position] a number
    of a script result; its exceptions propagate, and [Raise] carries a
    name in place of their text. *)
Definition record_progress (asin : string) (position : Z)
    (percent : option Py.number) : M W unit :=
  λ st,
    let after d := with_world (with_db st d) (clock_tick env (world st)) in
    match Js.to_python (Js.of_Z position) with
    | Py.PyInt z =>
        match Ledger.record_progress (ledger settings) (db st)
                (ledger_clock env (world st)) asin z percent with
        | Some d => (Ok (), after d)
        | None => (Raise "record_progress", after (db st))
        end
    | Py.PyFloat _ => (Raise msg_real, after (db st))
    end.

(** [datetime.now().isoformat()] *)
Definition now_isoformat : M W string :=
  λ st,
    (Ok (Py.datetime_isoformat (datetime_now env (world st))),
     with_world st (clock_tick env (world st))).

(** The branch taken when [progress.get("current") is not None]. *)
Definition save_progress (book : Extractor.LibraryBook) (info : Extractor.ProgressInfo)
    (current_page : Z) : M W unit :=
  let total_pages := Extractor.total info in
  let percent := Js.to_python <$> Extractor.percent info in
  (match total_pages with
   | Some t =>
       if negb (t =? 0) && negb (t =? 100) then upsert_book book (Some t) else mret ()
   | None => mret ()
   end);;
  record_progress (Extractor.asin book) current_page percent.

(** The loop of [scrape_and_save], with its two accumulators. *)
Fixpoint process_books (books : list Extractor.LibraryBook) (books_with_progress : nat)
    (books_with_license_limit : list string) : M W (nat * list string) :=
  match books with
  | [] => mret (books_with_progress, books_with_license_limit)
  | book :: rest =>
      let title := Py.take 40 (Extractor.title book) in
      upsert_book book (Extractor.totalPages book);;
      progress ← get_book_progress_from_reader env (Extractor.asin book);
      match progress with
      | LicenseLimit =>
          process_books rest books_with_progress (books_with_license_limit ++ [title])
      | Progress info =>
          match Extractor.current info with
          | Some current_page =>
              save_progress book info current_page;;
              process_books rest (S books_with_progress) books_with_license_limit
          | None => process_books rest books_with_progress books_with_license_limit
          end
      | NoData => process_books rest books_with_progress books_with_license_limit
      end
  end.

Definition failure_summary (error timestamp : string) : gmap string value :=
  list_to_map [("success", VBool false); ("error", VStr error); ("timestamp", VStr timestamp)].

Definition success_summary (books_scraped books_with_progress : nat) (timestamp : string)
    (books_with_license_limit : list string) : gmap string value :=
  let result : gmap string value :=
    list_to_map [("success", VBool true);
                 ("books_scraped", VInt (Z.of_nat books_scraped));
                 ("books_with_progress", VInt (Z.of_nat books_with_progress));
                 ("timestamp", VStr timestamp)] in
  match books_with_license_limit with
  | [] => result
  | _ :: _ => <["license_limit_books" := VList books_with_license_limit]> result
  end.

(** The [try] block of [scrape_and_save]. *)
Definition scrape_body : M W (gmap string value) :=
  g ← ensure_login;
  match g with
  | Refuse message =>
      timestamp ← now_isoformat;
      mret (failure_summary message timestamp)
  | Proceed =>
      books ← get_library_and_progress env;
      '(books_with_progress, books_with_license_limit) ← process_books books 0 [];
      timestamp ← now_isoformat;
      mret (success_summary (length books) books_with_progress timestamp
              books_with_license_limit)
  end.

(** [scrape_and_save]: the batch pass. *)
Definition scrape_and_save (st : State W) : gmap string value * State W :=
  match scrape_body st with
  | (Ok result, st') => (result, st')
  | (Raise e, st') =>
      (failure_summary e (Py.datetime_isoformat (datetime_now env (world st'))),
       with_world st' (clock_tick env (world st')))
  end.

(** **** Streaming pass *)

Definition error_event (message : string) : gmap string value :=
  list_to_map [("event", VStr "error"); ("message", VStr message);
               ("recoverable", VBool false)].

Definition started_event (total_books : nat) (timestamp : string) : gmap string value :=
  list_to_map [("event", VStr "started"); ("total_books", VInt (Z.of_nat total_books));
               ("timestamp", VStr timestamp)].

Definition book_progress_event (current total : nat) (book_title book_asin : string)
    : gmap string value :=
  list_to_map [("event", VStr "book_progress"); ("current", VInt (Z.of_nat current));
               ("total", VInt (Z.of_nat total)); ("book_title", VStr book_title);
               ("book_asin", VStr book_asin)].

Definition book_complete_event (current total : nat) (book_title book_asin : string)
    (percent_complete : option Py.number) (success : bool) (error : option string)
    : gmap string value :=
  list_to_map [("event", VStr "book_complete"); ("current", VInt (Z.of_nat current));
               ("total", VInt (Z.of_nat total)); ("book_title", VStr book_title);
               ("book_asin", VStr book_asin);
               ("percent_complete", from_option VNumber VNone percent_complete);
               ("success", VBool success);
               ("error", from_option VStr VNone error)].

(** [duration] stands for [round(time.time() - start_time, 1)]: the
    difference of the two readings of the clock. *)
Definition completed_event (books_scraped books_with_progress : nat) (duration : Z)
    (timestamp : string) (books_with_license_limit : list string) : gmap string value :=
  list_to_map [("event", VStr "completed"); ("success", VBool true);
               ("books_scraped", VInt (Z.of_nat books_scraped));
               ("books_with_progress", VInt (Z.of_nat books_with_progress));
               ("duration_seconds", VInt duration);
               ("timestamp", VStr timestamp);
               ("license_limit_books",
                match books_with_license_limit with
                | [] => VNone
                | _ :: _ => VList books_with_license_limit
                end)].

(** The loop of [scrape_and_save_streaming]; [idx] is the index
    [enumerate] gives to the head of [books] and [total] is [len(books)]
    of the whole list. *)
Fixpoint stream_books (books : list Extractor.LibraryBook) (idx total : nat)
    (books_with_progress : nat) (books_with_license_limit : list string)
    : M W (nat * list string) :=
  match books with
  | [] => mret (books_with_progress, books_with_license_limit)
  | book :: rest =>
      let asin := Extractor.asin book in
      let title := Py.take 40 (Extractor.title book) in
      yield (book_progress_event (idx + 1) total title asin);;
      upsert_book book (Extractor.totalPages book);;
      progress ← get_book_progress_from_reader env asin;
      match progress with
      | LicenseLimit =>
          yield (book_complete_event (idx + 1) total title asin None false
                   (Some "license_limit"));;
          stream_books rest (S idx) total books_with_progress
            (books_with_license_limit ++ [title])
      | Progress info =>
          match Extractor.current info with
          | Some current_page =>
              save_progress book info current_page;;
              yield (book_complete_event (idx + 1) total title asin
                       (Js.to_python <$> Extractor.percent info) true None);;
              stream_books rest (S idx) total (S books_with_progress)
                books_with_license_limit
          | None =>
              yield (book_complete_event (idx + 1) total title asin None true None);;
              stream_books rest (S idx) total books_with_progress books_with_license_limit
          end
      | NoData =>
          yield (book_complete_event (idx + 1) total title asin None true None);;
          stream_books rest (S idx) total books_with_progress books_with_license_limit
      end
  end.

(** The part of the [try] block that follows the library listing. *)
Definition stream_library (start_time : Z) (books : list Extractor.LibraryBook) : M W unit :=
  timestamp ← now_isoformat;
  yield (started_event (length books) timestamp);;
  '(books_with_progress, books_with_license_limit) ←
    stream_books books 0 (length books) 0 [];
  end_time ← observe (time_time env);
  timestamp' ← now_isoformat;
  yield (completed_event (length books) books_with_progress (end_time - start_time)
           timestamp' books_with_license_limit).

Definition stream_body (start_time : Z) : M W unit :=
  g ← ensure_login;
  match g with
  | Refuse message => yield (error_event message)
  | Proceed =>
      books ← get_library_and_progress env;
      stream_library start_time books
  end.

(** The generator, run to its end. *)
Definition stream_run (st : State W) : State W :=
  let start_time := time_time env (world st) in
  match stream_body start_time st with
  | (Ok _, st') => st'
  | (Raise e, st') => snd (yield (error_event e) st')
  end.

(** [scrape_and_save_streaming]: the events it yields, in order. *)
Definition scrape_and_save_streaming (st : State W) : list (gmap string value) :=
  events
    (stream_run {| world := world st; db := db st; has_page := has_page st;
                   actions := actions st; events := [] |}).

(** **** The library-only pass of [src/scraper.py] *)

Definition plain_get_library_and_progress : M W (list Extractor.LibraryBook) :=
  λ st,
    if has_page st then
      (current_url ← observe (λ w, Py.lower (page_url env w));
       (if Py.contains "read.amazon.com/kindle-library" current_url then mret ()
        else goto env LIBRARY_URL);;
       try_except (call (page_wait_for_selector env library_selector))
         (λ _, call (page_title env);; mret ());;
       doc ← call (evaluate_library env);
       mret (Extractor.plain_books_data doc)) st
    else (Raise "Browser not initialized", st).

Fixpoint plain_save_books (books : list Extractor.LibraryBook) : M W unit :=
  match books with
  | [] => mret ()
  | book :: rest =>
      upsert_book book (Extractor.totalPages book);;
      (match Extractor.currentPosition book with
       | Some position =>
           record_progress (Extractor.asin book) position
             (Some (Py.PyInt (Extractor.percentComplete book)))
       | None => mret ()
       end);;
      plain_save_books rest
  end.

Definition plain_scrape_body : M W (gmap string value) :=
  g ← ensure_login;
  match g with
  | Refuse message =>
      timestamp ← now_isoformat;
      mret (failure_summary message timestamp)
  | Proceed =>
      books ← plain_get_library_and_progress;
      plain_save_books books;;
      timestamp ← now_isoformat;
      mret (list_to_map [("success", VBool true);
                         ("books_scraped", VInt (Z.of_nat (length books)));
                         ("timestamp", VStr timestamp)])
  end.

Definition plain_scrape_and_save (st : State W) : gmap string value * State W :=
  match plain_scrape_body st with
  | (Ok result, st') => (result, st')
  | (Raise e, st') =>
      (failure_summary e (Py.datetime_isoformat (datetime_now env (world st'))),
       with_world st' (clock_tick env (world st')))
  end.

End Orchestrator.

End Scraper.

(** ** Vocabulary of the specification *)

Module Spec.

(** The page classes of the session navigator, decided on the lower-cased
    URL in the order in which [attempt] tests it; the flag of
    [AuthChallenge] marks the multi-factor, verification and challenge
    pages. *)
Inductive page_class :=
| Library
| Landing
| AuthChallenge (manual : bool)
| Unknown.

Definition classify (page_url : string) : page_class :=
  let current_url := Py.lower page_url in
  if Py.contains "read.amazon.com/kindle-library" current_url then Library
  else if Py.contains "landing" current_url then Landing
  else if Scraper.any_in Scraper.auth_pages current_url
  then AuthChallenge (Scraper.any_in Scraper.manual_pages current_url)
  else Unknown.

(** Where a rule matches.  [none_within at_head before rest]: in the
    text [before] followed by [rest] no match of the rule starts at a
    character of [before]. *)
Fixpoint none_within {A} (at_head : string -> option A) (before rest : string) : bool :=
  match before with
  | EmptyString => true
  | String c before' =>
      match at_head (String c before' +:+ rest) with
      | Some _ => false
      | None => none_within at_head before' rest
      end
  end.

(** A capture of [(\d+)] in front of [rest]: one digit or more, and all
    the digits there are. *)
Definition digit_run (d rest : string) : Prop :=
  d ≠ EmptyString /\ Js.all_chars Js.is_digit d = true
  /\ Js.starts_with_digit rest = false.

(** A stretch matched by [\s+]. *)
Definition space_run (ws : string) : Prop :=
  ws ≠ EmptyString /\ Js.all_chars Js.is_space ws = true.

(** A stretch matched by a literal under the [i] flag. *)
Definition literal (pat m : string) : Prop := Js.lit_ci pat m = Some EmptyString.

(** [\s+(\d+)\s+of\s+(\d+)] at the head of [s], followed by [rest]. *)
Definition x_of_y_form (s d1 d2 rest : string) : Prop :=
  exists ws1 ws2 o ws3,
    s = ws1 +:+ d1 +:+ ws2 +:+ o +:+ ws3 +:+ d2 +:+ rest
    /\ space_run ws1 /\ digit_run d1 (ws2 +:+ o +:+ ws3 +:+ d2 +:+ rest)
    /\ space_run ws2 /\ literal "of" o /\ space_run ws3 /\ digit_run d2 rest.

(** The kind of a streamed event with the counters it carries. *)
Inductive shape :=
| Started (total_books : Z)
| BookProgress (current total : Z)
| BookComplete (current total : Z)
| Completed (books_scraped : Z)
| Error
| Malformed.

Definition int_field (e : gmap string Scraper.value) (key : string) : option Z :=
  match e !! key with
  | Some (Scraper.VInt z) => Some z
  | _ => None
  end.

Definition kind (e : gmap string Scraper.value) : string :=
  match e !! "event" with
  | Some (Scraper.VStr k) => k
  | _ => EmptyString
  end.

Definition shape_of (e : gmap string Scraper.value) : shape :=
  let k := kind e in
  if String.eqb k "started" then
    from_option Started Malformed (int_field e "total_books")
  else if String.eqb k "book_progress" then
    match int_field e "current", int_field e "total" with
    | Some c, Some t => BookProgress c t
    | _, _ => Malformed
    end
  else if String.eqb k "book_complete" then
    match int_field e "current", int_field e "total" with
    | Some c, Some t => BookComplete c t
    | _, _ => Malformed
    end
  else if String.eqb k "completed" then
    from_option Completed Malformed (int_field e "books_scraped")
  else if String.eqb k "error" then Error
  else Malformed.

(** The events of items [first + 1 .. first + count] of [total]. *)
Definition item_shapes (first count total : nat) : list shape :=
  flat_map
    (λ i, [BookProgress (Z.of_nat (i + 1)) (Z.of_nat total);
           BookComplete (Z.of_nat (i + 1)) (Z.of_nat total)])
    (seq first count).

(** The events of a pass over [n] items up to the terminal one. *)
Definition open_shapes (n : nat) : list shape :=
  Started (Z.of_nat n) :: item_shapes 0 n n.

(** The whole sequence of a pass over [n] items without fatal error. *)
Definition success_shapes (n : nat) : list shape :=
  open_shapes n ++ [Completed (Z.of_nat n)].

(** A completed or error event ends the stream. *)
Definition terminal (s : shape) : bool :=
  match s with
  | Completed _ | Error => true
  | _ => false
  end.

(** The five forms of a streamed event. *)
Inductive event_form : gmap string Scraper.value -> Prop :=
| form_started n ts : event_form (Scraper.started_event n ts)
| form_book_progress c t title asin :
    event_form (Scraper.book_progress_event c t title asin)
| form_book_complete c t title asin pc ok err :
    event_form (Scraper.book_complete_event c t title asin pc ok err)
| form_completed n k d ts lic : event_form (Scraper.completed_event n k d ts lic)
| form_error msg : event_form (Scraper.error_event msg).

(** The two forms of a batch summary. *)
Inductive summary_form : gmap string Scraper.value -> Prop :=
| form_success n k ts lic : summary_form (Scraper.success_summary n k ts lic)
| form_failure msg ts : summary_form (Scraper.failure_summary msg ts).

(** [m] leaves the view [f] of the state as it is, however it ends. *)
Definition preserves {W A X} (f : Scraper.State W -> X) (m : Scraper.M W A) : Prop :=
  forall st, f (snd (m st)) = f st.

(** A view of the state that looks at neither the world nor the actions. *)
Definition quiet {W X} (f : Scraper.State W -> X) : Prop :=
  forall st w a,
    f {| Scraper.world := w; Scraper.db := Scraper.db st;
         Scraper.has_page := Scraper.has_page st;
         Scraper.actions := a; Scraper.events := Scraper.events st |} = f st.

(** [m] always returns: no exception leaves it. *)
Definition never_raises {W A} (m : Scraper.M W A) : Prop :=
  forall st, exists a, fst (m st) = Scraper.Ok a.

(** A number of a script result that reaches Python as the [int] it
    is, between 0 and 2^53. *)
Definition page_number (n : Z) : bool :=
  match Js.to_python (Js.of_Z n) with
  | Py.PyInt z => (z =? n) && (0 <=? n) && (n <=? 2 ^ 53)
  | Py.PyFloat _ => false
  end.

(** What the reader script found can be bound to the statements of the
    ledger. *)
Definition fits (info : Extractor.ProgressInfo) : bool :=
  from_option page_number true (Extractor.current info)
  && from_option page_number true (Extractor.total info)
  && Ledger.binds (Js.to_python <$> Extractor.percent info).

(** Conditions under which the ledger calls of a pass over [items]
    books return.  The settings of the ledger parse, and no clock of the
    world reads a time whose day key would fall before the first date.
    What the reader script returns fits.  No position of the ledger is
    negative, and the count of every date has room for the pages of
    [items] snapshots. *)
Definition pass_sound {W} (env : Scraper.Env W) (cfg : Ledger.Settings)
    (items : nat) (d : Ledger.DB) : Prop :=
  (exists h, Ledger.reset_hour cfg d = Some h)
  /\ (exists g, Ledger.page_goal cfg d = Some g)
  /\ (forall w,
        1 < Py.year (Py.dt_date (Ledger.now_key (Scraper.ledger_clock env w)))
        /\ 1 < Py.year (Py.dt_date (Ledger.now_stats (Scraper.ledger_clock env w))))
  /\ (forall w doc w',
        Scraper.evaluate_reader env w = (Scraper.Ok doc, w') ->
        fits (Extractor.progress_info doc) = true)
  /\ (forall r, In r (Ledger.reading_progress d) -> 0 <= Ledger.position r)
  /\ (forall date,
        0 <= Ledger.pages_on d date
        /\ Ledger.pages_on d date + Z.of_nat items * 2 ^ 53 < 2 ^ 63).

(** A library entry with its position forgotten. *)
Definition without_position (b : Extractor.LibraryBook) : Extractor.LibraryBook := {|
  Extractor.debug_html := Extractor.debug_html b;
  Extractor.debug_text := Extractor.debug_text b;
  Extractor.debug_percent_el := Extractor.debug_percent_el b;
  Extractor.asin := Extractor.asin b;
  Extractor.title := Extractor.title b;
  Extractor.authors := Extractor.authors b;
  Extractor.coverUrl := Extractor.coverUrl b;
  Extractor.totalPages := Extractor.totalPages b;
  Extractor.currentPosition := None;
  Extractor.percentComplete := Extractor.percentComplete b;
  Extractor.lastReadTimestamp := Extractor.lastReadTimestamp b |}.

(** Every run of [m], however it ends, takes the state to one that [R]
    relates to it. *)
Definition steps {W A} (R : relation (Scraper.State W)) (m : Scraper.M W A) : Prop :=
  forall st, R st (snd (m st)).

(** [m] returns only results that satisfy [Q]. *)
Definition returns {W A} (Q : A -> Prop) (m : Scraper.M W A) : Prop :=
  forall st a st', m st = (Scraper.Ok a, st') -> Q a.

(** The actions of [st'] are those of [st] followed by actions that
    satisfy [P]. *)
Definition acts {W} (P : Scraper.Action -> Prop) (st st' : Scraper.State W) : Prop :=
  exists l, Scraper.actions st' = Scraper.actions st ++ l /\ Forall P l.

(** What a pass may do with the account: it navigates to the reader or
    to the library, and it types the configured e-mail address into the
    e-mail field and the configured password into the password field,
    neither of them empty. *)
Definition permitted (settings : Scraper.Settings) (a : Scraper.Action) : Prop :=
  match a with
  | Scraper.Goto url => url = Scraper.CLOUD_READER_URL \/ url = Scraper.LIBRARY_URL
  | Scraper.Fill selector value =>
      Py.nonempty value = true
      /\ (selector = Scraper.email_selector /\ value = Scraper.amazon_email settings
          \/ selector = Scraper.password_selector
             /\ value = Scraper.amazon_password settings)
  | Scraper.LocatorFill l value =>
      Py.nonempty value = true
      /\ (l = Scraper.email_field /\ value = Scraper.amazon_email settings
          \/ l = Scraper.password_field /\ value = Scraper.amazon_password settings)
  | _ => True
  end.

(** How the steps on an auth page end: with [None], to try again, or
    with the verdict [False]. *)
Definition retry_or_false (r : option Scraper.login_status) : Prop :=
  r = None \/ r = Some Scraper.NotLoggedIn.

(** The page a verdict of the navigator is given on. *)
Definition verdict_holds {W} (env : Scraper.Env W) (r : Scraper.login_status)
    (st : Scraper.State W) : Prop :=
  match r with
  | Scraper.LoggedIn => classify (Scraper.page_url env (Scraper.world st)) = Library
  | Scraper.Manual2FARequired =>
      classify (Scraper.page_url env (Scraper.world st)) = AuthChallenge true
  | Scraper.NotLoggedIn => True
  end.

(** Whenever [m] returns, the last action taken is [a]. *)
Definition closes_with {W A} (a : Scraper.Action) (m : Scraper.M W A) : Prop :=
  forall st r st',
    m st = (Scraper.Ok r, st') ->
    exists l, Scraper.actions st' = Scraper.actions st ++ l ++ [a].

(** [d'] holds what [d] holds: the same settings, the snapshots of [d]
    followed by new ones, the books of [d], and no smaller count of
    pages on any date. *)
Definition ledger_grows (d d' : Ledger.DB) : Prop :=
  Ledger.settings d' = Ledger.settings d
  /\ (exists more, Ledger.reading_progress d' = Ledger.reading_progress d ++ more)
  /\ (forall asin, is_Some (Ledger.books d !! asin) -> is_Some (Ledger.books d' !! asin))
  /\ forall date, Ledger.pages_on d date <= Ledger.pages_on d' date.

(** The same between the ledgers of two states of a run. *)
Definition keeps_ledger {W} (st st' : Scraper.State W) : Prop :=
  ledger_grows (Scraper.db st) (Scraper.db st').

(** The stored settings are values the API accepts: a goal of 1 to 1000
    pages and a reset hour of 0 to 23. *)
Definition settings_in_range (cfg : Ledger.Settings) (d : Ledger.DB) : Prop :=
  (exists goal, Ledger.page_goal cfg d = Some goal /\ 1 <= goal <= 1000)
  /\ (exists h, Ledger.reset_hour cfg d = Some h /\ 0 <= h <= 23).

End Spec.

(** ** Sample data for the worked examples *)

Module Samples.
Import Ledger.

Definition sample_cfg : Settings := Build_Settings 30 4.

Definition sample_noon : Py.datetime := Py.DateTime (Py.Date 2024 1 15) 12 0 0.

Definition sample_clock (t : Z) : Clock := Build_Clock sample_noon t t sample_noon t.

(** An API configuration with a secret key of its own. *)
Definition sample_api : Api.Config :=
  {| Api.api_secret_key := "s3cret"; Api.defaults := sample_cfg |}.

(** A ledger with one book whose first snapshot is at position 50. *)
Definition sample_db : DB :=
  insert_progress (upsert_book init_db 1 "B00TEST001" "The Great Book" ["John Author"] None None)
    2 "B00TEST001" 50 (Some (Py.PyInt 16)).

(** A ledger with one book whose first snapshot is at position 0. *)
Definition fresh_db : DB :=
  insert_progress (upsert_book init_db 1 "B00TEST001" "The Great Book" ["John Author"] None None)
    2 "B00TEST001" 0 (Some (Py.PyInt 0)).

(** A small scripted world.  The library lists three books; opening one
    shows its reader page: a footer with a page number for A1, the license
    dialog for B2, nothing for C3.  Every navigation ends at [landing],
    which is the library when the session is valid. *)
Record World := {
  url : string;
  landing : string;
  opened : string;
  clock : Z }.

Definition item (asin label percent : string) : Extractor.LibraryItem := {|
  Extractor.item_id := "library-item-option-" +:+ asin;
  Extractor.aria_label := Some label;
  Extractor.text_nodes := [];
  Extractor.img_src := None;
  Extractor.author_text := Some " A. Writer ";
  Extractor.progress_text := None;
  Extractor.progress_class_text := Some (percent +:+ "%");
  Extractor.item_innerText := label +:+ " " +:+ percent +:+ "%";
  Extractor.item_textContent := label;
  Extractor.item_outerHTML := "<div></div>" |}.

Definition library_doc : Extractor.LibraryDocument := {|
  Extractor.library_items :=
    [item "A1" "Book A" "45"; item "B2" "Book B" "10"; item "C3" "Book C" "0"];
  Extractor.getElementById := λ _, None;
  Extractor.element_outerHTML := λ _, EmptyString |}.

Definition reader_doc (footer body : string) : Extractor.Document := {|
  Extractor.querySelectorAll := λ selector,
    if String.eqb selector "#kindleReader_footer"
    then [{| Extractor.textContent := footer; Extractor.innerText := footer |}]
    else [];
  Extractor.body_innerText := body |}.

Definition moved (w : World) (to : string) : World :=
  {| url := to; landing := landing w; opened := EmptyString; clock := clock w |}.

Definition opening (w : World) (selector : string) : World :=
  {| url := url w; landing := landing w; opened := selector; clock := clock w |}.

Definition still {A} (a : A) (w : World) : Scraper.result A * World := (Scraper.Ok a, w).

Definition sample_env : Scraper.Env World := {|
  Scraper.page_url := url;
  Scraper.page_goto := λ _ w, (Scraper.Ok (), moved w (landing w));
  Scraper.page_click := λ _, still ();
  Scraper.page_fill := λ _ _, still ();
  Scraper.page_wait_for_selector := λ _, still ();
  Scraper.page_wait_for_url := λ _, still ();
  Scraper.page_title := still "Kindle";
  Scraper.page_viewport_size := λ _, Some (1280, 720);
  Scraper.mouse_click := λ _ _, still ();
  Scraper.locator_count := λ l w,
    (Scraper.Ok (if String.prefix "#library-item-option-" (Scraper.css l) then 1 else 0)%nat, w);
  Scraper.locator_input_value := λ _, still EmptyString;
  Scraper.locator_fill := λ _ _, still ();
  Scraper.locator_click := λ l _ w, (Scraper.Ok (), opening w (Scraper.css l));
  Scraper.locator_text_content := λ _ _, still None;
  Scraper.evaluate_body_text := λ w,
    (Scraper.Ok (if String.eqb (opened w) "#library-item-option-B2"
                 then "License Limit Reached" else "Chapter 1"), w);
  Scraper.evaluate_reader := λ w,
    (Scraper.Ok (if String.eqb (opened w) "#library-item-option-A1"
                 then reader_doc "Page 25 of 300" "Chapter 1 Page 25 of 300"
                 else reader_doc EmptyString "Chapter 1"), w);
  Scraper.evaluate_lookup := still ();
  Scraper.evaluate_library := still library_doc;
  Scraper.datetime_now := λ w, sample_noon;
  Scraper.current_timestamp := clock;
  Scraper.ledger_clock := λ w, sample_clock (clock w);
  Scraper.time_time := clock;
  Scraper.clock_tick := λ w,
    {| url := url w; landing := landing w; opened := opened w; clock := clock w + 1 |} |}.

Definition sample_settings : Scraper.Settings := {|
  Scraper.amazon_email := EmptyString;
  Scraper.amazon_password := EmptyString;
  Scraper.ledger := sample_cfg |}.

Definition state_at (page : string) (d : Ledger.DB) : Scraper.State World := {|
  Scraper.world := {| url := page; landing := page; opened := EmptyString; clock := 100 |};
  Scraper.db := d;
  Scraper.has_page := true;
  Scraper.actions := [];
  Scraper.events := [] |}.

(** The ledger before the pass: book A1 was seen at position 10. *)
Definition seen_db : Ledger.DB :=
  insert_progress (upsert_book init_db 1 "A1" "Book A" [] None None)
    2 "A1" 10 (Some (Py.PyInt 3)).

(** A valid session, and a session stopped at a multi-factor page. *)
Definition logged_in_state : Scraper.State World :=
  state_at "https://read.amazon.com/kindle-library" seen_db.

Definition mfa_state : Scraper.State World :=
  state_at "https://www.amazon.com/ap/mfa?ie=UTF8" seen_db.

(** A scraper whose browser was never started. *)
Definition no_page_state : Scraper.State World := {|
  Scraper.world := Scraper.world logged_in_state;
  Scraper.db := seen_db;
  Scraper.has_page := false;
  Scraper.actions := [];
  Scraper.events := [] |}.

End Samples.

(** * Properties *)
(** ** Properties of the ledger *)

Section LedgerProperties.
Import Ledger Samples.

Lemma insert_progress_rows db ts asin pos pc :
  reading_progress (insert_progress db ts asin pos pc)
  = reading_progress db ++ [Build_Progress asin pos (stored_percent pc) ts].
Proof. reflexivity. Qed.

Lemma pages_on_add_same db ts today delta :
  pages_on (add_pages db ts today delta) today = pages_on db today + delta.
Proof.
  unfold pages_on, add_pages; simpl.
  rewrite lookup_insert_eq.
  destruct (daily_stats db !! today); simpl; lia.
Qed.

Lemma daily_add_other db ts today delta d :
  d ≠ today ->
  daily_stats (add_pages db ts today delta) !! d = daily_stats db !! d.
Proof. intros Hd. unfold add_pages; simpl. by rewrite lookup_insert_ne. Qed.

Lemma pages_on_mark db ts today d :
  pages_on (mark_goal_met db ts today) d = pages_on db d.
Proof.
  unfold pages_on, mark_goal_met; simpl.
  rewrite lookup_alter. case_decide as E; [subst d|reflexivity].
  by destruct (daily_stats db !! today).
Qed.

Lemma daily_mark_other db ts today d :
  d ≠ today ->
  daily_stats (mark_goal_met db ts today) !! d = daily_stats db !! d.
Proof.
  intros Hd. unfold mark_goal_met; simpl.
  rewrite lookup_alter. case_decide; congruence.
Qed.

(** The row [latest] returns is one of the rows, or the running best. *)
Lemma latest_in rows : forall best r,
  latest best rows = Some r -> best = Some r \/ In r rows.
Proof.
  induction rows as [|x rows IH]; simpl; intros best r H; [by left|].
  apply IH in H as [H|H]; [|by right; right].
  destruct best as [b|].
  - destruct (recorded_at b <? recorded_at x); inversion H; subst; auto.
  - inversion H; subst; auto.
Qed.

Lemma latest_max rows : forall best r,
  latest best rows = Some r ->
  (forall b, best = Some b -> recorded_at b <= recorded_at r)
  /\ (forall x, In x rows -> recorded_at x <= recorded_at r).
Proof.
  induction rows as [|x rows IH]; simpl; intros best r H.
  - split; [|tauto]. intros b ->. inversion H; lia.
  - apply IH in H as [Hb Hr].
    destruct best as [b|].
    + destruct (recorded_at b <? recorded_at x) eqn:E.
      * apply Z.ltb_lt in E. pose proof (Hb x eq_refl).
        split; [intros b' [= <-]; lia|]. intros y [<-|Hy]; auto.
      * apply Z.ltb_ge in E. pose proof (Hb b eq_refl).
        split; [intros b' [= <-]; lia|]. intros y [<-|Hy]; [lia|auto].
    + pose proof (Hb x eq_refl).
      split; [discriminate|]. intros y [<-|Hy]; auto.
Qed.

Lemma latest_none rows : forall best, latest best rows = None -> best = None /\ rows = [].
Proof.
  induction rows as [|x rows IH]; simpl; intros best H; [auto|].
  apply IH in H as [H _]. destruct best as [b|]; [destruct (_ <? _)|]; discriminate.
Qed.

(** [last_progress] is a snapshot of the book with maximal [recorded_at];
    it is absent exactly when the book has no snapshot. *)
Lemma last_progress_spec db asin r :
  last_progress db asin = Some r ->
  In r (reading_progress db) /\ pr_asin r = asin
  /\ forall x, In x (reading_progress db) -> pr_asin x = asin ->
       recorded_at x <= recorded_at r.
Proof.
  unfold last_progress, rows_of. intros H.
  pose proof (latest_in _ _ _ H) as [Hin|Hin]; [discriminate|].
  apply filter_In in Hin as [Hin Ha]. apply String.eqb_eq in Ha.
  repeat split; auto.
  intros x Hx Hxa. apply (latest_max _ _ _ H).
  apply filter_In. split; [done|]. by apply String.eqb_eq.
Qed.

Lemma last_progress_none db asin :
  last_progress db asin = None <->
  forall x, In x (reading_progress db) -> pr_asin x ≠ asin.
Proof.
  unfold last_progress, rows_of. split.
  - intros H x Hx Ha. apply latest_none in H as [_ H].
    assert (Hin : In x (List.filter (λ r, String.eqb (pr_asin r) asin) (reading_progress db))).
    { apply filter_In. split; [done|]. by apply String.eqb_eq. }
    rewrite H in Hin. destruct Hin.
  - intros H.
    destruct (List.filter _ _) as [|y l] eqn:E; [reflexivity|].
    assert (Hin : In y (List.filter (λ r, String.eqb (pr_asin r) asin) (reading_progress db))).
    { rewrite E. by left. }
    apply filter_In in Hin as [Hin Ha]. apply String.eqb_eq in Ha.
    by destruct (H y Hin).
Qed.

(** Among snapshots of the book with the same [recorded_at], which has
    the resolution of a second, the baseline is the one inserted first:
    the rows before it are strictly older and no row is newer. *)
Lemma latest_first_of_newest rows : forall best r,
  latest best rows = Some r ->
  (best = Some r /\ Forall (λ x, recorded_at x <= recorded_at r) rows)
  \/ exists l1 l2,
       rows = l1 ++ r :: l2
       /\ (forall b, best = Some b -> recorded_at b < recorded_at r)
       /\ Forall (λ x, recorded_at x < recorded_at r) l1
       /\ Forall (λ x, recorded_at x <= recorded_at r) l2.
Proof.
  induction rows as [|x rows IH]; intros best r H.
  { left. split; [exact H|constructor]. }
  cbn [latest] in H. apply IH in H as [[Hb Hall]|(l1 & l2 & -> & Hb & H1 & H2)].
  - destruct best as [b|].
    + destruct (recorded_at b <? recorded_at x) eqn:E; injection Hb as <-.
      * right. exists [], rows. split; [done|]. split; [|by split].
        intros b' [= <-]. by apply Z.ltb_lt.
      * left. split; [done|]. constructor; [|done]. by apply Z.ltb_ge.
    + injection Hb as <-. right. exists [], rows. by repeat split.
  - right. exists (x :: l1), l2. split; [done|].
    assert (recorded_at x < recorded_at r) as Hx.
    { destruct best as [b|].
      - destruct (recorded_at b <? recorded_at x) eqn:E.
        + by apply Hb.
        + apply Z.ltb_ge in E. specialize (Hb b eq_refl). lia.
      - by apply Hb. }
    split; [|split; [by constructor|done]].
    intros b ->.
    destruct (recorded_at b <? recorded_at x) eqn:E.
    + apply Z.ltb_lt in E. lia.
    + by apply Hb.
Qed.

Lemma last_progress_first_of_newest db asin r :
  last_progress db asin = Some r ->
  exists l1 l2,
    rows_of db asin = l1 ++ r :: l2
    /\ Forall (λ x, recorded_at x < recorded_at r) l1
    /\ Forall (λ x, recorded_at x <= recorded_at r) l2.
Proof.
  intros H. apply latest_first_of_newest in H as [[H _]|(l1 & l2 & E & _ & H1 & H2)];
    [discriminate|]. by exists l1, l2.
Qed.

(** C1, at a failing input: the scenario of the specification (50
    first, then 75, then 60) with the three calls in the same second.
    After the second call the previous snapshot of the book stands at 75
    and 25 pages are counted.  The third call, at the lower position 60,
    takes the snapshot at 50 for its baseline, the first of those with
    the newest [recorded_at], and counts 10 more pages. *)
Theorem same_second_snapshots_counted_again :
  let key := "2024-01-15" in
  let db0 := upsert_book init_db 1 "B1" "T" [] None None in
  exists db1 db2 db3,
    record_progress sample_cfg db0 (sample_clock 10) "B1" 50 (Some (Py.PyInt 0)) = Some db1
    /\ record_progress sample_cfg db1 (sample_clock 10) "B1" 75 (Some (Py.PyInt 0)) = Some db2
    /\ record_progress sample_cfg db2 (sample_clock 10) "B1" 60 (Some (Py.PyInt 0)) = Some db3
    /\ map (λ r, (position r, recorded_at r)) (reading_progress db2) = [(50, 10); (75, 10)]
    /\ pages_on db2 key = 25
    /\ pages_on db3 key = 35.
Proof.
  simpl. eexists _, _, _.
  split; [reflexivity|]. split; [vm_compute; reflexivity|].
  split; [vm_compute; reflexivity|]. by vm_compute.
Qed.

(** With the three calls in different seconds the scenario gives what the
    specification says. *)
Example delta_accumulation_scenario :
  let key := "2024-01-15" in
  let db0 := upsert_book init_db 1 "B1" "T" [] None None in
  exists db1 db2 db3,
    record_progress sample_cfg db0 (sample_clock 10) "B1" 50 (Some (Py.PyInt 0)) = Some db1
    /\ record_progress sample_cfg db1 (sample_clock 20) "B1" 75 (Some (Py.PyInt 0)) = Some db2
    /\ record_progress sample_cfg db2 (sample_clock 30) "B1" 60 (Some (Py.PyInt 0)) = Some db3
    /\ daily_stats db1 = ∅
    /\ pages_on db2 key = 25
    /\ pages_on db3 key = 25
    /\ length (reading_progress db3) = 3%nat.
Proof.
  simpl. eexists _, _, _.
  split; [reflexivity|]. split; [vm_compute; reflexivity|].
  split; [vm_compute; reflexivity|]. by vm_compute.
Qed.

(** The goal check of [record_progress] compares the goal with the
    [pages_read] that was committed before the call: the row it reads comes
    from the second connection of [get_today_stats]. *)
Lemma goal_check_on_committed_rows cfg db ck asin pos pc today db' :
  get_today_key cfg db (now_key ck) = Some today ->
  get_today_key cfg db (now_stats ck) = Some today ->
  record_progress cfg db ck asin pos pc = Some db' ->
  goal_met_on db' today =
    match goal_met_on db today with
    | Some t => Some t
    | None =>
        match last_progress db asin, page_goal cfg db with
        | Some prev, Some goal =>
            if (position prev <? pos) && (goal <=? pages_on db today)
            then Some (ts_goal ck) else None
        | _, _ => None
        end
    end.
Proof.
  intros Hkey Hk2. unfold record_progress. rewrite Hkey; simpl.
  destruct (sqlite_int pos && binds pc); [|discriminate].
  destruct (last_progress db asin) as [prev|].
  2:{ intros [= <-]. unfold goal_met_on, insert_progress; cbn [daily_stats].
      by destruct (daily_stats db !! today ≫= goal_met_at). }
  destruct (position prev <? pos); simpl.
  2:{ intros [= <-]. unfold goal_met_on, insert_progress; cbn [daily_stats].
      by destruct (daily_stats db !! today ≫= goal_met_at), (page_goal cfg db). }
  match goal with |- context [if ?c then _ else None] => destruct c end;
    [|discriminate].
  destruct (page_goal cfg db) as [goal|] eqn:Hgoal; simpl; [|discriminate].
  unfold get_today_stats. rewrite Hk2, Hgoal; simpl.
  unfold goal_met_on, pages_on, mark_goal_met, add_pages; simpl.
  destruct (daily_stats db !! today) as [row|] eqn:Hrow; simpl.
  - destruct (goal_met_at row) as [t|] eqn:Ht; simpl.
    + rewrite andb_false_r. intros [= <-]; simpl.
      rewrite lookup_insert_eq; simpl. done.
    + rewrite andb_true_r. destruct (goal <=? pages_read row); intros [= <-]; simpl.
      * rewrite lookup_alter, decide_True by done.
        by rewrite lookup_insert_eq.
      * by rewrite lookup_insert_eq.
  - rewrite andb_true_r. destruct (goal <=? 0); intros [= <-]; simpl.
    + rewrite lookup_alter, decide_True by done.
      by rewrite lookup_insert_eq.
    + by rewrite lookup_insert_eq.
Qed.

(** Once set, [goal_met_at] of the day is kept by every later call. *)
Lemma goal_met_at_kept cfg db ck asin pos pc today db' t :
  get_today_key cfg db (now_key ck) = Some today ->
  get_today_key cfg db (now_stats ck) = Some today ->
  record_progress cfg db ck asin pos pc = Some db' ->
  goal_met_on db today = Some t ->
  goal_met_on db' today = Some t.
Proof.
  intros Hkey Hk2 Hrun Ht.
  rewrite (goal_check_on_committed_rows _ _ _ _ _ _ _ _ Hkey Hk2 Hrun).
  by rewrite Ht.
Qed.

Lemma reset_daily_stats_clears db date :
  goal_met_on (reset_daily_stats db) date = None
  /\ pages_on (reset_daily_stats db) date = 0.
Proof. unfold goal_met_on, pages_on; simpl. by rewrite lookup_empty. Qed.

(** C2, at the failing input.  The goal is 30 and the book stands at 0.
    The call that brings [pages_read] to 30 leaves [goal_met_at] unset;
    it is the next increase, to 31, that sets it. *)
Theorem goal_reached_left_unmarked :
  exists db1 db2,
    page_goal sample_cfg fresh_db = Some 30
    /\ record_progress sample_cfg fresh_db (sample_clock 10) "B00TEST001" 30 (Some (Py.PyInt 10))
       = Some db1
    /\ pages_on db1 "2024-01-15" = 30
    /\ goal_met_on db1 "2024-01-15" = None
    /\ record_progress sample_cfg db1 (sample_clock 20) "B00TEST001" 31 (Some (Py.PyInt 10))
       = Some db2
    /\ pages_on db2 "2024-01-15" = 31
    /\ goal_met_on db2 "2024-01-15" = Some 20.
Proof.
  eexists _, _. split; [reflexivity|].
  split; [vm_compute; reflexivity|].
  split; [reflexivity|]. split; [reflexivity|].
  split; [vm_compute; reflexivity|].
  split; reflexivity.
Qed.

(** [sub_one_day] is the previous calendar date: the ordinal drops by one,
    and only 0001-01-01 has none. *)
Lemma days_before_year_succ y :
  Py.days_before_year (y + 1)
  = Py.days_before_year y + 365 + (if Py.is_leap y then 1 else 0).
Proof.
  unfold Py.days_before_year, Py.is_leap.
  replace (y + 1 - 1) with y by lia.
  destruct (y mod 4 =? 0) eqn:E4; destruct (y mod 100 =? 0) eqn:E100;
    destruct (y mod 400 =? 0) eqn:E400; simpl;
    rewrite ?Z.eqb_eq, ?Z.eqb_neq in *;
    Z.div_mod_to_equations; lia.
Qed.

Lemma sub_one_day_ordinal d :
  Py.valid_date d ->
  match Py.sub_one_day d with
  | Some d' => Py.valid_date d' /\ Py.toordinal d' = Py.toordinal d - 1
  | None => d = Py.Date 1 1 1
  end.
Proof.
  destruct d as [y m dd]. unfold Py.valid_date, Py.sub_one_day, Py.toordinal; simpl.
  intros (Hy & Hm & Hd).
  destruct (1 <? dd) eqn:Ed; simpl.
  { apply Z.ltb_lt in Ed. split; [|lia]. repeat split; lia. }
  apply Z.ltb_ge in Ed. assert (dd = 1) as -> by lia.
  destruct (1 <? m) eqn:Em; simpl.
  { apply Z.ltb_lt in Em.
    assert (m = 2 \/ m = 3 \/ m = 4 \/ m = 5 \/ m = 6 \/ m = 7 \/ m = 8
            \/ m = 9 \/ m = 10 \/ m = 11 \/ m = 12) as Hc by lia.
    unfold Py.days_in_month, Py.days_before_month.
    repeat destruct Hc as [->|Hc]; try subst m; simpl;
      destruct (Py.is_leap y); simpl; (split; [repeat split; lia|lia]). }
  apply Z.ltb_ge in Em. assert (m = 1) as -> by lia.
  destruct (1 <? y) eqn:Ey; simpl.
  { apply Z.ltb_lt in Ey. split; [unfold Py.days_in_month; repeat split; simpl; lia|].
    pose proof (days_before_year_succ (y - 1)) as H.
    replace (y - 1 + 1) with y in H by lia.
    unfold Py.days_before_month; simpl.
    destruct (Py.is_leap (y - 1)); lia. }
  apply Z.ltb_ge in Ey. f_equal; lia.
Qed.

(** C3. With reset hour [h], the day key is the current date from hour
    [h] on and the previous calendar date before it; with [h = 4], 03:59
    belongs to the previous date and 04:00 to the current one. *)
Theorem get_today_key_reset_hour cfg db now h :
  reset_hour cfg db = Some h ->
  (h <= Py.hour now ->
     get_today_key cfg db now = Some (Py.isoformat (Py.dt_date now)))
  /\ (Py.hour now < h ->
     get_today_key cfg db now = Py.isoformat <$> Py.sub_one_day (Py.dt_date now))
  /\ (h = 4 -> forall d s,
     get_today_key cfg db (Py.DateTime d 3 59 s) = Py.isoformat <$> Py.sub_one_day d
     /\ get_today_key cfg db (Py.DateTime d 4 0 s) = Some (Py.isoformat d)).
Proof.
  intros Hh. unfold get_today_key. rewrite Hh; simpl.
  split; [|split].
  - intros H. apply Z.ltb_ge in H. by rewrite H.
  - intros H. apply Z.ltb_lt in H. rewrite H.
    by destruct (Py.sub_one_day _).
  - intros -> d s; simpl. by destruct (Py.sub_one_day d).
Qed.

Lemma get_today_key_reset_hour_witness :
  get_today_key sample_cfg init_db (Py.DateTime (Py.Date 2024 1 15) 3 59 0)
    = Some "2024-01-14"
  /\ get_today_key sample_cfg init_db (Py.DateTime (Py.Date 2024 1 15) 4 0 0)
    = Some "2024-01-15".
Proof.
  destruct (get_today_key_reset_hour sample_cfg init_db sample_noon 4 eq_refl)
    as (_ & _ & H).
  destruct (H eq_refl (Py.Date 2024 1 15) 0) as [H1 H2].
  split; [exact H1 | exact H2].
Defined.

(** The two cases of the test-suite: 03:00 and 05:00 on 2024-01-15. *)
Example get_today_key_tests :
  get_today_key sample_cfg init_db (Py.DateTime (Py.Date 2024 1 15) 3 0 0) = Some "2024-01-14"
  /\ get_today_key sample_cfg init_db (Py.DateTime (Py.Date 2024 1 15) 5 0 0) = Some "2024-01-15"
  /\ get_today_key sample_cfg init_db (Py.DateTime (Py.Date 2024 3 1) 3 59 59) = Some "2024-02-29"
  /\ get_today_key sample_cfg init_db (Py.DateTime (Py.Date 2024 1 1) 0 0 0) = Some "2023-12-31".
Proof. repeat split. Qed.

(** C7. [upsert_book] on a stored book keeps the stored [total_pages]
    and [cover_url] when the new value is absent and replaces them when it
    is present; title and authors are always replaced. *)
Theorem upsert_book_merge db ts asin t a tp cu old :
  books db !! asin = Some old ->
  exists new,
    books (upsert_book db ts asin t a tp cu) !! asin = Some new
    /\ total_pages new = match tp with Some n => Some n | None => total_pages old end
    /\ cover_url new = match cu with Some u => Some u | None => cover_url old end
    /\ title new = t /\ authors new = a.
Proof.
  intros Hold. unfold upsert_book; simpl. rewrite Hold.
  eexists. rewrite lookup_insert_eq. repeat split.
Qed.

Lemma upsert_book_merge_witness :
  exists new,
    books (upsert_book
             (upsert_book init_db 1 "B1" "T" [] (Some 300) (Some "https://example.com/c.jpg"))
             2 "B1" "T" [] None None) !! "B1" = Some new
    /\ total_pages new = Some 300
    /\ cover_url new = Some "https://example.com/c.jpg".
Proof.
  destruct (upsert_book_merge
              (upsert_book init_db 1 "B1" "T" [] (Some 300) (Some "https://example.com/c.jpg"))
              2 "B1" "T" [] None None
              (Build_Book "T" [] (Some 300) (Some "https://example.com/c.jpg") 1) eq_refl)
    as (new & H1 & H2 & H3 & _).
  exists new. split; [exact H1|]. split; [exact H2 | exact H3].
Defined.

(** The merge scenario of the specification, for any earlier content. *)
Lemma upsert_book_keeps_300 db ts1 ts2 asin t1 a1 cu1 t2 a2 :
  total_pages <$>
    books (upsert_book (upsert_book db ts1 asin t1 a1 (Some 300) cu1)
             ts2 asin t2 a2 None None) !! asin
  = Some (Some 300).
Proof.
  unfold upsert_book; simpl. rewrite !lookup_insert_eq; simpl.
  by destruct (books db !! asin).
Qed.

(** Other books are not touched by an upsert. *)
Lemma upsert_book_other db ts asin t a tp cu other :
  other ≠ asin ->
  books (upsert_book db ts asin t a tp cu) !! other = books db !! other.
Proof. intros H. unfold upsert_book; simpl. by rewrite lookup_insert_ne. Qed.

(** When [record_progress] returns: the settings parse and neither day
    key falls before the first date.  The settings are left as they are. *)
Lemma sub_one_day_some d : 1 < Py.year d -> is_Some (Py.sub_one_day d).
Proof.
  intros Hy. unfold Py.sub_one_day.
  destruct (1 <? Py.day d); [by eexists|].
  destruct (1 <? Py.month d); [by eexists|].
  apply Z.ltb_lt in Hy. rewrite Hy. by eexists.
Qed.

Lemma get_today_key_some cfg db now :
  is_Some (reset_hour cfg db) -> 1 < Py.year (Py.dt_date now) ->
  is_Some (get_today_key cfg db now).
Proof.
  intros [h Hh] Hy. unfold get_today_key. rewrite Hh; simpl.
  destruct (Py.hour now <? h); [|by eexists].
  destruct (sub_one_day_some _ Hy) as [d ->]. by eexists.
Qed.

Lemma record_progress_settings cfg db ck asin pos pc db' :
  record_progress cfg db ck asin pos pc = Some db' -> settings db' = settings db.
Proof.
  unfold record_progress.
  destruct (get_today_key cfg db (now_key ck)) as [today|]; simpl; [|discriminate].
  destruct (sqlite_int pos && binds pc); [|discriminate].
  destruct (last_progress db asin) as [prev|]; [|by intros [= <-]].
  destruct (position prev <? pos); [|by intros [= <-]].
  match goal with |- context [if ?c then _ else None] => destruct c end;
    [|discriminate].
  destruct (page_goal cfg db) as [goal|]; simpl; [|discriminate].
  destruct (get_today_stats cfg db (now_stats ck)) as [stats|]; simpl; [|discriminate].
  match goal with |- context [if ?c then _ else _] => destruct c end; by intros [= <-].
Qed.

(** When [record_progress] returns: the settings parse, no day key falls
    before the first date, the position and the percentage are bound,
    and the difference and the new count of the day fit 64 bits. *)
Lemma record_progress_returns cfg db ck asin pos pc today :
  get_today_key cfg db (now_key ck) = Some today ->
  is_Some (page_goal cfg db) ->
  is_Some (get_today_key cfg db (now_stats ck)) ->
  sqlite_int pos = true -> binds pc = true ->
  (forall prev,
     last_progress db asin = Some prev -> position prev < pos ->
     sqlite_int (pos - position prev) = true
     /\ sqlite_int (pages_on db today + (pos - position prev)) = true) ->
  is_Some (record_progress cfg db ck asin pos pc).
Proof.
  intros Hk [goal Hg] [t2 Hk2] Hpos Hpc Hfit. unfold record_progress, get_today_stats.
  rewrite Hk, Hg, Hk2, Hpos, Hpc. cbn [mbind option_bind andb].
  destruct (last_progress db asin) as [prev|]; [|by eexists].
  destruct (position prev <? pos) eqn:Hlt; [|by eexists].
  apply Z.ltb_lt in Hlt. destruct (Hfit prev eq_refl Hlt) as [H1 H2].
  change (pages_on (insert_progress db (ts_snapshot ck) asin pos pc) today)
    with (pages_on db today).
  rewrite H1, H2. cbn [andb].
  match goal with |- context [if ?c then _ else _] => destruct c end; by eexists.
Qed.

(** The settings table and the statistics of a day without reading. *)
Example settings_examples :
  get_setting init_db "daily_page_goal" = Some "30"
  /\ get_setting init_db "day_reset_hour" = Some "4"
  /\ get_setting init_db "nonexistent_key" = None
  /\ get_setting (set_setting (set_setting init_db "test_key" "value1") "test_key" "value2")
       "test_key" = Some "value2"
  /\ page_goal sample_cfg (set_setting init_db "daily_page_goal" "10") = Some 10
  /\ page_goal sample_cfg (set_setting init_db "daily_page_goal" "ten") = None.
Proof. repeat split. Qed.

Example today_stats_defaults :
  get_today_stats sample_cfg init_db sample_noon
  = Some (Build_TodayStats "2024-01-15" 0 30 false None 30).
Proof. reflexivity. Qed.

(** Both resets empty [daily_stats]; only [reset_all_progress] drops the
    snapshots. *)
Lemma resets_clear db date :
  goal_met_on (reset_daily_stats db) date = None
  /\ goal_met_on (reset_all_progress db) date = None
  /\ reading_progress (reset_daily_stats db) = reading_progress db
  /\ reading_progress (reset_all_progress db) = [].
Proof. unfold goal_met_on; simpl. rewrite lookup_empty. repeat split. Qed.

Lemma latest_app l1 : forall best l2,
  latest best (l1 ++ l2) = latest (latest best l1) l2.
Proof. induction l1 as [|r l1 IH]; intros best l2; [done|]. apply IH. Qed.

Lemma rows_of_insert db ts asin pos pc other :
  rows_of (insert_progress db ts asin pos pc) other
  = rows_of db other
    ++ (if String.eqb asin other
        then [Build_Progress asin pos (stored_percent pc) ts] else []).
Proof.
  unfold rows_of. rewrite insert_progress_rows, List.filter_app. simpl.
  by destruct (String.eqb asin other).
Qed.

(** The latest snapshot after one more row: the new row when it is
    strictly newer than the rows of its book, and no change for another
    book. *)
Lemma last_progress_snoc db db' asin pos pc ts :
  reading_progress db' = reading_progress db ++ [Build_Progress asin pos pc ts] ->
  (forall other, other ≠ asin -> last_progress db' other = last_progress db other)
  /\ ((forall r, In r (reading_progress db) -> pr_asin r = asin -> recorded_at r < ts) ->
      last_progress db' asin = Some (Build_Progress asin pos pc ts)).
Proof.
  intros Hrows. unfold last_progress, rows_of. rewrite Hrows.
  split.
  - intros other Hne. rewrite List.filter_app. simpl.
    destruct (String.eqb_spec asin other); [congruence|].
    by rewrite app_nil_r.
  - intros Hnew. rewrite List.filter_app. simpl.
    rewrite String.eqb_refl, latest_app.
    fold (rows_of db asin). fold (last_progress db asin).
    destruct (last_progress db asin) as [b|] eqn:E; [|done].
    apply last_progress_spec in E as (Hin & Ha & _).
    cbn [latest recorded_at].
    replace (recorded_at b <? ts) with true; [done|].
    symmetry. apply Z.ltb_lt. by apply Hnew.
Qed.

Lemma pages_on_add_other db ts today delta d :
  d ≠ today -> pages_on (add_pages db ts today delta) d = pages_on db d.
Proof. intros H. unfold pages_on. by rewrite daily_add_other. Qed.

(** What one call of [record_progress] does to the four tables. *)
Lemma record_progress_effect cfg db ck asin pos pc db' :
  record_progress cfg db ck asin pos pc = Some db' ->
  exists today,
    get_today_key cfg db (now_key ck) = Some today
    /\ books db' = books db
    /\ settings db' = settings db
    /\ reading_progress db'
       = reading_progress db
         ++ [Build_Progress asin pos (stored_percent pc) (ts_snapshot ck)]
    /\ forall date,
         pages_on db' date
         = pages_on db date
           + (if bool_decide (date = today) then
                match last_progress db asin with
                | Some prev => Z.max 0 (pos - position prev)
                | None => 0
                end
              else 0).
Proof.
  unfold record_progress.
  destruct (get_today_key cfg db (now_key ck)) as [today|]; [|discriminate].
  cbn [mbind option_bind].
  destruct (sqlite_int pos && binds pc); [|discriminate].
  intros H. exists today. split; [done|].
  assert (forall date, pages_on db date = pages_on db date
            + (if bool_decide (date = today) then 0 else 0)) as Hsame.
  { intros date. case_bool_decide; lia. }
  destruct (last_progress db asin) as [prev|].
  2:{ injection H as <-. repeat split; try done.
      all: intros date; rewrite <- Hsame; done. }
  destruct (position prev <? pos) eqn:Hlt.
  2:{ injection H as <-. apply Z.ltb_ge in Hlt.
      repeat split; try done.
      all: intros date;
        replace (Z.max 0 (pos - position prev)) with 0 by lia; apply Hsame. }
  apply Z.ltb_lt in Hlt.
  match type of H with context [if ?c then _ else None] => destruct c end;
    [|discriminate].
  assert (forall date,
    pages_on (add_pages (insert_progress db (ts_snapshot ck) asin pos pc)
                (ts_daily ck) today (pos - position prev)) date
    = pages_on db date
      + (if bool_decide (date = today) then Z.max 0 (pos - position prev) else 0))
    as Hadd.
  { intros date. case_bool_decide as Hd.
    - subst date. rewrite pages_on_add_same.
      replace (Z.max 0 (pos - position prev)) with (pos - position prev) by lia.
      done.
    - rewrite pages_on_add_other by done. unfold pages_on; simpl. lia. }
  destruct (page_goal cfg db) as [goal|]; [|discriminate].
  destruct (get_today_stats cfg db (now_stats ck)) as [stats|]; [|discriminate].
  cbn [mbind option_bind] in H.
  destruct ((goal <=? st_pages_read stats)
            && negb (bool_decide (is_Some (st_goal_met_at stats))));
    injection H as <-; repeat split; try done.
  all: intros date; rewrite pages_on_mark; apply Hadd.
Qed.

(** A call that returns was given numbers that fit the columns. *)
Lemma record_progress_bound cfg db ck asin pos pc db' :
  record_progress cfg db ck asin pos pc = Some db' ->
  sqlite_int pos = true /\ binds pc = true.
Proof.
  unfold record_progress.
  destruct (get_today_key cfg db (now_key ck)) as [today|]; [|discriminate].
  cbn [mbind option_bind].
  destruct (sqlite_int pos) eqn:E1; [|discriminate].
  destruct (binds pc) eqn:E2; [|discriminate]. done.
Qed.

End LedgerProperties.

(** ** Properties of the extractor *)

Section ExtractorProperties.
Import Extractor.

Lemma page_at_12_of_340 after :
  Js.starts_with_digit after = false ->
  Js.page_at ("Page 12 of 340" +:+ after) = Some ("12", "340").
Proof.
  intros H. destruct after as [|c s]; [reflexivity|].
  simpl in H.
  destruct c as [[] [] [] [] [] [] [] []]; try discriminate H; reflexivity.
Qed.

Lemma search_head {A} (at_head : string -> option A) s a :
  at_head s = Some a -> Js.search at_head s = Some a.
Proof. intros H. destruct s; simpl; by rewrite H. Qed.

(** *** What the rules match *)

Lemma append_cons c s t : String c s +:+ t = String c (s +:+ t).
Proof. reflexivity. Qed.

Lemma append_assoc (a b c : string) : (a +:+ b) +:+ c = a +:+ b +:+ c.
Proof. induction a as [|x a IH]; [done|]. by rewrite !append_cons, IH. Qed.

Lemma span_append p s : s = (Js.span p s).1 +:+ (Js.span p s).2.
Proof.
  induction s as [|c s IH]; simpl; [done|].
  destruct (p c); [|done].
  destruct (Js.span p s) as [a r]; simpl in *. by rewrite append_cons, <- IH.
Qed.

Lemma span_all p s : Js.all_chars p (Js.span p s).1 = true.
Proof.
  induction s as [|c s IH]; simpl; [done|].
  destruct (p c) eqn:E; [|done].
  destruct (Js.span p s) as [a r]; simpl in *. by rewrite E.
Qed.

Lemma span_stop p s : (Js.span p (Js.span p s).2).1 = EmptyString.
Proof.
  induction s as [|c s IH]; simpl; [done|].
  destruct (p c) eqn:E; [|by simpl; rewrite E].
  by destruct (Js.span p s) as [a r].
Qed.

Lemma span_nil p r : (Js.span p r).1 = EmptyString -> Js.span p r = (EmptyString, r).
Proof.
  destruct r as [|c r]; simpl; [done|].
  destruct (p c); [|done]. by destruct (Js.span p r).
Qed.

Lemma span_exact p a r :
  Js.all_chars p a = true -> (Js.span p r).1 = EmptyString ->
  Js.span p (a +:+ r) = (a, r).
Proof.
  intros Ha Hr. induction a as [|c a IH].
  - by apply span_nil.
  - simpl in Ha. apply andb_prop in Ha as [Hc Ha].
    rewrite append_cons. simpl. by rewrite Hc, (IH Ha).
Qed.

(** A text that starts outside a class has no prefix in it. *)
Lemma span_head_out p c s : p c = false -> (Js.span p (String c s)).1 = EmptyString.
Proof. intros H. simpl. by rewrite H. Qed.

Lemma starts_with_digit_span r :
  Js.starts_with_digit r = false <-> (Js.span Js.is_digit r).1 = EmptyString.
Proof.
  destruct r as [|c r]; simpl; [done|].
  destruct (Js.is_digit c); [|done]. by destruct (Js.span Js.is_digit r).
Qed.

Lemma digits1_form s d r :
  Js.digits1 s = Some (d, r) <-> s = d +:+ r /\ Spec.digit_run d r.
Proof.
  unfold Js.digits1, Spec.digit_run. split.
  - pose proof (span_append Js.is_digit s) as Happ.
    pose proof (span_all Js.is_digit s) as Hall.
    pose proof (span_stop Js.is_digit s) as Hstop.
    destruct (Js.span Js.is_digit s) as [a b]; simpl in *.
    destruct a as [|c a]; [done|]. intros [= <- <-].
    by rewrite starts_with_digit_span.
  - intros (-> & Hd & Hall & Hstop).
    rewrite (span_exact _ _ _ Hall) by by apply starts_with_digit_span.
    by destruct d.
Qed.

Lemma spaces1_form s r :
  Js.spaces1 s = Some r <->
  exists ws, s = ws +:+ r /\ Spec.space_run ws /\ (Js.span Js.is_space r).1 = EmptyString.
Proof.
  unfold Js.spaces1, Spec.space_run. split.
  - pose proof (span_append Js.is_space s) as Happ.
    pose proof (span_all Js.is_space s) as Hall.
    pose proof (span_stop Js.is_space s) as Hstop.
    destruct (Js.span Js.is_space s) as [a b]; simpl in *.
    destruct a as [|c a]; [done|]. intros [= <-]. by exists (String c a).
  - intros (ws & -> & [Hd Hall] & Hstop).
    rewrite (span_exact _ _ _ Hall Hstop). by destruct ws.
Qed.

Lemma lit_ci_form pat : forall s r,
  Js.lit_ci pat s = Some r <-> exists m, s = m +:+ r /\ Spec.literal pat m.
Proof.
  unfold Spec.literal. induction pat as [|p pat IH]; intros s r; simpl.
  - split.
    + intros [= ->]. by exists EmptyString.
    + intros (m & -> & Hm). destruct m; by simplify_eq.
  - destruct s as [|c s].
    + split; [done|]. intros (m & Hs & Hm). destruct m; simplify_eq.
    + split.
      * destruct (Js.ci_char p c) eqn:E; [|done]. intros H.
        apply IH in H as (m & -> & Hm). exists (String c m). split; [done|].
        simpl. by rewrite E.
      * intros (m & Hs & Hm). destruct m as [|c' m]; [done|].
        rewrite append_cons in Hs. injection Hs as -> ->.
        simpl in Hm. destruct (Js.ci_char p c'); [|done].
        apply IH. by exists m.
Qed.

Lemma literal_app p1 p2 m :
  Spec.literal (p1 +:+ p2) m <->
  exists m1 m2, m = m1 +:+ m2 /\ Spec.literal p1 m1 /\ Spec.literal p2 m2.
Proof.
  unfold Spec.literal. revert m. induction p1 as [|p p1 IH]; intros m.
  - change (EmptyString +:+ p2) with p2. split.
    + intros H. by exists EmptyString, m.
    + intros (m1 & m2 & -> & H1 & H2). simpl in H1. destruct m1; by simplify_eq.
  - rewrite append_cons. destruct m as [|c m]; simpl.
    + split; [done|]. intros (m1 & m2 & Hm & H1 & H2).
      destruct m1; simpl in H1; simplify_eq.
    + split.
      * destruct (Js.ci_char p c) eqn:E; [|done]. intros H.
        apply IH in H as (m1 & m2 & -> & H1 & H2).
        exists (String c m1), m2. split; [done|]. split; [|done].
        simpl. by rewrite E.
      * intros (m1 & m2 & Hm & H1 & H2). destruct m1 as [|c' m1]; [done|].
        rewrite append_cons in Hm. injection Hm as -> ->.
        simpl in H1. destruct (Js.ci_char p c'); [|done].
        apply IH. by exists m1, m2.
Qed.

Lemma digit_not_space c : Js.is_digit c = true -> Js.is_space c = false.
Proof. destruct c as [[] [] [] [] [] [] [] []]; by vm_compute. Qed.

Lemma digit_run_head d r : Spec.digit_run d r -> (Js.span Js.is_space (d +:+ r)).1 = EmptyString.
Proof.
  intros (Hd & Hall & _). destruct d as [|c d]; [done|].
  simpl in Hall. apply andb_prop in Hall as [Hc _].
  rewrite append_cons. by apply span_head_out, digit_not_space.
Qed.

Lemma literal_of_head o r : Spec.literal "of" o -> (Js.span Js.is_space (o +:+ r)).1 = EmptyString.
Proof.
  unfold Spec.literal. destruct o as [|c o]; [done|]. simpl.
  destruct (Js.ci_char "o" c) eqn:E; [|done]. intros _.
  rewrite ?append_cons. apply span_head_out.
  revert E. destruct c as [[] [] [] [] [] [] [] []]; by vm_compute.
Qed.

Lemma space_run_head ws r : Spec.space_run ws -> Js.starts_with_digit (ws +:+ r) = false.
Proof.
  intros [Hd Hall]. destruct ws as [|c ws]; [done|].
  simpl in Hall. apply andb_prop in Hall as [Hc _].
  rewrite append_cons. simpl.
  destruct (Js.is_digit c) eqn:E; [|done]. apply digit_not_space in E. congruence.
Qed.

(** [(\d+)\s+of\s+(\d+)], the part the first three rules share. *)
Lemma of_form s d1 d2 rest :
  ('(d1, r2) ← Js.digits1 s;
   r3 ← Js.spaces1 r2;
   r4 ← Js.lit_ci "of" r3;
   r5 ← Js.spaces1 r4;
   '(d2, r6) ← Js.digits1 r5;
   Some (d1, d2, r6)) = Some (d1, d2, rest) <->
  exists ws2 o ws3,
    s = d1 +:+ ws2 +:+ o +:+ ws3 +:+ d2 +:+ rest
    /\ Spec.digit_run d1 (ws2 +:+ o +:+ ws3 +:+ d2 +:+ rest)
    /\ Spec.space_run ws2 /\ Spec.literal "of" o /\ Spec.space_run ws3
    /\ Spec.digit_run d2 rest.
Proof.
  split.
  - destruct (Js.digits1 s) as [[e1 r2]|] eqn:E1; [|done]. cbn [mbind option_bind].
    destruct (Js.spaces1 r2) as [r3|] eqn:E2; [|done]. cbn [mbind option_bind].
    destruct (Js.lit_ci "of" r3) as [r4|] eqn:E3; [|done]. cbn [mbind option_bind].
    destruct (Js.spaces1 r4) as [r5|] eqn:E4; [|done]. cbn [mbind option_bind].
    destruct (Js.digits1 r5) as [[e2 r6]|] eqn:E5; [|done]. cbn [mbind option_bind].
    intros [= -> -> ->].
    apply digits1_form in E1 as [-> H1], E5 as [-> H5].
    apply spaces1_form in E2 as (ws2 & -> & H2 & _), E4 as (ws3 & -> & H4 & _).
    apply lit_ci_form in E3 as (o & -> & H3).
    by exists ws2, o, ws3.
  - intros (ws2 & o & ws3 & -> & H1 & H2 & H3 & H4 & H5).
    rewrite (proj2 (digits1_form _ d1 _) (conj eq_refl H1)). cbn [mbind option_bind].
    rewrite (proj2 (spaces1_form _ (o +:+ ws3 +:+ d2 +:+ rest)))
      by (exists ws2; split; [done|]; split; [done|]; by apply literal_of_head).
    cbn [mbind option_bind].
    rewrite (proj2 (lit_ci_form "of" _ (ws3 +:+ d2 +:+ rest))) by by exists o.
    cbn [mbind option_bind].
    rewrite (proj2 (spaces1_form _ (d2 +:+ rest)))
      by (exists ws3; split; [done|]; split; [done|]; by apply digit_run_head).
    cbn [mbind option_bind].
    by rewrite (proj2 (digits1_form _ d2 rest) (conj eq_refl H5)).
Qed.

Lemma x_of_y_form s d1 d2 rest :
  Js.x_of_y s = Some (d1, d2, rest) <-> Spec.x_of_y_form s d1 d2 rest.
Proof.
  unfold Js.x_of_y, Spec.x_of_y_form. split.
  - destruct (Js.spaces1 s) as [r1|] eqn:E0; [|done]. cbn [mbind option_bind].
    intros H. apply of_form in H as (ws2 & o & ws3 & -> & H1 & H2 & H3 & H4 & H5).
    apply spaces1_form in E0 as (ws1 & -> & H0 & _).
    by exists ws1, ws2, o, ws3.
  - intros (ws1 & ws2 & o & ws3 & -> & H0 & H1 & H2 & H3 & H4 & H5).
    rewrite (proj2 (spaces1_form _ (d1 +:+ ws2 +:+ o +:+ ws3 +:+ d2 +:+ rest)))
      by (exists ws1; split; [done|]; split; [done|]; by apply digit_run_head).
    cbn [mbind option_bind]. apply of_form. by exists ws2, o, ws3.
Qed.

Lemma page_at_form s d1 d2 :
  Js.page_at s = Some (d1, d2) <->
  exists p r rest, s = p +:+ r /\ Spec.literal "page" p /\ Spec.x_of_y_form r d1 d2 rest.
Proof.
  unfold Js.page_at. split.
  - destruct (Js.lit_ci "page" s) as [r|] eqn:E; [|done]. cbn [mbind option_bind].
    destruct (Js.x_of_y r) as [[[e1 e2] rest]|] eqn:E1; [|done]. cbn [mbind option_bind].
    intros [= -> ->]. apply lit_ci_form in E as (p & -> & Hp).
    apply x_of_y_form in E1. by exists p, r, rest.
  - intros (p & r & rest & -> & Hp & Hr).
    rewrite (proj2 (lit_ci_form "page" _ r)) by by exists p.
    cbn [mbind option_bind]. by rewrite (proj2 (x_of_y_form _ _ _ _) Hr).
Qed.

(** After [Loc] the text goes on with white space or with [ation], not
    with both. *)
Lemma x_of_y_not_ation a r : Spec.literal "ation" a -> Js.x_of_y (a +:+ r) = None.
Proof.
  unfold Spec.literal. destruct a as [|c a]; [done|]. simpl.
  destruct (Js.ci_char "a" c) eqn:E; [|done]. intros _.
  unfold Js.x_of_y, Js.spaces1. rewrite append_cons.
  assert (Js.is_space c = false) as Hc
    by (revert E; destruct c as [[] [] [] [] [] [] [] []]; by vm_compute).
  simpl. by rewrite Hc.
Qed.

Lemma loc_at_form s d1 d2 :
  Js.loc_at s = Some (d1, d2) <->
  exists l r rest, s = l +:+ r
    /\ (Spec.literal "location" l \/ Spec.literal "loc" l)
    /\ Spec.x_of_y_form r d1 d2 rest.
Proof.
  unfold Js.loc_at. split.
  - destruct (Js.lit_ci "loc" s) as [r|] eqn:E; [|done]. cbn [mbind option_bind].
    apply lit_ci_form in E as (l & -> & Hl).
    destruct (Js.lit_ci "ation" r) as [r'|] eqn:E'; cbn [mbind option_bind].
    + apply lit_ci_form in E' as (a & -> & Ha).
      destruct (Js.x_of_y r') as [[[e1 e2] rest]|] eqn:E1.
      * cbn [mbind option_bind]. intros [= -> ->]. apply x_of_y_form in E1.
        exists (l +:+ a), r', rest. split; [by rewrite append_assoc|]. split; [|done].
        left. apply (literal_app "loc" "ation"). by exists l, a.
      * by rewrite (x_of_y_not_ation _ _ Ha).
    + destruct (Js.x_of_y r) as [[[e1 e2] rest]|] eqn:E1; [|done]. cbn [mbind option_bind].
      intros [= -> ->]. apply x_of_y_form in E1. exists l, r, rest. by auto.
  - intros (l & r & rest & -> & [Hl|Hl] & Hr).
    + apply (literal_app "loc" "ation") in Hl as (l1 & a & -> & Hl & Ha).
      rewrite append_assoc.
      rewrite (proj2 (lit_ci_form "loc" _ (a +:+ r))) by by exists l1.
      cbn [mbind option_bind].
      rewrite (proj2 (lit_ci_form "ation" _ r)) by by exists a.
      cbn [mbind option_bind]. by rewrite (proj2 (x_of_y_form _ _ _ _) Hr).
    + rewrite (proj2 (lit_ci_form "loc" _ r)) by by exists l.
      cbn [mbind option_bind].
      rewrite (proj2 (x_of_y_form _ _ _ _) Hr).
      destruct (Js.lit_ci "ation" r) as [r'|] eqn:E'; cbn [mbind option_bind]; [|done].
      apply lit_ci_form in E' as (a & -> & Ha).
      apply x_of_y_form in Hr. by rewrite (x_of_y_not_ation _ _ Ha) in Hr.
Qed.

Lemma generic_whole_form s d1 d2 :
  Js.generic_whole s = Some (d1, d2) <->
  exists ws2 o ws3,
    s = d1 +:+ ws2 +:+ o +:+ ws3 +:+ d2
    /\ Spec.digit_run d1 (ws2 +:+ o +:+ ws3 +:+ d2)
    /\ Spec.space_run ws2 /\ Spec.literal "of" o /\ Spec.space_run ws3
    /\ Spec.digit_run d2 EmptyString.
Proof.
  assert (forall d : string, d +:+ EmptyString = d) as Hnil
    by (intros d; induction d as [|c d IH]; [done|]; by rewrite append_cons, IH).
  transitivity
    (('(d1, r2) ← Js.digits1 s;
      r3 ← Js.spaces1 r2;
      r4 ← Js.lit_ci "of" r3;
      r5 ← Js.spaces1 r4;
      '(d2, r6) ← Js.digits1 r5;
      Some (d1, d2, r6)) = Some (d1, d2, EmptyString)).
  - unfold Js.generic_whole.
    destruct (Js.digits1 s) as [[e1 r2]|]; [|done]. cbn [mbind option_bind].
    destruct (Js.spaces1 r2) as [r3|]; [|done]. cbn [mbind option_bind].
    destruct (Js.lit_ci "of" r3) as [r4|]; [|done]. cbn [mbind option_bind].
    destruct (Js.spaces1 r4) as [r5|]; [|done]. cbn [mbind option_bind].
    destruct (Js.digits1 r5) as [[e2 r6]|]; [|done]. cbn [mbind option_bind].
    destruct r6; split; intros H; by simplify_eq.
  - rewrite of_form. by rewrite Hnil.
Qed.

Lemma percent_at_form s d :
  Js.percent_at s = Some d <->
  exists rest, s = d +:+ "%" +:+ rest
    /\ d ≠ EmptyString /\ Js.all_chars Js.is_digit d = true.
Proof.
  unfold Js.percent_at. split.
  - destruct (Js.digits1 s) as [[e r]|] eqn:E; [|done]. cbn [mbind option_bind].
    apply digits1_form in E as (-> & Hd & Hall & _).
    destruct r as [|c r]; [done|].
    destruct (Ascii.eqb c "%") eqn:Ec.
    + apply Ascii.eqb_eq in Ec as ->. intros [= ->]. by exists r.
    + intros H. exfalso. revert H Ec.
      destruct c as [[] [] [] [] [] [] [] []]; by vm_compute.
  - intros (rest & -> & Hd & Hall).
    rewrite (proj2 (digits1_form _ d ("%" +:+ rest))); [done|].
    split; [done|]. by split.
Qed.

Lemma none_within_search {A} (at_head : string -> option A) before rest :
  Spec.none_within at_head before rest = true ->
  Js.search at_head (before +:+ rest) = Js.search at_head rest.
Proof.
  induction before as [|c before IH]; [done|]. cbn [Spec.none_within].
  destruct (at_head (String c before +:+ rest)) eqn:E; [done|]. intros H.
  rewrite append_cons in *. cbn [Js.search]. rewrite E. by apply IH.
Qed.

(** [String.prototype.match] takes the leftmost place where the pattern
    matches. *)
Lemma search_leftmost {A} (at_head : string -> option A) text a :
  Js.search at_head text = Some a <->
  exists before rest,
    text = before +:+ rest
    /\ Spec.none_within at_head before rest = true /\ at_head rest = Some a.
Proof.
  split.
  - induction text as [|c text IH]; cbn [Js.search].
    + destruct (at_head EmptyString) eqn:E; [|done]. intros [= ->].
      by exists EmptyString, EmptyString.
    + destruct (at_head (String c text)) eqn:E.
      * intros [= ->]. by exists EmptyString, (String c text).
      * intros H. destruct (IH H) as (before & rest & -> & Hn & Hr).
        exists (String c before), rest. split; [done|]. split; [|done].
        cbn [Spec.none_within]. rewrite append_cons. by rewrite E.
  - intros (before & rest & -> & Hn & Hr).
    rewrite (none_within_search _ _ _ Hn). by apply search_head.
Qed.

Lemma search_page_12_of_340 before after :
  Spec.none_within Js.page_at before ("Page 12 of 340" +:+ after) = true ->
  Js.starts_with_digit after = false ->
  Js.search Js.page_at (before +:+ "Page 12 of 340" +:+ after) = Some ("12", "340").
Proof.
  intros Hb Ha. apply search_leftmost.
  exists before, ("Page 12 of 340" +:+ after). by rewrite (page_at_12_of_340 _ Ha).
Qed.

Lemma rule_page_form text f :
  rule_page text = Some f <->
  exists before p r d1 d2 rest,
    text = before +:+ p +:+ r
    /\ Spec.none_within Js.page_at before (p +:+ r) = true
    /\ Spec.literal "page" p /\ Spec.x_of_y_form r d1 d2 rest
    /\ f = FoundPosition (Js.parseInt d1) (Js.parseInt d2) type_page.
Proof.
  unfold rule_page. split.
  - destruct (Js.search Js.page_at text) as [[d1 d2]|] eqn:E; [|done].
    intros [= <-]. apply search_leftmost in E as (before & s & -> & Hn & Hs).
    apply page_at_form in Hs as (p & r & rest & -> & Hp & Hr).
    by exists before, p, r, d1, d2, rest.
  - intros (before & p & r & d1 & d2 & rest & -> & Hn & Hp & Hr & ->).
    assert (Js.search Js.page_at (before +:+ p +:+ r) = Some (d1, d2)) as ->; [|done].
    apply search_leftmost. exists before, (p +:+ r). split; [done|]. split; [done|].
    apply page_at_form. by exists p, r, rest.
Qed.

Lemma rule_location_form text f :
  rule_location text = Some f <->
  exists before l r d1 d2 rest,
    text = before +:+ l +:+ r
    /\ Spec.none_within Js.loc_at before (l +:+ r) = true
    /\ (Spec.literal "location" l \/ Spec.literal "loc" l)
    /\ Spec.x_of_y_form r d1 d2 rest
    /\ f = FoundPosition (Js.parseInt d1) (Js.parseInt d2) type_location.
Proof.
  unfold rule_location. split.
  - destruct (Js.search Js.loc_at text) as [[d1 d2]|] eqn:E; [|done].
    intros [= <-]. apply search_leftmost in E as (before & s & -> & Hn & Hs).
    apply loc_at_form in Hs as (l & r & rest & -> & Hl & Hr).
    by exists before, l, r, d1, d2, rest.
  - intros (before & l & r & d1 & d2 & rest & -> & Hn & Hl & Hr & ->).
    assert (Js.search Js.loc_at (before +:+ l +:+ r) = Some (d1, d2)) as ->; [|done].
    apply search_leftmost. exists before, (l +:+ r). split; [done|]. split; [done|].
    apply loc_at_form. by exists l, r, rest.
Qed.

Lemma rule_generic_form text f :
  rule_generic text = Some f <->
  exists d1 ws2 o ws3 d2,
    text = d1 +:+ ws2 +:+ o +:+ ws3 +:+ d2
    /\ Spec.digit_run d1 (ws2 +:+ o +:+ ws3 +:+ d2)
    /\ Spec.space_run ws2 /\ Spec.literal "of" o /\ Spec.space_run ws3
    /\ Spec.digit_run d2 EmptyString
    /\ f = FoundPosition (Js.parseInt d1) (Js.parseInt d2) type_generic.
Proof.
  unfold rule_generic. split.
  - destruct (Js.generic_whole text) as [[d1 d2]|] eqn:E; [|done].
    intros [= <-]. apply generic_whole_form in E as (ws2 & o & ws3 & H).
    exists d1, ws2, o, ws3, d2. by intuition.
  - intros (d1 & ws2 & o & ws3 & d2 & Ht & H1 & H2 & H3 & H4 & H5 & ->).
    assert (Js.generic_whole text = Some (d1, d2)) as ->; [|done].
    apply generic_whole_form. by exists ws2, o, ws3.
Qed.

Lemma rule_percent_form text f :
  rule_percent text = Some f <->
  exists before d rest,
    text = before +:+ d +:+ "%" +:+ rest
    /\ Spec.none_within Js.percent_at before (d +:+ "%" +:+ rest) = true
    /\ d ≠ EmptyString /\ Js.all_chars Js.is_digit d = true
    /\ f = FoundPercent (Js.parseInt d).
Proof.
  unfold rule_percent. split.
  - destruct (Js.search Js.percent_at text) as [d|] eqn:E; [|done].
    intros [= <-]. apply search_leftmost in E as (before & s & -> & Hn & Hs).
    apply percent_at_form in Hs as (rest & -> & Hd & Hall).
    by exists before, d, rest.
  - intros (before & d & rest & -> & Hn & Hd & Hall & ->).
    assert (Js.search Js.percent_at (before +:+ d +:+ "%" +:+ rest) = Some d) as ->; [|done].
    apply search_leftmost. exists before, (d +:+ "%" +:+ rest).
    split; [done|]. split; [done|]. apply percent_at_form. by exists rest.
Qed.

(** The two loops find the first pattern among the short fragments. *)
Lemma scan_elements_found selector els : forall debug,
  fst (scan_elements selector els debug)
  = first_found (List.filter short (map fragment els)).
Proof.
  induction els as [|el els IH]; intros debug; simpl; [done|].
  destruct (short (fragment el)); simpl; [|apply IH].
  destruct (findPattern (fragment el)); simpl; [done|apply IH].
Qed.

Lemma first_found_app xs ys :
  first_found (xs ++ ys)
  = match first_found xs with Some f => Some f | None => first_found ys end.
Proof.
  induction xs as [|x xs IH]; simpl; [by destruct (first_found ys)|].
  by destruct (findPattern x).
Qed.

Lemma scan_selectors_found doc selectors : forall debug,
  fst (scan_selectors doc selectors debug)
  = first_found
      (List.filter short
         (flat_map (λ selector, map fragment (querySelectorAll doc selector)) selectors)).
Proof.
  induction selectors as [|selector rest IH]; intros debug; simpl; [done|].
  rewrite List.filter_app, first_found_app, <- (scan_elements_found selector _ debug).
  destruct (scan_elements selector (querySelectorAll doc selector) debug) as [[f|] debug'];
    simpl; [done|apply IH].
Qed.

(** The fields of the result, from what was found. *)
Lemma progress_info_fields doc :
  let r := progress_info doc in
  match
    match first_found (fragments doc) with
    | Some f => Some f
    | None => findPattern (Js.or_else (body_innerText doc) EmptyString)
    end
  with
  | Some (FoundPosition c t _) =>
      current r = Some c /\ total r = Some t /\ percent r = Some (Js.percent_of c t)
  | Some (FoundPercent p) =>
      current r = Some p /\ total r = Some 100 /\ percent r = Some (Js.of_Z p)
  | None => current r = None /\ total r = None /\ percent r = None
  end.
Proof.
  unfold progress_info, fragments.
  rewrite <- (scan_selectors_found doc progressSelectors []).
  destruct (scan_selectors doc progressSelectors []) as [[f|] debug]; simpl.
  - by destruct f.
  - destruct (findPattern _) as [[c t ty|p]|]; simpl; done.
Qed.

(** C4, as the code has it.  Per fragment the four rules apply in the
    order page, location, generic, percent, and the first that matches
    gives the result.  The page, location and percent rules match at the
    leftmost place of the text where their pattern matches, the generic
    rule matches the whole text only; a captured number is a run of
    digits that no digit follows, read by [parseInt].  So a text in which
    "Page 12 of 340" is the first place where the page rule matches, and
    is not followed by a digit, yields 12 of 340 whatever else it
    contains, a percentage included.  A position match sets percent to
    [Math.round((current / total) * 100)], a percent match sets current
    to the percentage and total to 100. *)
Theorem reader_extraction_priority :
  (forall text f, rule_page text = Some f -> findPattern text = Some f)
  /\ (forall text f,
        rule_page text = None -> rule_location text = Some f ->
        findPattern text = Some f)
  /\ (forall text f,
        rule_page text = None -> rule_location text = None ->
        rule_generic text = Some f -> findPattern text = Some f)
  /\ (forall text,
        rule_page text = None -> rule_location text = None ->
        rule_generic text = None -> findPattern text = rule_percent text)
  /\ (forall text f,
        rule_page text = Some f <->
        exists before p r d1 d2 rest,
          text = before +:+ p +:+ r
          /\ Spec.none_within Js.page_at before (p +:+ r) = true
          /\ Spec.literal "page" p /\ Spec.x_of_y_form r d1 d2 rest
          /\ f = FoundPosition (Js.parseInt d1) (Js.parseInt d2) type_page)
  /\ (forall text f,
        rule_location text = Some f <->
        exists before l r d1 d2 rest,
          text = before +:+ l +:+ r
          /\ Spec.none_within Js.loc_at before (l +:+ r) = true
          /\ (Spec.literal "location" l \/ Spec.literal "loc" l)
          /\ Spec.x_of_y_form r d1 d2 rest
          /\ f = FoundPosition (Js.parseInt d1) (Js.parseInt d2) type_location)
  /\ (forall text f,
        rule_generic text = Some f <->
        exists d1 ws2 o ws3 d2,
          text = d1 +:+ ws2 +:+ o +:+ ws3 +:+ d2
          /\ Spec.digit_run d1 (ws2 +:+ o +:+ ws3 +:+ d2)
          /\ Spec.space_run ws2 /\ Spec.literal "of" o /\ Spec.space_run ws3
          /\ Spec.digit_run d2 EmptyString
          /\ f = FoundPosition (Js.parseInt d1) (Js.parseInt d2) type_generic)
  /\ (forall text f,
        rule_percent text = Some f <->
        exists before d rest,
          text = before +:+ d +:+ "%" +:+ rest
          /\ Spec.none_within Js.percent_at before (d +:+ "%" +:+ rest) = true
          /\ d ≠ EmptyString /\ Js.all_chars Js.is_digit d = true
          /\ f = FoundPercent (Js.parseInt d))
  /\ (forall before after,
        Spec.none_within Js.page_at before ("Page 12 of 340" +:+ after) = true ->
        Js.starts_with_digit after = false ->
        findPattern (before +:+ "Page 12 of 340" +:+ after)
        = Some (FoundPosition 12 340 type_page))
  /\ (forall doc,
        let r := progress_info doc in
        match
          match first_found (fragments doc) with
          | Some f => Some f
          | None => findPattern (Js.or_else (body_innerText doc) EmptyString)
          end
        with
        | Some (FoundPosition c t _) =>
            current r = Some c /\ total r = Some t
            /\ percent r = Some (Js.percent_of c t)
        | Some (FoundPercent p) =>
            current r = Some p /\ total r = Some 100 /\ percent r = Some (Js.of_Z p)
        | None => current r = None /\ total r = None /\ percent r = None
        end).
Proof.
  split; [by unfold findPattern; intros text f ->|].
  split; [by unfold findPattern; intros text f -> ->|].
  split; [by unfold findPattern; intros text f -> -> ->|].
  split; [by unfold findPattern; intros text -> -> ->|].
  split; [apply rule_page_form|].
  split; [apply rule_location_form|].
  split; [apply rule_generic_form|].
  split; [apply rule_percent_form|].
  split; [|apply progress_info_fields].
  intros before after Hb Ha. unfold findPattern, rule_page.
  by rewrite (search_page_12_of_340 _ _ Hb Ha).
Qed.

Lemma reader_extraction_priority_witness :
  findPattern "Progress 45% - Page 12 of 340" = Some (FoundPosition 12 340 type_page)
  /\ findPattern "45% read, pages 7 to 9: Page 12 of 340 (45%)"
     = Some (FoundPosition 12 340 type_page).
Proof.
  destruct reader_extraction_priority as (_ & _ & _ & _ & _ & _ & _ & _ & H & _).
  split.
  - exact (H "Progress 45% - " EmptyString eq_refl eq_refl).
  - exact (H "45% read, pages 7 to 9: " " (45%)" eq_refl eq_refl).
Defined.

(** C4, as stated, fails: the page rule takes the leftmost place where
    it matches, and a capture takes every digit that follows. *)
Lemma page_12_of_340_not_extracted :
  let text := "Page 3 of 20, Page 12 of 340, 45%" in
  Js.includes "Page 12 of 340" text = true
  /\ Js.includes "45%" text = true
  /\ findPattern text = Some (FoundPosition 3 20 type_page).
Proof. vm_compute. repeat split. Qed.

Example page_12_of_3400 :
  Js.includes "Page 12 of 340" "Page 12 of 3400 45%" = true
  /\ findPattern "Page 12 of 3400 45%" = Some (FoundPosition 12 3400 type_page).
Proof. vm_compute. split; reflexivity. Qed.

(** The rules on their own, and the priority between them. *)
Example findPattern_examples :
  findPattern "Page 12 of 340 45%" = Some (FoundPosition 12 340 type_page)
  /\ findPattern "45% Location 5 of 90" = Some (FoundPosition 5 90 type_location)
  /\ findPattern "LOC 5 of 90" = Some (FoundPosition 5 90 type_location)
  /\ findPattern "5 of 90" = Some (FoundPosition 5 90 type_generic)
  /\ findPattern "5 of 90 (45%)" = Some (FoundPercent 45)
  /\ findPattern "45%" = Some (FoundPercent 45)
  /\ findPattern "Chapter 1" = None.
Proof. vm_compute. repeat split. Qed.

(** [Math.round] on the double: 12 of 340 gives 4; 29 of 200, which is
    14.5 exactly, gives 14; a total of 0 gives no number. *)
Example percent_of_examples :
  Js.percent_of 12 340 = Js.of_Z 4
  /\ Js.percent_of 1 200 = Js.of_Z 1
  /\ Js.percent_of 29 200 = Js.of_Z 14
  /\ Js.percent_of 0 0 = S754_nan
  /\ Js.percent_of 5 0 = S754_infinity false.
Proof. vm_compute. repeat split. Qed.

(** The scan takes the first fragment with a pattern, not the best one. *)
Example earlier_fragment_wins :
  let doc := {|
    querySelectorAll := λ selector,
      if String.eqb selector "[data-page]"
      then [Build_Element "45%" "45%"; Build_Element "Page 12 of 340" "Page 12 of 340"]
      else [];
    body_innerText := "Page 12 of 340 45%" |} in
  current (progress_info doc) = Some 45 /\ total (progress_info doc) = Some 100.
Proof. vm_compute. split; reflexivity. Qed.

(** *** Library view *)

Lemma library_book_fields doc first item b :
  library_book doc first item = Some b ->
  totalPages b = Some 100
  /\ currentPosition b = Some (percentComplete b)
  /\ percentComplete b = item_percent doc item (asin b).
Proof.
  unfold library_book.
  destruct (Js.includes "sample" (item_id item)); [discriminate|].
  destruct (Js.remove_first "library-item-option-" (item_id item)) as [|c a] eqn:E;
    [discriminate|].
  intros [= <-]. simpl. auto.
Qed.

Lemma library_loop_fields doc (P : LibraryBook -> Prop) items : forall books,
  (forall first item b, In item items -> library_book doc first item = Some b -> P b) ->
  Forall P books -> Forall P (library_loop doc items books).
Proof.
  induction items as [|item rest IH]; intros books Hnew Hall; simpl; [done|].
  destruct (library_book doc (Nat.eqb (length books) 0) item) as [b|] eqn:E.
  - apply IH; [intros; eapply Hnew; [by right|done]|].
    apply Forall_app. split; [done|]. apply Forall_singleton.
    eapply Hnew; [by left|done].
  - apply IH; [intros; eapply Hnew; [by right|done]|done].
Qed.

(** The fields of the books of the library script. *)
Lemma books_data_fields doc b :
  In b (books_data doc) ->
  totalPages b = Some 100
  /\ currentPosition b = Some (percentComplete b)
  /\ exists item,
       In item (library_items doc)
       /\ percentComplete b = item_percent doc item (asin b).
Proof.
  intros Hb.
  assert (Hall : Forall (λ b,
            totalPages b = Some 100 /\ currentPosition b = Some (percentComplete b)
            /\ exists item, In item (library_items doc)
                 /\ percentComplete b = item_percent doc item (asin b))
          (books_data doc)).
  { apply library_loop_fields; [|constructor].
    intros first item b' Hin Hbook.
    destruct (library_book_fields _ _ _ _ Hbook) as (H1 & H2 & H3).
    split; [done|]. split; [done|]. by exists item. }
  rewrite Forall_forall in Hall. apply Hall. by apply list_elem_of_In.
Qed.

(** The library-only script leaves the position unset. *)
Lemma plain_books_no_position doc b :
  In b (plain_books_data doc) -> currentPosition b = None /\ totalPages b = None.
Proof.
  unfold plain_books_data. intros Hb. apply list_elem_of_In in Hb.
  apply list_elem_of_omap in Hb as (item & _ & Hbook).
  unfold plain_library_book in Hbook.
  destruct (Js.includes "sample" (item_id item)); [discriminate|].
  destruct (Js.remove_first "library-item-option-" (item_id item)); [discriminate|].
  by injection Hbook as <-.
Qed.

End ExtractorProperties.

(** ** How the methods treat the parts of the state *)

Section Frames.
Import Scraper Spec.
Context {W : Type} (env : Env W) (settings : Settings).

Lemma bind_run {A B} (m : M W A) (k : A -> M W B) st :
  (m ≫= k) st
  = match m st with
    | (Ok a, st') => k a st'
    | (Raise msg, st') => (Raise msg, st')
    end.
Proof. reflexivity. Qed.

Lemma quiet_events : quiet (@events W).
Proof. by intros st w a. Qed.

Lemma quiet_db : quiet (@db W).
Proof. by intros st w a. Qed.

Lemma quiet_has_page : quiet (@has_page W).
Proof. by intros st w a. Qed.

Section Preserves.
Context {X : Type} (f : State W -> X) (Hf : quiet f).

Lemma quiet_same st : 
  f {| world := world st; db := db st; has_page := has_page st;
       actions := actions st; events := events st |} = f st.
Proof. apply Hf. Qed.

Lemma preserves_ret {A} (a : A) : preserves f (mret a).
Proof. by intros st. Qed.

Lemma preserves_raise {A} msg : preserves f (@raise W A msg).
Proof. by intros st. Qed.

Lemma preserves_bind {A B} (m : M W A) (k : A -> M W B) :
  preserves f m -> (forall a, preserves f (k a)) -> preserves f (m ≫= k).
Proof.
  intros Hm Hk st. rewrite bind_run. specialize (Hm st).
  destruct (m st) as [[a|msg] st']; simpl in *; [|done].
  by rewrite Hk.
Qed.

Lemma preserves_try {A} (m : M W A) (h : string -> M W A) :
  preserves f m -> (forall msg, preserves f (h msg)) -> preserves f (try_except m h).
Proof.
  intros Hm Hh st. unfold try_except. specialize (Hm st).
  destruct (m st) as [[a|msg] st']; simpl in *; [done|].
  by rewrite Hh.
Qed.

Lemma preserves_call {A} (c : W -> result A * W) : preserves f (call c).
Proof.
  intros st. unfold call. destruct (c (world st)) as [r w]; simpl.
  unfold with_world. apply Hf.
Qed.

Lemma preserves_act a (c : W -> result unit * W) : preserves f (act a c).
Proof.
  intros st. unfold act. destruct (c (world st)) as [r w]; simpl. apply Hf.
Qed.

Lemma preserves_observe {A} (g : W -> A) : preserves f (observe g).
Proof. by intros st. Qed.

Lemma preserves_guard {A} (m : M W A) (r : result A) :
  preserves f m -> preserves f (λ st, if has_page st then m st else (r, st)).
Proof. intros Hm st. simpl. destruct (has_page st); [apply Hm|done]. Qed.

Lemma preserves_now : preserves f (now_isoformat env).
Proof. intros st. unfold now_isoformat, with_world; simpl. apply Hf. Qed.

End Preserves.

End Frames.

Create HintDb frame.

#[local] Hint Resolve preserves_ret preserves_raise preserves_call preserves_act
  preserves_observe preserves_now quiet_events quiet_db quiet_has_page : frame.

(** Decomposes a goal [preserves f m] along the structure of [m]. *)
Ltac frame :=
  repeat first
    [ progress intros
    | solve [eauto with frame]
    | apply preserves_guard
    | apply preserves_bind
    | apply preserves_try
    | match goal with
      | |- Spec.preserves _ (match ?x with _ => _ end) => destruct x
      end ].

Section MethodFrames.
Import Scraper Spec.
Context {W : Type} (env : Env W) (settings : Settings).
Context {X : Type} (f : State W -> X) (Hf : quiet f).

Lemma preserves_click_password_signin indices :
  preserves f (click_password_signin env indices).
Proof.
  induction indices as [|i rest IH]; simpl; frame.
Qed.

Lemma preserves_attempt : preserves f (attempt env settings).
Proof.
  unfold attempt, auth_page_steps, email_step, password_step, submit_step,
    goto, count, click_nth, fill_first.
  pose proof preserves_click_password_signin. frame.
Qed.


Lemma preserves_login_loop attempts : preserves f (login_loop env settings attempts).
Proof.
  pose proof preserves_attempt.
  induction attempts as [|n IH]; simpl; frame.
Qed.

Lemma preserves_is_logged_in : preserves f (is_logged_in env settings).
Proof.
  pose proof preserves_login_loop.
  unfold is_logged_in, goto. frame.
Qed.

Lemma preserves_login email password : preserves f (login env email password).
Proof. unfold login, goto, count, click_nth. frame. Qed.

Lemma preserves_open_and_read asin : preserves f (open_and_read env asin).
Proof.
  unfold open_and_read, dismiss_license_dialog, reveal_reader_ui, goto, count, click_nth.
  frame.
Qed.

Lemma preserves_get_book_progress_from_reader asin :
  preserves f (get_book_progress_from_reader env asin).
Proof.
  pose proof preserves_open_and_read.
  unfold get_book_progress_from_reader, goto. frame.
Qed.

Lemma preserves_get_library_and_progress :
  preserves f (get_library_and_progress env).
Proof. unfold get_library_and_progress, goto. frame. Qed.

Lemma preserves_plain_get_library_and_progress :
  preserves f (plain_get_library_and_progress env).
Proof. unfold plain_get_library_and_progress, goto. frame. Qed.

Lemma preserves_ensure_login : preserves f (ensure_login env settings).
Proof.
  pose proof preserves_is_logged_in. pose proof preserves_login.
  unfold ensure_login. frame.
Qed.

End MethodFrames.

#[local] Hint Resolve preserves_is_logged_in preserves_login
  preserves_get_book_progress_from_reader preserves_get_library_and_progress
  preserves_plain_get_library_and_progress preserves_ensure_login : frame.

Section LedgerFrames.
Import Scraper Spec.
Context {W : Type} (env : Env W) (settings : Settings).

Lemma yield_bind {B} e (k : unit -> M W B) st :
  (yield e ≫= k) st = k () (with_event st e).
Proof. reflexivity. Qed.

(** The ledger calls yield nothing. *)
Lemma preserves_events_upsert_book book total_pages :
  preserves (@events W) (upsert_book env book total_pages).
Proof.
  intros st. unfold upsert_book. destruct total_pages as [t|]; [|done].
  destruct (Js.to_python (Js.of_Z t)) as [z|f]; [|done].
  by destruct (Ledger.sqlite_int z).
Qed.

Lemma preserves_events_record_progress asin pos pc :
  preserves (@events W) (record_progress env settings asin pos pc).
Proof.
  intros st. unfold record_progress.
  destruct (Js.to_python (Js.of_Z pos)) as [z|f]; [|done].
  by destruct (Ledger.record_progress _ _ _ _ _ _).
Qed.

Lemma preserves_events_save_progress book info current_page :
  preserves (@events W) (save_progress env settings book info current_page).
Proof.
  pose proof preserves_events_upsert_book.
  pose proof preserves_events_record_progress.
  unfold save_progress. frame.
Qed.

(** [upsert_book] leaves the snapshots, the settings and the counts of
    the ledger, whether it returns or raises. *)
Lemma upsert_book_run book total_pages (st : State W) :
  let st' := snd (upsert_book env book total_pages st) in
  Ledger.reading_progress (db st') = Ledger.reading_progress (db st)
  /\ Ledger.settings (db st') = Ledger.settings (db st)
  /\ Ledger.daily_stats (db st') = Ledger.daily_stats (db st)
  /\ events st' = events st /\ has_page st' = has_page st.
Proof.
  unfold upsert_book. destruct total_pages as [t|]; [|done].
  destruct (Js.to_python (Js.of_Z t)) as [z|f]; [|done].
  by destruct (Ledger.sqlite_int z).
Qed.

Lemma page_number_spec n :
  page_number n = true ->
  Js.to_python (Js.of_Z n) = Py.PyInt n /\ 0 <= n <= 2 ^ 53.
Proof.
  unfold page_number. destruct (Js.to_python (Js.of_Z n)) as [z|f]; [|done].
  intros H. apply andb_prop in H as [H H3]. apply andb_prop in H as [H1 H2].
  apply Z.eqb_eq in H1 as ->. apply Z.leb_le in H2, H3. done.
Qed.

Lemma sqlite_int_range z : - 2 ^ 63 <= z < 2 ^ 63 -> Ledger.sqlite_int z = true.
Proof.
  intros H. unfold Ledger.sqlite_int. apply andb_true_intro.
  split; [apply Z.leb_le|apply Z.ltb_lt]; lia.
Qed.

(** It returns when the number of pages is one the ledger takes. *)
Lemma upsert_book_returns book total_pages (st : State W) :
  from_option page_number true total_pages = true ->
  exists st', upsert_book env book total_pages st = (Ok (), st').
Proof.
  unfold upsert_book. destruct total_pages as [t|]; [|by eexists]. simpl.
  intros H. apply page_number_spec in H as [-> H].
  rewrite sqlite_int_range by lia. by eexists.
Qed.

(** [get_book_progress_from_reader] catches what the page raises. *)
Lemma never_raises_try {A} (m : M W A) (h : string -> M W A) :
  (forall msg, never_raises (h msg)) -> never_raises (try_except m h).
Proof.
  intros Hh st. unfold try_except.
  destruct (m st) as [[a|msg] st']; simpl; [by exists a|]. apply Hh.
Qed.

Lemma never_raises_bind {A B} (m : M W A) (k : A -> M W B) :
  never_raises m -> (forall a, never_raises (k a)) -> never_raises (m ≫= k).
Proof.
  intros Hm Hk st. rewrite bind_run. destruct (Hm st) as [a Ha].
  destruct (m st) as [[a'|msg] st']; simpl in *; [apply Hk|discriminate].
Qed.

Lemma never_raises_ret {A} (a : A) : never_raises (mret a : M W A).
Proof. intros st. by exists a. Qed.

Lemma get_book_progress_from_reader_returns asin :
  never_raises (get_book_progress_from_reader env asin).
Proof.
  intros st. unfold get_book_progress_from_reader.
  destruct (has_page st); [|by eexists].
  apply never_raises_try. intros msg.
  apply never_raises_bind; [|intros; apply never_raises_ret].
  apply never_raises_try. intros; apply never_raises_ret.
Qed.

(** One call of the reader on a state: a result, and a state with the
    same ledger, events and page flag. *)
Lemma get_book_progress_from_reader_run asin (st : State W) :
  exists r st',
    get_book_progress_from_reader env asin st = (Ok r, st')
    /\ db st' = db st /\ events st' = events st /\ has_page st' = has_page st.
Proof.
  destruct (get_book_progress_from_reader_returns asin st) as [r Hr].
  pose proof (preserves_get_book_progress_from_reader env (@db W) (@quiet_db W) asin st) as Hd.
  pose proof (preserves_get_book_progress_from_reader env (@events W) (@quiet_events W) asin st) as He.
  pose proof (preserves_get_book_progress_from_reader env (@has_page W) (@quiet_has_page W) asin st) as Hp.
  destruct (get_book_progress_from_reader env asin st) as [r' st']; simpl in *.
  subst r'. by exists r, st'.
Qed.

(** *** From the page to the outcome of an item *)

Lemma try_ok {A} (m : M W A) h st a st' :
  m st = (Ok a, st') -> try_except m h st = (Ok a, st').
Proof. intros H. unfold try_except. by rewrite H. Qed.




(** A progress result is what [progress_info] makes of a document the
    reader script returned. *)
Lemma reader_progress_doc asin (st st' : State W) info :
  get_book_progress_from_reader env asin st = (Ok (Progress info), st') ->
  exists w doc w',
    evaluate_reader env w = (Ok doc, w') /\ info = Extractor.progress_info doc.
Proof.
  unfold get_book_progress_from_reader. destruct (has_page st); [|discriminate].
  unfold try_except at 1.
  destruct (open_and_read env asin st) as [[r|msg] st1] eqn:E.
  2:{ rewrite bind_run.
      destruct (try_except (goto env LIBRARY_URL) (λ _, mret ()) st1) as [[[]|m] s];
        discriminate. }
  intros [= -> ->]. revert E. unfold open_and_read. rewrite bind_run.
  destruct (count env (book_el asin) st) as [[n|m] s1]; [|discriminate].
  destruct (n =? 0)%nat; [discriminate|]. rewrite bind_run.
  destruct (click_nth env (book_el asin) 0 s1) as [[[]|m] s2]; [|discriminate].
  rewrite bind_run.
  destruct (try_except (call (page_wait_for_selector env reader_selector))
              (λ _, mret ()) s2) as [[[]|m] s3]; [|discriminate].
  rewrite bind_run.
  destruct (call (evaluate_body_text env) s3) as [[t|m] s4]; [|discriminate].
  destruct (Extractor.license_dialog (Js.or_else t EmptyString)).
  { rewrite bind_run. destruct (dismiss_license_dialog env s4) as [[[]|m] s5];
      [|discriminate].
    rewrite bind_run. destruct (goto env LIBRARY_URL s5) as [[[]|m] s6]; discriminate. }
  rewrite bind_run. destruct (reveal_reader_ui env s4) as [[[]|m] s5]; [|discriminate].
  rewrite bind_run. unfold call at 1.
  destruct (evaluate_reader env (world s5)) as [[doc|m] w'] eqn:Ed; [|discriminate].
  rewrite bind_run. destruct (goto env LIBRARY_URL _) as [[[]|m] s6]; [|discriminate].
  intros [= <- _]. by exists (world s5), doc, w'.
Qed.





End LedgerFrames.

(** ** When the ledger calls of a pass return *)

Section Sound.
Import Scraper Spec.
Context {W : Type} (env : Env W) (settings : Settings).

Lemma pass_sound_same items d d' :
  Ledger.settings d' = Ledger.settings d ->
  Ledger.reading_progress d' = Ledger.reading_progress d ->
  Ledger.daily_stats d' = Ledger.daily_stats d ->
  pass_sound env (ledger settings) items d -> pass_sound env (ledger settings) items d'.
Proof.
  unfold pass_sound, Ledger.reset_hour, Ledger.page_goal, Ledger.get_setting,
    Ledger.pages_on.
  by intros -> -> ->.
Qed.

Lemma pass_sound_less items d :
  pass_sound env (ledger settings) (S items) d -> pass_sound env (ledger settings) items d.
Proof.
  intros (H1 & H2 & H3 & H4 & H5 & H6). repeat split; try done.
  - apply H3.
  - apply H3.
  - apply H6.
  - destruct (H6 date). lia.
Qed.

(** On a sound ledger [record_progress] returns, and leaves a ledger
    that is sound for one item less. *)
Lemma record_progress_sound items asin pos pc (st : State W) :
  pass_sound env (ledger settings) (S items) (db st) ->
  page_number pos = true -> Ledger.binds pc = true ->
  exists st',
    record_progress env settings asin pos pc st = (Ok (), st')
    /\ events st' = events st
    /\ pass_sound env (ledger settings) items (db st').
Proof.
  intros (Hh & Hg & Hy & Hdoc & Hpos & Hcount) Hn Hpc.
  apply page_number_spec in Hn as [Hpy Hrange].
  unfold record_progress. rewrite Hpy.
  destruct (Hy (world st)) as [Hy1 Hy2].
  set (ck := ledger_clock env (world st)) in *.
  destruct (get_today_key_some (ledger settings) (db st) (Ledger.now_key ck))
    as [today Hk]; [by destruct Hh as [h ->]; eexists|done|].
  assert (Hprev : forall prev,
    Ledger.last_progress (db st) asin = Some prev -> 0 <= Ledger.position prev).
  { intros prev Hl. apply last_progress_spec in Hl as [Hin _]. by apply Hpos. }
  destruct (record_progress_returns (ledger settings) (db st) ck asin pos pc today Hk)
    as [d Hd].
  - by destruct Hg as [g ->]; eexists.
  - apply get_today_key_some; [by destruct Hh as [h ->]; eexists|done].
  - apply sqlite_int_range. lia.
  - done.
  - intros prev Hl Hlt. specialize (Hprev prev Hl). destruct (Hcount today).
    split; apply sqlite_int_range; lia.
  - rewrite Hd. eexists. split; [reflexivity|]. split; [done|].
    destruct (record_progress_effect _ _ _ _ _ _ _ Hd)
      as (today' & Hk' & _ & Hs & Hr & Hp).
    assert (today' = today) as -> by congruence.
    cbn [db with_world with_db].
    split; [|split; [|split; [done|split; [done|split]]]].
    + unfold Ledger.reset_hour, Ledger.get_setting in *. by rewrite Hs.
    + unfold Ledger.page_goal, Ledger.get_setting in *. by rewrite Hs.
    + intros r. rewrite Hr, in_app_iff. intros [Hin|[<-|[]]]; [by apply Hpos|].
      simpl. lia.
    + intros date. rewrite Hp. destruct (Hcount date).
      case_bool_decide; [|lia].
      destruct (Ledger.last_progress (db st) asin) as [prev|] eqn:Hl; [|lia].
      specialize (Hprev prev eq_refl). lia.
Qed.

Lemma fits_spec info :
  fits info = true ->
  from_option page_number true (Extractor.current info) = true
  /\ from_option page_number true (Extractor.total info) = true
  /\ Ledger.binds (Js.to_python <$> Extractor.percent info) = true.
Proof.
  unfold fits. intros H. apply andb_prop in H as [H H3].
  by apply andb_prop in H as [H1 H2].
Qed.

Lemma save_progress_sound items book info current_page (st : State W) :
  pass_sound env (ledger settings) (S items) (db st) ->
  fits info = true -> Extractor.current info = Some current_page ->
  exists st',
    save_progress env settings book info current_page st = (Ok (), st')
    /\ events st' = events st
    /\ pass_sound env (ledger settings) items (db st').
Proof.
  intros Hs Hfit Hcur. apply fits_spec in Hfit as (Hc & Ht & Hpc).
  rewrite Hcur in Hc. simpl in Hc.
  unfold save_progress. rewrite bind_run.
  assert (Hup : exists st1,
    (match Extractor.total info with
     | Some t =>
         if negb (t =? 0) && negb (t =? 100) then upsert_book env book (Some t)
         else mret ()
     | None => mret ()
     end) st = (Ok (), st1)
    /\ events st1 = events st
    /\ pass_sound env (ledger settings) (S items) (db st1)).
  { destruct (Extractor.total info) as [t|]; [|by eexists].
    destruct (negb (t =? 0) && negb (t =? 100)); [|by eexists].
    destruct (upsert_book_returns env book (Some t) st Ht) as [st1 Hu].
    pose proof (upsert_book_run env book (Some t) st) as Hrun.
    rewrite Hu in Hrun. cbv zeta in Hrun. simpl in Hrun.
    destruct Hrun as (H1 & H2 & H3 & H4 & _).
    exists st1. split; [done|]. split; [done|]. by apply (pass_sound_same _ (db st)). }
  destruct Hup as (st1 & -> & He1 & Hs1).
  destruct (record_progress_sound items (Extractor.asin book) current_page
              (Js.to_python <$> Extractor.percent info) st1 Hs1 Hc Hpc)
    as (st2 & -> & He2 & Hs2).
  exists st2. split; [done|]. split; [congruence|done].
Qed.

(** One item on a sound ledger: the book is upserted, the reader
    returns, and a position it found is saved. *)
Lemma item_sound items book (st : State W) :
  pass_sound env (ledger settings) (S items) (db st) ->
  from_option page_number true (Extractor.totalPages book) = true ->
  exists st1 r st2,
    upsert_book env book (Extractor.totalPages book) st = (Ok (), st1)
    /\ get_book_progress_from_reader env (Extractor.asin book) st1 = (Ok r, st2)
    /\ pass_sound env (ledger settings) (S items) (db st2)
    /\ match r with
       | Progress info =>
           forall current_page,
             Extractor.current info = Some current_page ->
             exists st3,
               save_progress env settings book info current_page st2 = (Ok (), st3)
               /\ pass_sound env (ledger settings) items (db st3)
       | _ => True
       end.
Proof.
  intros Hs Htp.
  destruct (upsert_book_returns env book _ st Htp) as [st1 Hu].
  pose proof (upsert_book_run env book (Extractor.totalPages book) st) as Hrun.
  rewrite Hu in Hrun. cbv zeta in Hrun. simpl in Hrun.
  destruct Hrun as (H1 & H2 & H3 & _).
  destruct (get_book_progress_from_reader_run env (Extractor.asin book) st1)
    as (r & st2 & Hr & Hd & _).
  assert (Hs2 : pass_sound env (ledger settings) (S items) (db st2)).
  { rewrite Hd. by apply (pass_sound_same _ (db st)). }
  exists st1, r, st2. split; [done|]. split; [done|]. split; [done|].
  destruct r as [| |info]; [done..|].
  intros current_page Hcur.
  destruct (reader_progress_doc env _ _ _ _ Hr) as (w & doc & w' & Hdoc & ->).
  pose proof Hs2 as (_ & _ & _ & Hfits & _).
  destruct (save_progress_sound items book (Extractor.progress_info doc)
              current_page st2) as (st3 & H & _ & Hs3);
    [done|by apply (Hfits w doc w')|done|by exists st3].
Qed.


(** So does the loop of the streaming pass. *)
Lemma stream_books_completes books : forall idx total n lic (st : State W),
  pass_sound env (ledger settings) (length books) (db st) ->
  Forall (λ b, from_option page_number true (Extractor.totalPages b) = true) books ->
  exists r, fst (stream_books env settings books idx total n lic st) = Ok r.
Proof.
  induction books as [|book rest IH]; intros idx total n lic st Hs Hall.
  { by eexists. }
  apply Forall_cons in Hall as [Hb Hrest]. cbn [length] in Hs.
  cbn [stream_books]. rewrite yield_bind.
  set (st0 := with_event st _).
  destruct (item_sound _ book st0 Hs Hb) as (st1 & r & st2 & Hu & Hr & Hs2 & Hsave).
  rewrite bind_run, Hu, bind_run, Hr.
  apply pass_sound_less in Hs2 as Hs2'.
  destruct r as [| |info].
  - rewrite yield_bind. by apply IH.
  - rewrite yield_bind. by apply IH.
  - destruct (Extractor.current info) as [current_page|].
    2:{ rewrite yield_bind. by apply IH. }
    destruct (Hsave current_page eq_refl) as (st3 & Hsv & Hs3).
    rewrite bind_run, Hsv.
    rewrite yield_bind. by apply IH.
Qed.

(** The books of a listing are those of the library script, each with
    100 for its number of pages. *)
Lemma library_books (st : State W) books st' :
  get_library_and_progress env st = (Ok books, st') ->
  exists doc, books = Extractor.books_data doc.
Proof.
  unfold get_library_and_progress.
  destruct (has_page st); [|discriminate].
  rewrite bind_run. unfold observe at 1. cbn beta iota.
  rewrite bind_run.
  destruct ((if Py.contains "read.amazon.com/kindle-library"
                  (Py.lower (page_url env (world st)))
             then mret () else goto env LIBRARY_URL) st) as [[[]|msg] st1];
    [|discriminate].
  rewrite bind_run.
  destruct (try_except (call (page_wait_for_selector env library_selector))
              (λ _, call (page_title env) ≫= λ _, mret ()) st1) as [[[]|msg] st2];
    [|discriminate].
  rewrite bind_run.
  destruct (call (evaluate_lookup env) st2) as [[[]|msg] st3]; [|discriminate].
  rewrite bind_run.
  destruct (call (evaluate_library env) st3) as [[doc|msg] st4]; [|discriminate].
  intros [= <- _]. by exists doc.
Qed.

Lemma library_books_pages doc :
  Forall (λ b, from_option page_number true (Extractor.totalPages b) = true)
    (Extractor.books_data doc).
Proof.
  apply Forall_forall. intros b Hb. apply list_elem_of_In in Hb.
  apply books_data_fields in Hb as [-> _]. reflexivity.
Qed.

End Sound.

(** ** The streaming pass *)

Section Streaming.
Import Scraper Spec.
Context {W : Type} (env : Env W) (settings : Settings).

Lemma shape_started n ts : shape_of (started_event n ts) = Started (Z.of_nat n).
Proof. reflexivity. Qed.

Lemma shape_book_progress c t title asin :
  shape_of (book_progress_event c t title asin) = BookProgress (Z.of_nat c) (Z.of_nat t).
Proof. reflexivity. Qed.

Lemma shape_book_complete c t title asin pc ok err :
  shape_of (book_complete_event c t title asin pc ok err)
  = BookComplete (Z.of_nat c) (Z.of_nat t).
Proof. reflexivity. Qed.

Lemma shape_completed n k d ts lic :
  shape_of (completed_event n k d ts lic) = Completed (Z.of_nat n).
Proof. reflexivity. Qed.

Lemma shape_error msg : shape_of (error_event msg) = Error.
Proof. reflexivity. Qed.

Lemma item_shapes_cons first count total :
  item_shapes first (S count) total
  = BookProgress (Z.of_nat (first + 1)) (Z.of_nat total)
    :: BookComplete (Z.of_nat (first + 1)) (Z.of_nat total)
    :: item_shapes (S first) count total.
Proof. reflexivity. Qed.

(** What one more yielded event does to an extension of the events. *)
Lemma events_with_event (st : State W) e : events (with_event st e) = events st ++ [e].
Proof. reflexivity. Qed.

(** One turn of the loop: the progress event, then the item is processed
    as the batch pass processes it, which yields nothing, then the
    complete event and the rest of the list; an exception of the
    processing leaves the loop before the complete event. *)
Lemma stream_books_item book rest idx total n lic (st : State W) :
  let title := Py.take 40 (Extractor.title book) in
  let ev := book_progress_event (idx + 1) total title (Extractor.asin book) in
  match process_books env settings [book] n lic (with_event st ev) with
  | (Ok (n', lic'), st') =>
      events st' = events st ++ [ev]
      /\ exists pc ok err,
           stream_books env settings (book :: rest) idx total n lic st
           = stream_books env settings rest (S idx) total n' lic'
               (with_event st'
                  (book_complete_event (idx + 1) total title (Extractor.asin book)
                     pc ok err))
  | (Raise e, st') =>
      events st' = events st ++ [ev]
      /\ stream_books env settings (book :: rest) idx total n lic st = (Raise e, st')
  end.
Proof.
  intros title ev. cbn [stream_books process_books]. fold title. fold ev.
  rewrite yield_bind, !bind_run.
  pose proof (preserves_events_upsert_book env book (Extractor.totalPages book)
                (with_event st ev)) as He1.
  destruct (upsert_book env book (Extractor.totalPages book) (with_event st ev))
    as [[[]|msg] st1]; simpl in He1; [|done].
  rewrite !bind_run.
  destruct (get_book_progress_from_reader_run env (Extractor.asin book) st1)
    as (r & st2 & -> & _ & He2 & _).
  rewrite He1 in He2.
  destruct r as [| |info].
  - split; [done|]. by eexists _, _, _.
  - split; [done|]. by eexists _, _, _.
  - destruct (Extractor.current info) as [current_page|].
    2:{ split; [done|]. by eexists _, _, _. }
    rewrite !bind_run.
    pose proof (preserves_events_save_progress env settings book info current_page st2)
      as He3.
    destruct (save_progress env settings book info current_page st2)
      as [[[]|msg] st3]; simpl in He3; rewrite He2 in He3; [|done].
    split; [done|]. by eexists _, _, _.
Qed.

(** The loop yields, for the items it gets through, a progress event and
    then a complete event with the item's index; an exception stops it
    after the progress event of an item. *)
Lemma stream_books_shapes books : forall idx total n lic (st : State W),
  exists new,
    events (snd (stream_books env settings books idx total n lic st)) = events st ++ new
    /\ Forall event_form new
    /\ match fst (stream_books env settings books idx total n lic st) with
       | Ok _ => map shape_of new = item_shapes idx (length books) total
       | Raise _ =>
           exists i, (i < length books)%nat
             /\ map shape_of new
                = item_shapes idx i total
                  ++ [BookProgress (Z.of_nat (idx + i + 1)) (Z.of_nat total)]
       end.
Proof.
  induction books as [|book rest IH]; intros idx total n lic st.
  { exists []. simpl. split; [by rewrite app_nil_r|]. split; [apply Forall_nil_2|reflexivity]. }
  pose proof (stream_books_item book rest idx total n lic st) as Hitem.
  cbv zeta in Hitem.
  set (ev := book_progress_event (idx + 1) total (Py.take 40 (Extractor.title book))
               (Extractor.asin book)) in *.
  destruct (process_books env settings [book] n lic (with_event st ev))
    as [[[n' lic']|msg] st'].
  - destruct Hitem as (He & pc & ok & err & ->).
    set (ec := book_complete_event _ _ _ _ pc ok err).
    destruct (IH (S idx) total n' lic' (with_event st' ec)) as (new & Hev & Hall & Hsh).
    exists ([ev; ec] ++ new). split; [|split].
    + rewrite Hev, events_with_event, He. by rewrite <- !app_assoc.
    + apply Forall_cons; split; [apply form_book_progress|].
      apply Forall_cons; split; [apply form_book_complete|done].
    + cbn [length]. rewrite item_shapes_cons.
      destruct (fst (stream_books env settings rest (S idx) total n' lic'
                       (with_event st' ec))).
      * cbn [map app]. subst ev ec.
        by rewrite shape_book_progress, shape_book_complete, Hsh.
      * destruct Hsh as (i & Hi & Hk). exists (S i). split; [lia|].
        rewrite item_shapes_cons. cbn [map app]. subst ev ec.
        rewrite shape_book_progress, shape_book_complete, Hk.
        by replace (idx + S i + 1)%nat with (S idx + i + 1)%nat by lia.
  - destruct Hitem as (He & ->). exists [ev]. split; [done|].
    split; [apply Forall_singleton, form_book_progress|].
    exists 0%nat. split; [simpl; lia|]. simpl. subst ev.
    by rewrite shape_book_progress, Nat.add_0_r.
Qed.

Lemma now_isoformat_run (st : State W) :
  now_isoformat env st
  = (Ok (Py.datetime_isoformat (datetime_now env (world st))),
     with_world st (clock_tick env (world st))).
Proof. reflexivity. Qed.

Lemma item_shapes_not_terminal count : forall first total,
  Forall (λ s, terminal s = false) (item_shapes first count total).
Proof.
  induction count as [|c IH]; intros first total; [constructor|].
  rewrite item_shapes_cons. repeat constructor. apply IH.
Qed.

(** The events of the pass, by the way its stages end. *)
Lemma stream_stages (st : State W) :
  let st0 := {| world := world st; db := db st; has_page := has_page st;
                actions := actions st; events := [] |} in
  let out := scrape_and_save_streaming env settings st in
  match ensure_login env settings st0 with
  | (Raise e, _) => out = [error_event e]
  | (Ok (Refuse message), _) => out = [error_event message]
  | (Ok Proceed, st1) =>
      match get_library_and_progress env st1 with
      | (Raise e, _) => out = [error_event e]
      | (Ok books, st2) =>
          let N := length books in
          let started :=
            started_event N (Py.datetime_isoformat (datetime_now env (world st2))) in
          match stream_books env settings books 0 N 0 []
                  (with_event (with_world st2 (clock_tick env (world st2))) started) with
          | (Ok (k, lic), _) =>
              Forall event_form out
              /\ map shape_of out = success_shapes N
              /\ exists duration ts,
                   last out = Some (completed_event N k duration ts lic)
          | (Raise e, _) =>
              Forall event_form out
              /\ last out = Some (error_event e)
              /\ exists i, (i < N)%nat
                   /\ map shape_of out
                      = Started (Z.of_nat N)
                        :: item_shapes 0 i N
                        ++ [BookProgress (Z.of_nat (i + 1)) (Z.of_nat N); Error]
          end
      end
  end.
Proof.
  intros st0 out. subst out.
  unfold scrape_and_save_streaming, stream_run, stream_body. fold st0.
  generalize (time_time env (world st0)). intros start.
  rewrite bind_run.
  pose proof (preserves_ensure_login env settings (@events W) (@quiet_events W) st0) as Hg.
  destruct (ensure_login env settings st0) as [[[|message]|msg] st1]; simpl in Hg.
  2:{ simpl. by rewrite Hg. }
  2:{ simpl. by rewrite Hg. }
  rewrite bind_run.
  pose proof (preserves_get_library_and_progress env (@events W) (@quiet_events W) st1)
    as Hl.
  destruct (get_library_and_progress env st1) as [[books|msg] st2]; simpl in Hl.
  2:{ simpl. by rewrite Hl, Hg. }
  cbv zeta. unfold stream_library. rewrite bind_run, now_isoformat_run, yield_bind.
  set (started := started_event (length books) _).
  set (st3 := with_event _ started).
  assert (He3 : events st3 = [started]).
  { unfold st3. rewrite events_with_event. simpl. by rewrite Hl, Hg. }
  rewrite bind_run.
  destruct (stream_books_shapes books 0 (length books) 0 [] st3)
    as (new & Hev & Hall & Hsh).
  rewrite He3 in Hev.
  destruct (stream_books env settings books 0 (length books) 0 [] st3)
    as [[[k lic]|msg] st4]; simpl in Hev, Hsh.
  - rewrite bind_run. unfold observe at 1. cbn beta iota.
    rewrite bind_run, now_isoformat_run. unfold yield. simpl. rewrite Hev.
    split; [|split].
    + apply Forall_app. split; [|apply Forall_singleton, form_completed].
      apply Forall_cons. split; [apply form_started|done].
    + unfold success_shapes, open_shapes. rewrite map_app. cbn [map app].
      by rewrite Hsh, shape_completed.
    + eexists _, _. by rewrite last_snoc.
  - simpl. rewrite Hev. split; [|split].
    + apply Forall_app. split; [|apply Forall_singleton, form_error].
      apply Forall_cons. split; [apply form_started|done].
    + by rewrite last_snoc.
    + destruct Hsh as (i & Hi & Hk). exists i. split; [done|].
      rewrite map_app. cbn [map app]. rewrite Hk, shape_error.
      by rewrite <- app_assoc.
Qed.

(** Every streamed event has one of the five forms. *)
Lemma stream_events_forms (st : State W) :
  Forall event_form (scrape_and_save_streaming env settings st).
Proof.
  pose proof (stream_stages st) as H. cbv zeta in H.
  destruct (ensure_login env settings _) as [[[|message]|msg] st1];
    [|rewrite H; apply Forall_singleton, form_error..].
  destruct (get_library_and_progress env st1) as [[books|msg] st2];
    [|rewrite H; apply Forall_singleton, form_error].
  destruct (stream_books env settings books _ _ _ _ _) as [[[k lic]|msg] st4];
    by destruct H.
Qed.

Lemma event_timestamp e :
  event_form e ->
  (kind e = "started" \/ kind e = "completed" ->
     exists ts, e !! "timestamp" = Some (VStr ts))
  /\ (kind e = "error" ->
     e !! "timestamp" = None
     /\ exists msg, e = error_event msg).
Proof.
  intros [n ts|c t title asin|c t title asin pc ok err|n k d ts lic|msg]; split.
  - intros _. by exists ts.
  - discriminate.
  - intros [H|H]; discriminate H.
  - discriminate.
  - intros [H|H]; discriminate H.
  - discriminate.
  - intros _. by exists ts.
  - discriminate.
  - intros [H|H]; discriminate H.
  - intros _. split; [reflexivity|by exists msg].
Qed.

End Streaming.

Section StreamingSequence.
Import Scraper Spec.
Context {W : Type} (env : Env W) (settings : Settings).

(** C5.  The events of a streaming pass, stage by stage.  A login that
    is refused or raises, and a listing that raises, give one [error]
    event and nothing else.  With the library listed, [started] carries
    the number N of its items and the loop runs: when it returns, the
    events are [started], then [book_progress] (i, N) and [book_complete]
    (i, N) for i = 1..N in order, then [completed], which carries what the
    loop returned; when it raises at item i + 1, they are [started], the
    events of items 1..i, the [book_progress] of item i + 1 and [error]
    with the text of the exception.  In a turn of the loop the progress
    event comes first, then the item is processed as the batch pass
    processes it, which yields nothing, then comes the complete event, and
    an exception of the processing leaves the loop.  On a sound ledger no
    stage fails once the login proceeds and the library is listed.  In
    every case the last event is the only terminal one. *)
Theorem streaming_event_sequence (st : State W) :
  let st0 := {| world := world st; db := db st; has_page := has_page st;
                actions := actions st; events := [] |} in
  let out := scrape_and_save_streaming env settings st in
  match ensure_login env settings st0 with
  | (Raise e, _) => out = [error_event e]
  | (Ok (Refuse message), _) => out = [error_event message]
  | (Ok Proceed, st1) =>
      match get_library_and_progress env st1 with
      | (Raise e, _) => out = [error_event e]
      | (Ok books, st2) =>
          let N := length books in
          let started :=
            started_event N (Py.datetime_isoformat (datetime_now env (world st2))) in
          match stream_books env settings books 0 N 0 []
                  (with_event (with_world st2 (clock_tick env (world st2))) started) with
          | (Ok (k, lic), _) =>
              map shape_of out = success_shapes N
              /\ exists duration ts,
                   last out = Some (completed_event N k duration ts lic)
          | (Raise e, _) =>
              last out = Some (error_event e)
              /\ exists i, (i < N)%nat
                   /\ map shape_of out
                      = Started (Z.of_nat N)
                        :: item_shapes 0 i N
                        ++ [BookProgress (Z.of_nat (i + 1)) (Z.of_nat N); Error]
          end
      end
  end
  /\ (forall book rest idx total n lic (s : State W),
        let title := Py.take 40 (Extractor.title book) in
        let ev := book_progress_event (idx + 1) total title (Extractor.asin book) in
        match process_books env settings [book] n lic (with_event s ev) with
        | (Ok (n', lic'), s') =>
            events s' = events s ++ [ev]
            /\ exists pc ok err,
                 stream_books env settings (book :: rest) idx total n lic s
                 = stream_books env settings rest (S idx) total n' lic'
                     (with_event s'
                        (book_complete_event (idx + 1) total title (Extractor.asin book)
                           pc ok err))
        | (Raise e, s') =>
            events s' = events s ++ [ev]
            /\ stream_books env settings (book :: rest) idx total n lic s = (Raise e, s')
        end)
  /\ (forall st1 books st2,
        ensure_login env settings st0 = (Ok Proceed, st1) ->
        get_library_and_progress env st1 = (Ok books, st2) ->
        pass_sound env (ledger settings) (length books) (db st) ->
        map shape_of out = success_shapes (length books))
  /\ exists body final,
       map shape_of out = body ++ [final] /\ terminal final = true
       /\ Forall (λ s, terminal s = false) body.
Proof.
  intros st0 out. pose proof (stream_stages env settings st) as Hst.
  cbv zeta in Hst. fold st0 in Hst. fold out in Hst.
  split; [|split; [|split]].
  - destruct (ensure_login env settings st0) as [[[|message]|msg] st1]; [|done..].
    destruct (get_library_and_progress env st1) as [[books|msg] st2]; [|done].
    cbv zeta.
    destruct (stream_books env settings books _ _ _ _ _) as [[[k lic]|msg] st4];
      by destruct Hst as (_ & ? & ?).
  - apply stream_books_item.
  - intros st1 books st2 Hg Hl Hs. rewrite Hg, Hl in Hst.
    pose proof (preserves_ensure_login env settings (@db W) (@quiet_db W) st0) as Hd1.
    pose proof (preserves_get_library_and_progress env (@db W) (@quiet_db W) st1) as Hd2.
    rewrite Hg in Hd1. rewrite Hl in Hd2. simpl in Hd1, Hd2.
    destruct (library_books env _ _ _ Hl) as [doc ->].
    set (N := length (Extractor.books_data doc)) in *.
    destruct (stream_books_completes env settings (Extractor.books_data doc) 0 N 0 []
                (with_event (with_world st2 (clock_tick env (world st2)))
                   (started_event N
                      (Py.datetime_isoformat (datetime_now env (world st2))))))
      as [r Hr].
    { simpl. by rewrite Hd2, Hd1. }
    { apply library_books_pages. }
    destruct (stream_books env settings (Extractor.books_data doc) _ _ _ _ _)
      as [[[k lic]|msg] st4]; simpl in Hr; [|discriminate].
    by destruct Hst as (_ & ? & _).
  - assert (Herr : forall m, out = [error_event m] ->
      exists body final,
        map shape_of out = body ++ [final] /\ terminal final = true
        /\ Forall (λ s, terminal s = false) body).
    { intros m ->. exists [], Error. by repeat split. }
    destruct (ensure_login env settings st0) as [[[|message]|msg] st1];
      [|by eapply Herr..].
    destruct (get_library_and_progress env st1) as [[books|msg] st2];
      [|by eapply Herr].
    destruct (stream_books env settings books _ _ _ _ _) as [[[k lic]|msg] st4].
    + destruct Hst as (_ & -> & _).
      exists (open_shapes (length books)), (Completed (Z.of_nat (length books))).
      repeat split. constructor; [done|apply item_shapes_not_terminal].
    + destruct Hst as (_ & _ & i & Hi & ->).
      exists (Started (Z.of_nat (length books))
              :: item_shapes 0 i (length books)
              ++ [BookProgress (Z.of_nat (i + 1)) (Z.of_nat (length books))]), Error.
      split; [by simpl; rewrite <- app_assoc|]. split; [done|].
      constructor; [done|]. apply Forall_app. split; [apply item_shapes_not_terminal|].
      by repeat constructor.
Qed.

End StreamingSequence.

(** ** The batch pass *)

Section Batch.
Import Scraper Spec.
Context {W : Type} (env : Env W) (settings : Settings).




(** Whatever happens, [scrape_and_save] returns a summary of one of the
    two forms. *)
Lemma scrape_and_save_form (st : State W) :
  summary_form (fst (scrape_and_save env settings st)).
Proof.
  unfold scrape_and_save, scrape_body. rewrite bind_run.
  destruct (ensure_login env settings st) as [[[|message]|msg] st1]; simpl;
    [|apply form_failure..].
  rewrite bind_run.
  destruct (get_library_and_progress env st1) as [[books|msg] st2]; simpl;
    [|apply form_failure].
  rewrite bind_run.
  destruct (process_books env settings books 0 [] st2) as [[[n lic]|msg] st3]; simpl;
    [apply form_success|apply form_failure].
Qed.

Lemma summary_timestamp d :
  summary_form d -> exists ts, d !! "timestamp" = Some (VStr ts).
Proof.
  intros [n k ts [|l lic]|msg ts]; exists ts; reflexivity.
Qed.





Lemma failure_summary_error e ts : failure_summary e ts !! "error" = Some (VStr e).
Proof. reflexivity. Qed.



End Batch.
(** ** Timestamps of the results *)

Section Timestamps.
Import Scraper Spec.
Context {W : Type} (env : Env W) (settings : Settings).

(** C9, as the code has it.  Both forms of the batch summary carry a
    timestamp, and so do the [started] and [completed] events of the
    stream; an [error] event carries its message and the recoverable flag
    only. *)
Theorem results_carry_timestamp (st : State W) :
  (exists ts, fst (scrape_and_save env settings st) !! "timestamp" = Some (VStr ts))
  /\ forall e, In e (scrape_and_save_streaming env settings st) ->
       (kind e = "started" \/ kind e = "completed" ->
          exists ts, e !! "timestamp" = Some (VStr ts))
       /\ (kind e = "error" ->
          e !! "timestamp" = None /\ exists msg, e = error_event msg).
Proof.
  split.
  - apply summary_timestamp, scrape_and_save_form.
  - intros e He. apply event_timestamp.
    pose proof (stream_events_forms env settings st) as Hall.
    rewrite Forall_forall in Hall. apply Hall. by apply list_elem_of_In.
Qed.

End Timestamps.

(** ** The library-only pass *)

Section LibraryOnly.
Import Scraper Spec.
Context {W : Type} (env : Env W) (settings : Settings).

Lemma plain_library_books (st : State W) books st' :
  plain_get_library_and_progress env st = (Ok books, st') ->
  exists doc, books = Extractor.plain_books_data doc.
Proof.
  unfold plain_get_library_and_progress.
  destruct (has_page st); [|discriminate].
  rewrite bind_run. unfold observe at 1. cbn beta iota.
  rewrite bind_run.
  destruct ((if Py.contains "read.amazon.com/kindle-library"
                  (Py.lower (page_url env (world st)))
             then mret () else goto env LIBRARY_URL) st) as [[[]|msg] st1];
    [|discriminate].
  rewrite bind_run.
  destruct (try_except (call (page_wait_for_selector env library_selector))
              (λ _, call (page_title env) ≫= λ _, mret ()) st1) as [[[]|msg] st2];
    [|discriminate].
  rewrite bind_run.
  destruct (call (evaluate_library env) st2) as [[doc|msg] st3]; [|discriminate].
  intros [= <- _]. by exists doc.
Qed.

Lemma plain_save_books_snapshots books : forall st : State W,
  Forall (λ b, Extractor.currentPosition b = None) books ->
  Ledger.reading_progress (db (snd (plain_save_books env settings books st)))
  = Ledger.reading_progress (db st).
Proof.
  induction books as [|book rest IH]; intros st Hall; [done|].
  apply Forall_cons in Hall as [Hb Hrest].
  cbn [plain_save_books]. rewrite bind_run.
  pose proof (upsert_book_run env book (Extractor.totalPages book) st) as Hrun.
  cbv zeta in Hrun. destruct Hrun as [Hr1 _].
  destruct (upsert_book env book (Extractor.totalPages book) st) as [[[]|msg] st1];
    simpl in Hr1; [|done].
  rewrite Hb, bind_run. cbn beta iota.
  change ((mret () : M W unit) st1) with ((Ok (), st1) : result unit * State W).
  cbn beta iota. rewrite (IH st1 Hrest). done.
Qed.

(** The library-only pass of [src/scraper.py] records no snapshot: its
    script gives no position. *)
Lemma plain_pass_records_nothing (st : State W) :
  Ledger.reading_progress (db (snd (plain_scrape_and_save env settings st)))
  = Ledger.reading_progress (db st).
Proof.
  unfold plain_scrape_and_save, plain_scrape_body. rewrite bind_run.
  pose proof (preserves_ensure_login env settings (@db W) (@quiet_db W) st) as Hd1.
  destruct (ensure_login env settings st) as [[[|message]|msg] st1]; simpl in Hd1;
    simpl; try by rewrite Hd1.
  rewrite bind_run.
  pose proof (preserves_plain_get_library_and_progress env (@db W) (@quiet_db W) st1)
    as Hd2.
  destruct (plain_get_library_and_progress env st1) as [[books|msg] st2] eqn:Hlib;
    simpl in Hd2; simpl; [|by rewrite Hd2, Hd1].
  destruct (plain_library_books _ _ _ Hlib) as [doc ->].
  pose proof (plain_save_books_snapshots (Extractor.plain_books_data doc) st2) as Hr3.
  rewrite bind_run.
  destruct (plain_save_books env settings (Extractor.plain_books_data doc) st2)
    as [[[]|msg] st3]; simpl in Hr3 |- *; rewrite Hr3, ?Hd2, ?Hd1; try done.
  all: apply Forall_forall; intros b Hb; apply list_elem_of_In in Hb;
    by apply plain_books_no_position in Hb as [-> _].
Qed.

(** The loop of the pass does not look at the position the library gives. *)
Lemma process_books_without_position books : forall n lic (st : State W),
  process_books env settings (map without_position books) n lic st
  = process_books env settings books n lic st.
Proof.
  induction books as [|book rest IH]; intros n lic st; [reflexivity|].
  cbn [map process_books]. rewrite !bind_run.
  change (upsert_book env (without_position book)
            (Extractor.totalPages (without_position book)) st)
    with (upsert_book env book (Extractor.totalPages book) st).
  destruct (upsert_book env book (Extractor.totalPages book) st) as [[[]|msg] st1];
    [|reflexivity].
  rewrite !bind_run.
  change (Extractor.asin (without_position book)) with (Extractor.asin book).
  change (Extractor.title (without_position book)) with (Extractor.title book).
  destruct (get_book_progress_from_reader env (Extractor.asin book) st1)
    as [[[| |info]|msg] st2]; try reflexivity; try apply IH.
  destruct (Extractor.current info) as [current_page|]; [|apply IH].
  rewrite !bind_run.
  change (save_progress env settings (without_position book) info current_page st2)
    with (save_progress env settings book info current_page st2).
  destruct (save_progress env settings book info current_page st2) as [[[]|msg] st3];
    [apply IH|reflexivity].
Qed.

(** C10, as the code has it.  Every book of the library script of
    [archived/src/scraper.py] has totalPages 100 and currentPosition equal
    to percentComplete, which comes from the percentage shown for an item
    of the page.  No pass hands that position to the ledger: the loop of
    [scrape_and_save] does the same when the positions are forgotten, and
    the library-only pass of [src/scraper.py] records no snapshot. *)
Theorem library_books_percent_as_position :
  (forall doc b,
     In b (Extractor.books_data doc) ->
     Extractor.totalPages b = Some 100
     /\ Extractor.currentPosition b = Some (Extractor.percentComplete b)
     /\ exists item,
          In item (Extractor.library_items doc)
          /\ Extractor.percentComplete b
             = Extractor.item_percent doc item (Extractor.asin b))
  /\ (forall books n lic (st : State W),
        process_books env settings (map without_position books) n lic st
        = process_books env settings books n lic st)
  /\ (forall st : State W,
        Ledger.reading_progress (db (snd (plain_scrape_and_save env settings st)))
        = Ledger.reading_progress (db st)).
Proof.
  split; [apply books_data_fields|].
  split; [intros; apply process_books_without_position|].
  apply plain_pass_records_nothing.
Qed.

End LibraryOnly.

Section OrchestratorExamples.
Import Scraper Spec Samples.

Lemma results_carry_timestamp_witness :
  exists e ts,
    In e (scrape_and_save_streaming sample_env sample_settings logged_in_state)
    /\ kind e = "completed"
    /\ e !! "timestamp" = Some (VStr ts).
Proof.
  destruct (nth_error (scrape_and_save_streaming sample_env sample_settings logged_in_state) 7)
    as [e|] eqn:He.
  - assert (Hin : In e (scrape_and_save_streaming sample_env sample_settings logged_in_state))
      by apply (nth_error_In _ _ He).
    assert (Hk : kind e = "completed").
    { apply (f_equal (option_map kind)) in He. vm_compute in He.
      injection He as He. exact (eq_sym He). }
    destruct (results_carry_timestamp sample_env sample_settings logged_in_state) as [_ H].
    destruct (H e Hin) as [Hts _]. destruct (Hts (or_intror Hk)) as [ts Ht].
    exists e, ts. split; [exact Hin|]. split; [exact Hk|exact Ht].
  - apply (f_equal (option_map kind)) in He. vm_compute in He. discriminate He.
Defined.

(** C9, as stated, fails: the pass stopped at the multi-factor page
    yields one event, the terminal [error], and it has no timestamp. *)
Lemma streaming_error_without_timestamp :
  match scrape_and_save_streaming sample_env sample_settings mfa_state with
  | [e] => kind e = "error" /\ e !! "timestamp" = None
  | _ => False
  end.
Proof. vm_compute. split; reflexivity. Qed.

(** The events of the sample pass over three books. *)
Example streaming_sample_shapes :
  map shape_of (scrape_and_save_streaming sample_env sample_settings logged_in_state)
  = [Started 3; BookProgress 1 3; BookComplete 1 3; BookProgress 2 3;
     BookComplete 2 3; BookProgress 3 3; BookComplete 3 3; Completed 3].
Proof. vm_compute. reflexivity. Qed.

(** The end-to-end scenario: book A moves from 10 to 25, book B is
    license-limited, book C shows no pattern. *)
Example end_to_end_scenario :
  let '(d, st) := scrape_and_save sample_env sample_settings logged_in_state in
  d !! "books_scraped" = Some (VInt 3)
  /\ d !! "books_with_progress" = Some (VInt 1)
  /\ d !! "license_limit_books" = Some (VList ["Book B"])
  /\ Ledger.pages_on (db st) "2024-01-15" = 15
  /\ length (Ledger.reading_progress (db st)) = 2%nat.
Proof. vm_compute. repeat split. Qed.

Lemma sample_pass_sound :
  pass_sound sample_env (ledger sample_settings) 3 (db logged_in_state).
Proof.
  split; [by exists 4|]. split; [by exists 30|].
  split; [intros w; split; reflexivity|].
  split.
  { intros w doc w' [= <- _].
    destruct (String.eqb (opened w) "#library-item-option-A1"); reflexivity. }
  split.
  { intros r [<-|[]]. simpl. lia. }
  intros date. change (Ledger.pages_on (db logged_in_state) date) with 0. lia.
Qed.

Lemma streaming_event_sequence_witness :
  map shape_of (scrape_and_save_streaming sample_env sample_settings logged_in_state)
  = success_shapes 3.
Proof.
  destruct (streaming_event_sequence sample_env sample_settings logged_in_state)
    as (_ & _ & H & _).
  destruct (ensure_login sample_env sample_settings logged_in_state) as [g st1] eqn:Hg.
  pose proof Hg as Hg'. vm_compute in Hg'. injection Hg' as Hgv Hst1. subst g.
  destruct (get_library_and_progress sample_env st1) as [l st2] eqn:Hl.
  pose proof Hl as Hl'. rewrite <- Hst1 in Hl'. vm_compute in Hl'.
  injection Hl' as Hlv _. subst l.
  exact (H st1 _ st2 Hg Hl sample_pass_sound).
Defined.


Lemma library_books_percent_as_position_witness :
  exists b,
    In b (Extractor.books_data library_doc)
    /\ Extractor.asin b = "A1"
    /\ Extractor.totalPages b = Some 100
    /\ Extractor.currentPosition b = Some 45.
Proof.
  destruct (nth_error (Extractor.books_data library_doc) 0) as [b|] eqn:E;
    [|vm_compute in E; discriminate E].
  pose proof (nth_error_In _ _ E) as Hin.
  destruct (library_books_percent_as_position sample_env sample_settings) as [H _].
  destruct (H library_doc b Hin) as (H1 & H2 & _).
  pose proof (f_equal (option_map Extractor.asin) E) as Ha.
  pose proof (f_equal (option_map Extractor.percentComplete) E) as Hp.
  vm_compute in Ha. vm_compute in Hp.
  injection Ha as Ha. injection Hp as Hp.
  exists b. split; [exact Hin|]. split; [exact (eq_sym Ha)|]. split; [exact H1|].
  rewrite H2. f_equal. exact (eq_sym Hp).
Defined.

(** C10, as stated, fails in its last part: the library gives book A1
    the position 45, and no pass hands it to the ledger.  The pass of
    [archived/src/scraper.py] records the position 25 read in the reader
    view, after the 10 already stored; the library-only pass of
    [src/scraper.py] records nothing. *)
Lemma library_position_not_recorded :
  map Extractor.currentPosition (Extractor.books_data library_doc)
    = [Some 45; Some 10; Some 0]
  /\ map Ledger.position
       (Ledger.reading_progress
          (db (snd (scrape_and_save sample_env sample_settings logged_in_state))))
     = [10; 25]
  /\ map Ledger.position
       (Ledger.reading_progress
          (db (snd (plain_scrape_and_save sample_env sample_settings logged_in_state))))
     = [10].
Proof. vm_compute. repeat split. Qed.

End OrchestratorExamples.

(** ** Properties of the session navigator *)

Section NavigatorProperties.
Import Scraper.
Context {W : Type} (env : Env W) (settings : Settings).

Lemma manual_pages_are_auth_pages url :
  any_in manual_pages url = true -> any_in auth_pages url = true.
Proof.
  unfold any_in, manual_pages, auth_pages; simpl.
  destruct (Py.contains "ap/mfa" url), (Py.contains "ap/cvf" url),
    (Py.contains "ap/dcq" url), (Py.contains "challenge" url),
    (Py.contains "verification" url); simpl;
    rewrite ?orb_true_r; try reflexivity; discriminate.
Qed.

(** A URL is in the manual class exactly when it carries one of the five
    markers and neither the library marker nor "landing". *)
Lemma classify_manual url :
  Spec.classify url = Spec.AuthChallenge true <->
  any_in manual_pages (Py.lower url) = true
  /\ Py.contains "read.amazon.com/kindle-library" (Py.lower url) = false
  /\ Py.contains "landing" (Py.lower url) = false.
Proof.
  unfold Spec.classify. split.
  - destruct (Py.contains "read.amazon.com/kindle-library" _); [discriminate|].
    destruct (Py.contains "landing" _); [discriminate|].
    destruct (any_in auth_pages _); [|discriminate].
    intros [= H]. auto.
  - intros (Hm & -> & ->). by rewrite (manual_pages_are_auth_pages _ Hm), Hm.
Qed.

(** C8. On a page that the navigator classifies as a multi-factor,
    verification or challenge page, the attempt returns "2fa" and leaves
    the state as it found it: no action is taken on the page, so no field
    is filled and no form submitted; the loop returns at that attempt. *)
Theorem manual_2fa_returns_at_once (st : State W) (remaining : nat) :
  Spec.classify (page_url env (world st)) = Spec.AuthChallenge true ->
  attempt env settings st = (Ok (Some Manual2FARequired), st)
  /\ login_loop env settings (S remaining) st = (Ok Manual2FARequired, st).
Proof.
  intros H. apply classify_manual in H as (Hm & Hl & Hd).
  assert (Ha : attempt env settings st = (Ok (Some Manual2FARequired), st)).
  { unfold attempt, observe, mbind, M_bind; cbn beta iota.
    by rewrite Hl, Hd, (manual_pages_are_auth_pages _ Hm), Hm. }
  split; [exact Ha|].
  cbn [login_loop]. unfold mbind, M_bind. by rewrite Ha.
Qed.

End NavigatorProperties.

Section NavigatorExamples.
Import Scraper Samples.

Lemma manual_2fa_returns_at_once_witness :
  attempt sample_env sample_settings mfa_state = (Ok (Some Manual2FARequired), mfa_state)
  /\ login_loop sample_env sample_settings 5 mfa_state = (Ok Manual2FARequired, mfa_state).
Proof.
  apply (manual_2fa_returns_at_once sample_env sample_settings mfa_state 4).
  reflexivity.
Defined.

(** The whole check on the sample multi-factor page: the only action is
    the initial navigation to the library. *)
Example is_logged_in_on_mfa_page :
  let '(r, st) := is_logged_in sample_env sample_settings mfa_state in
  r = Ok Manual2FARequired /\ actions st = [Goto LIBRARY_URL].
Proof. vm_compute. split; reflexivity. Qed.

(** The tests come in order: a URL with "landing" in it is a landing page
    even when it also carries a challenge marker, and the sign-in link is
    clicked. *)
Example landing_precedes_challenge :
  let st := state_at "https://www.amazon.com/landing?challenge=1" seen_db in
  Spec.classify (Samples.url (world st)) = Spec.Landing
  /\ attempt sample_env sample_settings st
     = (Ok None,
        {| world := world st; db := db st; has_page := true;
           actions := [Click sign_in_text]; events := [] |}).
Proof. vm_compute. split; reflexivity. Qed.

End NavigatorExamples.

(** * Further properties of the code *)

(** ** Text of integers: [int(str(n))] *)

Section IntegerText.

Lemma rev_app_rev_app s : forall t u,
  String.rev_app (String.rev_app s t) u = String.rev_app t (s +:+ u).
Proof.
  induction s as [|c s IH]; intros t u; [reflexivity|].
  cbn [String.rev_app]. by rewrite IH.
Qed.

Lemma rev_rev s : String.rev (String.rev s) = s.
Proof.
  unfold String.rev. rewrite rev_app_rev_app. cbn [String.rev_app].
  induction s as [|c s IH]; [reflexivity|].
  change (String c s +:+ EmptyString) with (String c (s +:+ EmptyString)).
  by rewrite IH.
Qed.

Lemma all_chars_rev_app p s : forall t,
  Js.all_chars p s = true -> Js.all_chars p t = true ->
  Js.all_chars p (String.rev_app s t) = true.
Proof.
  induction s as [|c s IH]; intros t Hs Ht; [done|].
  cbn in Hs. apply andb_prop in Hs as [Hc Hs].
  cbn [String.rev_app]. apply IH; [done|]. cbn. by rewrite Hc.
Qed.

Lemma lstrip_no_space s :
  Js.all_chars (λ c, negb (Py.is_space c)) s = true -> Py.lstrip s = s.
Proof.
  destruct s as [|c s]; [done|]. cbn. intros H.
  apply andb_prop in H as [Hc _]. apply negb_true_iff in Hc. by rewrite Hc.
Qed.

Lemma strip_no_space s :
  Js.all_chars (λ c, negb (Py.is_space c)) s = true -> Py.strip s = s.
Proof.
  intros H. unfold Py.strip. rewrite (lstrip_no_space s H).
  rewrite lstrip_no_space; [apply rev_rev|].
  by apply all_chars_rev_app.
Qed.

Lemma digit_char_spec n :
  exists d, 0 <= d <= 9 /\ d = n mod 10
    /\ Py.digit_char n = ascii_of_nat (Z.to_nat (48 + d)).
Proof.
  exists (n mod 10). split; [|done].
  pose proof (Z.mod_pos_bound n 10). lia.
Qed.

Lemma digit_char_digit n :
  Py.is_digit (Py.digit_char n) = true
  /\ Py.is_space (Py.digit_char n) = false
  /\ Py.digit_val (Py.digit_char n) = n mod 10
  /\ Ascii.eqb (Py.digit_char n) "_" = false.
Proof.
  destruct (digit_char_spec n) as (d & Hd & <- & ->).
  assert (d = 0 \/ d = 1 \/ d = 2 \/ d = 3 \/ d = 4 \/ d = 5 \/ d = 6 \/ d = 7
          \/ d = 8 \/ d = 9) as Hc by lia.
  destruct Hc as [->|[->|[->|[->|[->|[->|[->|[->|[->| ->]]]]]]]]]; by vm_compute.
Qed.

(** The digits written in front of [acc] are read back by [int_digits]. *)
Lemma str_digits_read fuel : forall n acc,
  0 <= n < 10 ^ Z.of_nat (S fuel) ->
  exists k,
    forall a, Py.int_digits a (Py.str_digits (S fuel) n acc)
              = Py.int_digits (a * k + n) acc.
Proof.
  induction fuel as [|fuel IH]; intros n acc Hn.
  - exists 10. intros a. cbn [Py.str_digits].
    replace (n <? 10) with true by (symmetry; apply Z.ltb_lt; simpl in Hn; lia).
    cbn [Py.int_digits].
    destruct (digit_char_digit n) as (-> & _ & -> & _).
    f_equal. rewrite Z.mod_small by (simpl in Hn; lia). lia.
  - cbn [Py.str_digits]. destruct (n <? 10) eqn:Hlt.
    + exists 10. intros a. cbn [Py.int_digits].
      destruct (digit_char_digit n) as (-> & _ & -> & _).
      f_equal. apply Z.ltb_lt in Hlt. rewrite Z.mod_small by lia. lia.
    + apply Z.ltb_ge in Hlt.
      destruct (IH (n / 10) (String (Py.digit_char n) acc)) as (k & Hk).
      { split; [apply Z.div_pos; lia|].
        apply Z.div_lt_upper_bound; [lia|].
        replace (Z.of_nat (S (S fuel))) with (Z.succ (Z.of_nat (S fuel))) in Hn by lia.
        rewrite Z.pow_succ_r in Hn by lia. lia. }
      exists (10 * k). intros a. rewrite Hk. cbn [Py.int_digits].
      destruct (digit_char_digit n) as (-> & _ & -> & _).
      f_equal. pose proof (Z.div_mod n 10). lia.
Qed.

Lemma str_digits_chars (p : ascii -> bool) fuel : forall n acc,
  (forall m, p (Py.digit_char m) = true) ->
  Js.all_chars p acc = true ->
  Js.all_chars p (Py.str_digits fuel n acc) = true.
Proof.
  induction fuel as [|fuel IH]; intros n acc Hp Hacc; [done|].
  cbn [Py.str_digits].
  assert (Js.all_chars p (String (Py.digit_char n) acc) = true) as H.
  { cbn. by rewrite Hp. }
  destruct (n <? 10); [done|]. by apply IH.
Qed.

Lemma str_digits_head fuel : forall n acc,
  exists m rest, Py.str_digits (S fuel) n acc = String (Py.digit_char m) rest.
Proof.
  induction fuel as [|fuel IH]; intros n acc.
  - cbn [Py.str_digits]. destruct (n <? 10); by eexists _, _.
  - cbn [Py.str_digits]. destruct (n <? 10); [by eexists _, _|].
    apply IH.
Qed.

Lemma log2_fuel n : 0 <= n -> 0 <= n < 10 ^ Z.of_nat (S (Z.to_nat (Z.log2 n))).
Proof.
  intros Hn. split; [done|].
  pose proof (Z.log2_nonneg n) as Hl.
  replace (Z.of_nat (S (Z.to_nat (Z.log2 n)))) with (Z.succ (Z.log2 n)) by lia.
  destruct (Z.eq_dec n 0) as [->|Hz]; [by vm_compute|].
  destruct (Z.log2_spec n) as [_ H]; [lia|].
  eapply Z.lt_le_trans; [exact H|].
  apply Z.pow_le_mono_l. lia.
Qed.

Lemma int_unsigned_str n :
  0 <= n -> Py.int_unsigned (Py.str_unsigned n) = Some n.
Proof.
  intros Hn. unfold Py.str_unsigned.
  destruct (str_digits_read (Z.to_nat (Z.log2 n)) n EmptyString (log2_fuel n Hn))
    as (k & Hk).
  specialize (Hk 0). cbn [Py.int_digits] in Hk.
  destruct (str_digits_head (Z.to_nat (Z.log2 n)) n EmptyString) as (m & rest & E).
  rewrite E in Hk |- *. cbn [Py.int_unsigned Py.int_digits] in Hk |- *.
  destruct (digit_char_digit m) as (Hd & _).
  rewrite Hd in Hk |- *.
  etransitivity; [|etransitivity; [exact Hk|]]; f_equal; lia.
Qed.

Lemma str_unsigned_no_space n :
  Js.all_chars (λ c, negb (Py.is_space c)) (Py.str_unsigned n) = true.
Proof.
  apply str_digits_chars; [|done]. intros m.
  destruct (digit_char_digit m) as (_ & -> & _). done.
Qed.

Lemma digit_not_sign c :
  Py.is_digit c = true -> Ascii.eqb c "-" = false /\ Ascii.eqb c "+" = false.
Proof. destruct c as [[] [] [] [] [] [] [] []]; by vm_compute. Qed.

(** [int(str(n)) == n] for every integer. *)
Lemma int_str n : Py.int (Py.str n) = Some n.
Proof.
  unfold Py.int, Py.str. destruct (n <? 0) eqn:Hneg.
  - apply Z.ltb_lt in Hneg.
    rewrite strip_no_space.
    2:{ cbn [Js.all_chars]. by rewrite str_unsigned_no_space. }
    rewrite int_unsigned_str by lia. cbn. f_equal. lia.
  - apply Z.ltb_ge in Hneg.
    rewrite strip_no_space by apply str_unsigned_no_space.
    pose proof (int_unsigned_str n Hneg) as H.
    unfold Py.str_unsigned in *.
    destruct (str_digits_head (Z.to_nat (Z.log2 n)) n EmptyString) as (m & rest & E).
    rewrite E in H |- *.
    destruct (digit_char_digit m) as (Hd & _).
    destruct (digit_not_sign _ Hd) as [H1 H2].
    destruct (Py.digit_char m) as [b0 b1 b2 b3 b4 b5 b6 b7] eqn:Ec.
    destruct b0, b1, b2, b3, b4, b5, b6, b7; try exact H; discriminate.
Qed.

Lemma str_nonempty n : Py.nonempty (Py.str n) = true.
Proof.
  unfold Py.str, Py.str_unsigned. destruct (n <? 0); [done|].
  destruct (str_digits_head (Z.to_nat (Z.log2 n)) n EmptyString) as (m & rest & ->).
  done.
Qed.

End IntegerText.

(** ** The ledger: more of [database.py] *)

Section LedgerMore.
Import Ledger Samples.

(** X1.  A call of [record_progress] that returns never lowers the count of
    pages of any date.  It leaves the books and the settings as they are,
    and the latest snapshot of every other book, the baseline of its next
    delta, stays the same. *)
Theorem record_progress_only_adds cfg db ck asin pos pc db' :
  record_progress cfg db ck asin pos pc = Some db' ->
  (forall date, pages_on db date <= pages_on db' date)
  /\ books db' = books db
  /\ settings db' = settings db
  /\ forall other, other ≠ asin -> last_progress db' other = last_progress db other.
Proof.
  intros H.
  destruct (record_progress_effect _ _ _ _ _ _ _ H) as (today & _ & Hb & Hs & Hr & Hp).
  split; [|split; [done|split; [done|]]].
  - intros date. rewrite Hp. case_bool_decide; [|lia].
    destruct (last_progress db asin); lia.
  - by apply (last_progress_snoc db db' asin pos (stored_percent pc) (ts_snapshot ck)).
Qed.

Lemma record_progress_only_adds_witness :
  exists db',
    record_progress sample_cfg sample_db (sample_clock 3) "B00TEST001" 75 None = Some db'
    /\ pages_on sample_db "2024-01-15" <= pages_on db' "2024-01-15"
    /\ books db' = books sample_db.
Proof.
  eexists. split; [reflexivity|].
  destruct (record_progress_only_adds sample_cfg sample_db (sample_clock 3)
              "B00TEST001" 75 None _ eq_refl) as (Hp & Hb & _).
  split; [apply Hp|exact Hb].
Defined.

(** X2.  Two snapshots of a book in a row: the second call counts the
    difference to the position of the first, whatever the ledger held
    before, provided the first snapshot is strictly newer than the earlier
    ones of the book.  A lower or equal position counts nothing. *)
Theorem consecutive_snapshots_count_the_difference
    cfg db ck1 ck2 asin p1 p2 pc1 pc2 db1 db2 today :
  record_progress cfg db ck1 asin p1 pc1 = Some db1 ->
  record_progress cfg db1 ck2 asin p2 pc2 = Some db2 ->
  (forall r, In r (reading_progress db) -> pr_asin r = asin ->
             recorded_at r < ts_snapshot ck1) ->
  get_today_key cfg db1 (now_key ck2) = Some today ->
  pages_on db2 today = pages_on db1 today + Z.max 0 (p2 - p1)
  /\ forall date, date ≠ today -> pages_on db2 date = pages_on db1 date.
Proof.
  intros H1 H2 Hnew Hkey.
  destruct (record_progress_effect _ _ _ _ _ _ _ H1) as (t1 & _ & _ & _ & Hr1 & _).
  destruct (record_progress_effect _ _ _ _ _ _ _ H2) as (t2 & Hk2 & _ & _ & _ & Hp2).
  assert (t2 = today) as -> by congruence.
  destruct (last_progress_snoc db db1 asin p1 (stored_percent pc1) (ts_snapshot ck1) Hr1)
    as [_ Hl].
  rewrite (Hl Hnew) in Hp2. cbn [position] in Hp2.
  split.
  - rewrite Hp2. by rewrite bool_decide_true.
  - intros date Hd. rewrite Hp2. rewrite bool_decide_false by done. lia.
Qed.

Lemma consecutive_snapshots_count_the_difference_witness :
  exists db1 db2,
    record_progress sample_cfg sample_db (sample_clock 3) "B00TEST001" 75 None = Some db1
    /\ record_progress sample_cfg db1 (sample_clock 4) "B00TEST001" 90 None = Some db2
    /\ pages_on db2 "2024-01-15" = pages_on db1 "2024-01-15" + 15.
Proof.
  eexists _, _. split; [reflexivity|]. split; [reflexivity|].
  refine (proj1 (consecutive_snapshots_count_the_difference sample_cfg sample_db
                   (sample_clock 3) (sample_clock 4) "B00TEST001" 75 90 None None
                   _ _ "2024-01-15" eq_refl eq_refl _ eq_refl)).
  intros r [<-|[]] _. vm_compute. reflexivity.
Defined.

(** X3.  After [reset_all_progress] the next snapshot of a book is a first
    one again and counts nothing.  After [reset_daily_stats] the snapshots
    are still there: the next snapshot of a book counts the whole difference
    to its latest position.  This for a call whose position, percentage
    and difference fit the 64-bit integers of SQLite; the row holds the
    percentage as the REAL column stores it. *)
Theorem resets_and_the_baseline cfg db ck asin pos pc today :
  get_today_key cfg db (now_key ck) = Some today ->
  is_Some (page_goal cfg db) ->
  is_Some (get_today_key cfg db (now_stats ck)) ->
  sqlite_int pos = true -> binds pc = true ->
  (forall prev,
     last_progress db asin = Some prev -> position prev < pos ->
     sqlite_int (pos - position prev) = true) ->
  (exists db',
     record_progress cfg (reset_all_progress db) ck asin pos pc = Some db'
     /\ reading_progress db'
        = [Build_Progress asin pos (stored_percent pc) (ts_snapshot ck)]
     /\ forall date, pages_on db' date = 0)
  /\ (exists db',
        record_progress cfg (reset_daily_stats db) ck asin pos pc = Some db'
        /\ forall date,
             pages_on db' date
             = if bool_decide (date = today) then
                 match last_progress db asin with
                 | Some prev => Z.max 0 (pos - position prev)
                 | None => 0
                 end
               else 0).
Proof.
  intros Hkey Hgoal Hkey2 Hpos Hpc Hfit. split.
  - exists (insert_progress (reset_all_progress db) (ts_snapshot ck) asin pos pc).
    split; [|by split].
    unfold record_progress.
    change (get_today_key cfg (reset_all_progress db) (now_key ck))
      with (get_today_key cfg db (now_key ck)).
    by rewrite Hkey, Hpos, Hpc.
  - destruct (record_progress_returns cfg (reset_daily_stats db) ck asin pos pc today)
      as [db' Hrun]; [exact Hkey|exact Hgoal|exact Hkey2|exact Hpos|exact Hpc| |].
    { intros prev Hl Hlt. rewrite (proj2 (reset_daily_stats_clears db today)).
      split; [by apply Hfit|]. rewrite Z.add_0_l. by apply Hfit. }
    exists db'. split; [done|].
    destruct (record_progress_effect _ _ _ _ _ _ _ Hrun) as (t & Hk & _ & _ & _ & Hp).
    change (get_today_key cfg (reset_daily_stats db) (now_key ck))
      with (get_today_key cfg db (now_key ck)) in Hk.
    assert (t = today) as -> by congruence.
    intros date. rewrite Hp. by rewrite (proj2 (reset_daily_stats_clears db date)).
Qed.

Lemma resets_and_the_baseline_witness :
  (exists db',
     record_progress sample_cfg (reset_all_progress sample_db) (sample_clock 3)
       "B00TEST001" 75 (Some (Py.PyInt 25)) = Some db'
     /\ reading_progress db'
        = [Build_Progress "B00TEST001" 75 (Some (Py.PyFloat (Py.float 25))) 3]
     /\ pages_on db' "2024-01-15" = 0)
  /\ (exists db',
        record_progress sample_cfg (reset_daily_stats sample_db) (sample_clock 3)
          "B00TEST001" 75 (Some (Py.PyInt 25)) = Some db'
        /\ pages_on db' "2024-01-15" = 25).
Proof.
  destruct (resets_and_the_baseline sample_cfg sample_db (sample_clock 3)
              "B00TEST001" 75 (Some (Py.PyInt 25)) "2024-01-15")
    as [(d1 & H1 & R1 & P1) (d2 & H2 & P2)].
  - reflexivity.
  - exists 30. reflexivity.
  - exists "2024-01-15". reflexivity.
  - reflexivity.
  - reflexivity.
  - intros prev [= <-] _. reflexivity.
  - split.
    + exists d1. split; [exact H1|]. split; [exact R1|apply P1].
    + exists d2. split; [exact H2|]. rewrite P2. reflexivity.
Defined.

End LedgerMore.

Section LibraryQueries.
Import Ledger Samples.

(** X4.  With a goal of at least one page, what [get_today_stats] reports is
    consistent whether or not the day has a row: [pages_remaining] is never
    negative, it is the part of the goal not yet read, and [goal_met] holds
    exactly when [pages_read] has reached the goal, which is exactly when
    nothing remains.  (With a goal of 0 and no row for the day the code
    reports [goal_met = False].) *)
Theorem today_stats_consistent cfg db now st :
  get_today_stats cfg db now = Some st ->
  0 < st_page_goal st ->
  get_today_key cfg db now = Some (st_date st)
  /\ page_goal cfg db = Some (st_page_goal st)
  /\ st_pages_read st = pages_on db (st_date st)
  /\ st_goal_met_at st = goal_met_on db (st_date st)
  /\ st_pages_remaining st = Z.max 0 (st_page_goal st - st_pages_read st)
  /\ (st_goal_met st = true <-> st_page_goal st <= st_pages_read st)
  /\ (st_goal_met st = true <-> st_pages_remaining st = 0).
Proof.
  unfold get_today_stats, pages_on, goal_met_on.
  destruct (get_today_key cfg db now) as [today|]; [|discriminate].
  destruct (page_goal cfg db) as [goal|]; [|discriminate].
  cbn [mbind option_bind].
  destruct (daily_stats db !! today) as [row|] eqn:E; intros [= <-]; cbn; intros Hgoal;
    rewrite E; cbn; repeat split; try done; lia.
Qed.

Lemma today_stats_consistent_witness :
  exists st,
    get_today_stats sample_cfg init_db sample_noon = Some st
    /\ st_pages_remaining st = Z.max 0 (st_page_goal st - st_pages_read st).
Proof.
  eexists. split; [reflexivity|].
  refine (proj1 (proj2 (proj2 (proj2 (proj2
            (today_stats_consistent sample_cfg init_db sample_noon _ eq_refl _)))))).
  vm_compute. reflexivity.
Defined.

(** *** [get_library] and [get_book] *)

#[local] Instance read_before_total : Total read_before.
Proof.
  intros a b. unfold read_before.
  destruct (last_read a), (last_read b); try tauto. lia.
Qed.

#[local] Instance read_before_trans : Transitive read_before.
Proof.
  intros a b c. unfold read_before.
  destruct (last_read a), (last_read b), (last_read c); try tauto. lia.
Qed.

Lemma get_library_Permutation db :
  get_library db ≡ₚ (λ '(asin, b), library_row db asin b) <$> map_to_list (books db).
Proof. apply merge_sort_Permutation. Qed.

Lemma elem_of_get_library db row :
  row ∈ get_library db
  <-> exists asin b, books db !! asin = Some b /\ row = library_row db asin b.
Proof.
  rewrite get_library_Permutation, list_elem_of_fmap. split.
  - intros ([asin b] & -> & Hin). exists asin, b.
    split; [by apply elem_of_map_to_list|done].
  - intros (asin & b & Hb & ->). exists (asin, b).
    split; [done|by apply elem_of_map_to_list].
Qed.

Lemma get_library_asins db :
  lr_asin <$> get_library db ≡ₚ (map_to_list (books db)).*1.
Proof.
  rewrite get_library_Permutation, <- list_fmap_compose.
  erewrite list_fmap_ext; [reflexivity|]. by intros i [asin b] _.
Qed.

Lemma get_library_sorted db : StronglySorted read_before (get_library db).
Proof. apply StronglySorted_merge_sort; apply _. Qed.

(** [get_book] looks through the sorted listing, and finds the join of
    the row of the book with its latest snapshot. *)
Lemma get_book_join db asin :
  get_book db asin = library_row db asin <$> books db !! asin.
Proof.
  unfold get_book.
  destruct (List.find _ _) as [row|] eqn:E.
  - apply List.find_some in E as [Hin Heq]. apply String.eqb_eq in Heq.
    apply list_elem_of_In, elem_of_get_library in Hin as (a & b & Hb & ->).
    simpl in Heq. subst a. by rewrite Hb.
  - destruct (books db !! asin) as [b|] eqn:Hb; [|done].
    exfalso.
    pose proof (List.find_none _ _ E (library_row db asin b)) as H.
    cbn in H. rewrite String.eqb_refl in H. 
    assert (false = true); [|done]. symmetry. apply H.
    apply list_elem_of_In, elem_of_get_library. by exists asin, b.
Qed.

(** X5.  [get_library] lists every book of [books] exactly once, each joined
    with its latest snapshot, and snapshots of an [asin] without a book are
    not listed.  The list is ordered: a book with a snapshot stands before
    every book without one, and of two books with snapshots the one read
    later, or at the same time, stands first. *)
Theorem get_library_lists_each_book_once db :
  NoDup (lr_asin <$> get_library db)
  /\ length (get_library db) = size (books db)
  /\ (forall row,
        row ∈ get_library db
        <-> exists b, books db !! lr_asin row = Some b
                      /\ row = library_row db (lr_asin row) b)
  /\ forall i j a b,
       (i < j)%nat -> get_library db !! i = Some a -> get_library db !! j = Some b ->
       match last_read a, last_read b with
       | Some x, Some y => y <= x
       | None, Some _ => False
       | _, None => True
       end.
Proof.
  split; [|split; [|split]].
  - rewrite get_library_asins. apply NoDup_fst_map_to_list.
  - rewrite get_library_Permutation, length_fmap. apply length_map_to_list.
  - intros row. rewrite elem_of_get_library. split.
    + intros (asin & b & Hb & ->). by exists b.
    + intros (b & Hb & Hrow). by exists (lr_asin row), b.
  - intros i j a b Hij Ha Hb.
    pose proof (get_library_sorted db) as Hs.
    apply list_elem_of_split_length in Ha as (l1 & l2 & E & Hi).
    rewrite E in Hs, Hb.
    apply StronglySorted_app_1_r in Hs. inversion Hs as [|? ? _ Hall]; subst.
    rewrite lookup_app_r in Hb by lia.
    destruct (j - length l1)%nat as [|k] eqn:Hk; [lia|]. simpl in Hb.
    rewrite Forall_forall in Hall.
    specialize (Hall b (list_elem_of_lookup_2 _ _ _ Hb)).
    unfold read_before in Hall.
    by destruct (last_read a), (last_read b).
Qed.

Lemma get_library_lists_each_book_once_witness :
  NoDup (lr_asin <$> get_library sample_db)
  /\ length (get_library sample_db) = 1%nat.
Proof.
  destruct (get_library_lists_each_book_once sample_db) as (H1 & H2 & _).
  split; [exact H1|]. rewrite H2. reflexivity.
Defined.

(** X6.  [GET /progress/{asin}] answers 404 exactly when [books] has no row
    for the [asin]; otherwise [get_book] returns the row of the book joined
    with its latest snapshot, with NULLs when it has none. *)
Theorem get_book_progress_answers db asin :
  Api.get_book_progress db asin
  = match books db !! asin with
    | Some b => Api.Returns (library_row db asin b)
    | None => Api.HTTPException 404 "Book not found"
    end.
Proof.
  unfold Api.get_book_progress. rewrite get_book_join.
  by destruct (books db !! asin).
Qed.

(** X7.  [upsert_book] then [get_book]: the entry shows the title and the
    authors just written, the page count and the cover merged with the
    stored ones, and the progress columns the book had; the entry of every
    other book is as before. *)
Theorem upsert_book_then_get_book db ts asin t a tp cu :
  let db' := upsert_book db ts asin t a tp cu in
  get_book db' asin
  = Some {| lr_asin := asin; lr_title := t; lr_authors := a;
            lr_total_pages :=
              match tp with Some n => Some n | None => books db !! asin ≫= total_pages end;
            lr_cover_url :=
              match cu with Some u => Some u | None => books db !! asin ≫= cover_url end;
            current_position := position <$> last_progress db asin;
            lr_percent_complete := last_progress db asin ≫= percent_complete;
            last_read := recorded_at <$> last_progress db asin |}
  /\ forall other, other ≠ asin -> get_book db' other = get_book db other.
Proof.
  intros db'. split.
  - rewrite get_book_join. unfold db', upsert_book. cbn [books].
    rewrite lookup_insert_eq. cbn.
    unfold library_row. cbn.
    destruct (books db !! asin) as [old|]; cbn; f_equal; f_equal; by destruct tp, cu.
  - intros other Hne. rewrite !get_book_join.
    unfold db'. rewrite upsert_book_other by done. done.
Qed.

(** X8.  A snapshot newer than every snapshot in the ledger puts its book at
    the head of [get_library], with the position and the time of that
    snapshot and with its percentage as the REAL column holds it: an
    integer as a float, NaN as NULL. *)
Theorem newest_snapshot_comes_first cfg db ck asin pos pc db' b :
  record_progress cfg db ck asin pos pc = Some db' ->
  books db !! asin = Some b ->
  (forall r, In r (reading_progress db) -> recorded_at r < ts_snapshot ck) ->
  hd_error (get_library db')
  = Some {| lr_asin := asin; lr_title := title b; lr_authors := authors b;
            lr_total_pages := total_pages b; lr_cover_url := cover_url b;
            current_position := Some pos;
            lr_percent_complete := stored_percent pc;
            last_read := Some (ts_snapshot ck) |}.
Proof.
  intros Hrun Hb Hnew.
  destruct (record_progress_effect _ _ _ _ _ _ _ Hrun) as (today & _ & Hbooks & _ & Hr & _).
  destruct (last_progress_snoc db db' asin pos (stored_percent pc) (ts_snapshot ck) Hr)
    as [Hother Hlast].
  specialize (Hlast (λ r Hin _, Hnew r Hin)).
  set (row := {| lr_asin := asin; lr_title := title b; lr_authors := authors b;
                 lr_total_pages := total_pages b; lr_cover_url := cover_url b;
                 current_position := Some pos;
                 lr_percent_complete := stored_percent pc;
                 last_read := Some (ts_snapshot ck) |}).
  assert (library_row db' asin b = row) as Hrow.
  { unfold library_row. by rewrite Hlast. }
  assert (row ∈ get_library db') as Hin.
  { apply elem_of_get_library. exists asin, b. by rewrite Hbooks. }
  pose proof (get_library_sorted db') as Hs.
  assert (forall h, h ∈ get_library db' -> read_before h row -> h = row) as Hlt.
  { intros h Hh. apply elem_of_get_library in Hh as (a' & b' & Hb' & ->).
    rewrite Hbooks in Hb'.
    destruct (decide (a' = asin)) as [->|Ha].
    { rewrite Hb in Hb'. injection Hb' as <-. by rewrite Hrow. }
    unfold read_before, library_row. cbn. rewrite (Hother a' Ha).
    destruct (last_progress db a') as [r|] eqn:E; cbn; [|tauto].
    apply last_progress_spec in E as (Hr_in & _). specialize (Hnew r Hr_in). lia. }
  destruct (get_library db') as [|h rest]; [by apply elem_of_nil in Hin|].
  cbn. f_equal.
  apply elem_of_cons in Hin as [Heq|Hin]; [done|].
  apply Hlt; [left|].
  inversion Hs as [|? ? _ Hall]; subst. rewrite Forall_forall in Hall.
  by apply Hall.
Qed.

Lemma newest_snapshot_comes_first_witness :
  exists row,
    hd_error (get_library
                (default sample_db
                   (record_progress sample_cfg sample_db (sample_clock 3)
                      "B00TEST001" 75 (Some (Py.PyInt 25))))) = Some row
    /\ current_position row = Some 75
    /\ lr_percent_complete row = Some (Py.PyFloat (Py.float 25)).
Proof.
  eexists. split.
  - refine (newest_snapshot_comes_first sample_cfg sample_db (sample_clock 3)
              "B00TEST001" 75 (Some (Py.PyInt 25)) _ _ eq_refl eq_refl _).
    intros r [<-|[]]. vm_compute. reflexivity.
  - split; reflexivity.
Defined.

End LibraryQueries.

(** ** The settings endpoints *)

Section SettingsEndpoints.
Import Ledger Samples.

Lemma int_or_str n default : Py.int_or (Some (Py.str n)) default = Some n.
Proof.
  unfold Py.int_or. pose proof (str_nonempty n) as Hn. pose proof (int_str n) as Hi.
  by destruct (Py.str n).
Qed.

Lemma page_goal_stored cfg db goal :
  page_goal cfg (set_setting db "daily_page_goal" (Py.str goal)) = Some goal
  /\ reset_hour cfg (set_setting db "daily_page_goal" (Py.str goal)) = reset_hour cfg db.
Proof.
  unfold page_goal, reset_hour, get_setting, set_setting. cbn [settings]. split.
  - rewrite lookup_insert_eq. apply int_or_str.
  - by rewrite lookup_insert_ne.
Qed.

Lemma reset_hour_stored cfg db h :
  reset_hour cfg (set_setting db "day_reset_hour" (Py.str h)) = Some h
  /\ page_goal cfg (set_setting db "day_reset_hour" (Py.str h)) = page_goal cfg db.
Proof.
  unfold page_goal, reset_hour, get_setting, set_setting. cbn [settings]. split.
  - rewrite lookup_insert_eq. apply int_or_str.
  - by rewrite lookup_insert_ne.
Qed.

Lemma in_range_test lo hi x :
  (x <? lo) || (hi <? x) = false <-> lo <= x <= hi.
Proof. rewrite orb_false_iff, !Z.ltb_ge. lia. Qed.

Lemma get_app_settings_reads cfg db goal h :
  page_goal (Api.defaults cfg) db = Some goal ->
  reset_hour (Api.defaults cfg) db = Some h ->
  Api.get_app_settings cfg db
  = Api.Returns {| Api.daily_page_goal := goal; Api.day_reset_hour := h |}.
Proof. intros Hg Hh. unfold Api.get_app_settings. by rewrite Hg, Hh. Qed.

(** X9.  An update whose fields are in range is stored and read back: the
    response carries exactly the requested values, through [str] and [int],
    and for a field the update leaves out the value in force before.  The
    other tables are not touched. *)
Theorem update_app_settings_round_trip cfg db update goal0 hour0 :
  page_goal (Api.defaults cfg) db = Some goal0 ->
  reset_hour (Api.defaults cfg) db = Some hour0 ->
  (forall goal, Api.upd_daily_page_goal update = Some goal -> 1 <= goal <= 1000) ->
  (forall h, Api.upd_day_reset_hour update = Some h -> 0 <= h <= 23) ->
  let r := {| Api.daily_page_goal := default goal0 (Api.upd_daily_page_goal update);
              Api.day_reset_hour := default hour0 (Api.upd_day_reset_hour update) |} in
  exists db',
    Api.update_app_settings cfg db update = (Api.Returns r, db')
    /\ Api.get_app_settings cfg db' = Api.Returns r
    /\ books db' = books db
    /\ reading_progress db' = reading_progress db
    /\ daily_stats db' = daily_stats db.
Proof.
  intros Hg Hh Hgr Hhr r. subst r.
  unfold Api.update_app_settings.
  destruct (Api.upd_daily_page_goal update) as [goal|];
    destruct (Api.upd_day_reset_hour update) as [h|]; cbn [default].
  - rewrite (proj2 (in_range_test 1 1000 goal) (Hgr goal eq_refl)).
    rewrite (proj2 (in_range_test 0 23 h) (Hhr h eq_refl)).
    destruct (reset_hour_stored (Api.defaults cfg)
                (set_setting db "daily_page_goal" (Py.str goal)) h) as [H1 H2].
    destruct (page_goal_stored (Api.defaults cfg) db goal) as [H3 _].
    rewrite (get_app_settings_reads cfg _ goal h) by congruence.
    eexists. split; [reflexivity|].
    by rewrite (get_app_settings_reads cfg _ goal h) by congruence.
  - rewrite (proj2 (in_range_test 1 1000 goal) (Hgr goal eq_refl)).
    destruct (page_goal_stored (Api.defaults cfg) db goal) as [H1 H2].
    rewrite (get_app_settings_reads cfg _ goal hour0) by congruence.
    eexists. split; [reflexivity|].
    by rewrite (get_app_settings_reads cfg _ goal hour0) by congruence.
  - rewrite (proj2 (in_range_test 0 23 h) (Hhr h eq_refl)).
    destruct (reset_hour_stored (Api.defaults cfg) db h) as [H1 H2].
    rewrite (get_app_settings_reads cfg _ goal0 h) by congruence.
    eexists. split; [reflexivity|].
    by rewrite (get_app_settings_reads cfg _ goal0 h) by congruence.
  - rewrite (get_app_settings_reads cfg _ goal0 hour0) by congruence.
    eexists. split; [reflexivity|].
    by rewrite (get_app_settings_reads cfg _ goal0 hour0) by congruence.
Qed.

Lemma update_app_settings_round_trip_witness :
  exists db',
    Api.update_app_settings sample_api init_db
      {| Api.upd_daily_page_goal := Some 50; Api.upd_day_reset_hour := None |}
    = (Api.Returns {| Api.daily_page_goal := 50; Api.day_reset_hour := 4 |}, db').
Proof.
  destruct (update_app_settings_round_trip sample_api init_db
              {| Api.upd_daily_page_goal := Some 50; Api.upd_day_reset_hour := None |}
              30 4)
    as (db' & H & _).
  - reflexivity.
  - reflexivity.
  - intros goal [= <-]. lia.
  - intros h [=].
  - exists db'. exact H.
Defined.

(** X10.  The requests [PUT /settings] turns down.  With a secret key
    other than the default one configured, a wrong or missing key is
    answered 401 and stores nothing; with the default key left in the
    configuration no key is checked and every request goes on to the
    update.  A goal outside 1..1000 is answered 400 and stores nothing, not
    even a valid reset hour sent with it.  A reset hour outside 0..23 is
    answered 400 as well, but a valid goal sent with it has been stored by
    then and stays. *)
Theorem put_settings_rejections cfg db update :
  (forall x_api_key,
     Api.api_secret_key cfg ≠ "change-me-in-production" ->
     x_api_key ≠ Some (Api.api_secret_key cfg) ->
     Api.put_settings cfg x_api_key db update
     = (Api.HTTPException 401 "Invalid API key", db))
  /\ (forall x_api_key,
        Api.api_secret_key cfg = "change-me-in-production" ->
        Api.put_settings cfg x_api_key db update
        = Api.update_app_settings cfg db update)
  /\ (forall goal,
        Api.upd_daily_page_goal update = Some goal -> ~ 1 <= goal <= 1000 ->
        Api.update_app_settings cfg db update
        = (Api.HTTPException 400 "daily_page_goal must be between 1 and 1000", db))
  /\ (forall goal h,
        Api.upd_daily_page_goal update = Some goal -> 1 <= goal <= 1000 ->
        Api.upd_day_reset_hour update = Some h -> ~ 0 <= h <= 23 ->
        exists db',
          Api.update_app_settings cfg db update
          = (Api.HTTPException 400 "day_reset_hour must be between 0 and 23", db')
          /\ page_goal (Api.defaults cfg) db' = Some goal
          /\ reset_hour (Api.defaults cfg) db' = reset_hour (Api.defaults cfg) db).
Proof.
  split; [|split; [|split]].
  - intros key Hdefault Hkey. unfold Api.put_settings, Api.verify_api_key.
    rewrite (proj2 (String.eqb_neq _ _) Hdefault).
    by rewrite bool_decide_false.
  - intros key Hdefault. unfold Api.put_settings, Api.verify_api_key.
    by rewrite Hdefault.
  - intros goal Hgoal Hout. unfold Api.update_app_settings. rewrite Hgoal.
    destruct ((goal <? 1) || (1000 <? goal)) eqn:E; [done|].
    by apply in_range_test in E.
  - intros goal h Hgoal Hin Hh Hout. unfold Api.update_app_settings.
    rewrite Hgoal, Hh, (proj2 (in_range_test 1 1000 goal) Hin).
    destruct ((h <? 0) || (23 <? h)) eqn:E; [|by apply in_range_test in E].
    eexists. split; [reflexivity|]. apply page_goal_stored.
Qed.

Lemma put_settings_rejections_witness :
  Api.put_settings sample_api (Some "wrong") init_db
    {| Api.upd_daily_page_goal := Some 50; Api.upd_day_reset_hour := Some 25 |}
  = (Api.HTTPException 401 "Invalid API key", init_db)
  /\ Api.put_settings sample_api None init_db
       {| Api.upd_daily_page_goal := Some 50; Api.upd_day_reset_hour := Some 25 |}
     = (Api.HTTPException 401 "Invalid API key", init_db)
  /\ (exists db',
       Api.update_app_settings sample_api init_db
         {| Api.upd_daily_page_goal := Some 50; Api.upd_day_reset_hour := Some 25 |}
       = (Api.HTTPException 400 "day_reset_hour must be between 0 and 23", db')
       /\ page_goal sample_cfg db' = Some 50)
  /\ Api.put_settings
       {| Api.api_secret_key := "change-me-in-production"; Api.defaults := sample_cfg |}
       None init_db
       {| Api.upd_daily_page_goal := Some 50; Api.upd_day_reset_hour := None |}
     = Api.update_app_settings
         {| Api.api_secret_key := "change-me-in-production"; Api.defaults := sample_cfg |}
         init_db
         {| Api.upd_daily_page_goal := Some 50; Api.upd_day_reset_hour := None |}.
Proof.
  destruct (put_settings_rejections sample_api init_db
              {| Api.upd_daily_page_goal := Some 50; Api.upd_day_reset_hour := Some 25 |})
    as (H401 & _ & _ & H400).
  split; [|split; [|split]].
  - apply H401; discriminate.
  - apply H401; discriminate.
  - destruct (H400 50 25 eq_refl) as (db' & H & Hg & _).
    + lia.
    + reflexivity.
    + lia.
    + exists db'. split; [exact H|exact Hg].
  - apply (put_settings_rejections
             {| Api.api_secret_key := "change-me-in-production";
                Api.defaults := sample_cfg |}).
    reflexivity.
Defined.

(** X11.  No request to [PUT /settings], accepted or not, takes the stored
    goal out of 1..1000 or the stored reset hour out of 0..23: the goal that
    the statistics of the day compare with is never below 1. *)
Theorem put_settings_keeps_range cfg x_api_key db update :
  Spec.settings_in_range (Api.defaults cfg) db ->
  Spec.settings_in_range (Api.defaults cfg)
    (snd (Api.put_settings cfg x_api_key db update)).
Proof.
  intros Hr. unfold Api.put_settings.
  destruct (Api.verify_api_key cfg x_api_key); [|done..].
  unfold Api.update_app_settings.
  assert (forall d goal, (goal <? 1) || (1000 <? goal) = false ->
            Spec.settings_in_range (Api.defaults cfg) d ->
            Spec.settings_in_range (Api.defaults cfg)
              (set_setting d "daily_page_goal" (Py.str goal))) as Hgoal.
  { intros d goal E%in_range_test [_ (h & Hh & Hhr)].
    destruct (page_goal_stored (Api.defaults cfg) d goal) as [Hg Hh'].
    split; [by exists goal|]. exists h. by rewrite Hh'. }
  assert (forall d h, (h <? 0) || (23 <? h) = false ->
            Spec.settings_in_range (Api.defaults cfg) d ->
            Spec.settings_in_range (Api.defaults cfg)
              (set_setting d "day_reset_hour" (Py.str h))) as Hhour.
  { intros d h E%in_range_test [(g & Hg & Hgr) _].
    destruct (reset_hour_stored (Api.defaults cfg) d h) as [Hh Hg'].
    split; [|by exists h]. exists g. by rewrite Hg'. }
  destruct (Api.upd_daily_page_goal update) as [goal|].
  - destruct ((goal <? 1) || (1000 <? goal)) eqn:E; [done|].
    destruct (Api.upd_day_reset_hour update) as [h|]; [|by apply Hgoal].
    destruct ((h <? 0) || (23 <? h)) eqn:E'; [by apply Hgoal|].
    cbn [snd]. by apply Hhour, Hgoal.
  - destruct (Api.upd_day_reset_hour update) as [h|]; [|done].
    destruct ((h <? 0) || (23 <? h)) eqn:E'; [done|].
    cbn [snd]. by apply Hhour.
Qed.

Lemma put_settings_keeps_range_witness :
  Spec.settings_in_range sample_cfg
    (snd (Api.put_settings sample_api (Some "s3cret") init_db
            {| Api.upd_daily_page_goal := Some 50; Api.upd_day_reset_hour := Some 25 |})).
Proof.
  apply (put_settings_keeps_range sample_api (Some "s3cret") init_db).
  split; [exists 30|exists 4]; (split; [reflexivity|lia]).
Defined.

End SettingsEndpoints.

(** ** What a pass does to the page and to the ledger *)

Section Steps.
Import Scraper Spec.
Context {W : Type} (env : Env W).
Context (R : relation (State W)) `{!PreOrder R}.

Lemma steps_ret {A} (a : A) : steps R (mret a : M W A).
Proof. intros st. simpl. reflexivity. Qed.

Lemma steps_raise {A} msg : steps R (@raise W A msg).
Proof. intros st. simpl. reflexivity. Qed.

Lemma steps_observe {A} (g : W -> A) : steps R (observe g).
Proof. intros st. simpl. reflexivity. Qed.

Lemma steps_bind {A B} (m : M W A) (k : A -> M W B) :
  steps R m -> (forall a, steps R (k a)) -> steps R (m ≫= k).
Proof.
  intros Hm Hk st. rewrite bind_run. specialize (Hm st).
  destruct (m st) as [[a|msg] st']; simpl in *; [|done].
  etransitivity; [exact Hm|apply Hk].
Qed.

Lemma steps_try {A} (m : M W A) (h : string -> M W A) :
  steps R m -> (forall msg, steps R (h msg)) -> steps R (try_except m h).
Proof.
  intros Hm Hh st. unfold try_except. specialize (Hm st).
  destruct (m st) as [[a|msg] st']; simpl in *; [done|].
  etransitivity; [exact Hm|apply Hh].
Qed.

Lemma steps_guard {A} (m : M W A) (r : result A) :
  steps R m -> steps R (λ st, if has_page st then m st else (r, st)).
Proof. intros Hm st. simpl. destruct (has_page st); [apply Hm|reflexivity]. Qed.

Context (Hworld : forall st w, R st (with_world st w)).

Lemma steps_call {A} (c : W -> result A * W) : steps R (call c).
Proof. intros st. unfold call. destruct (c (world st)) as [r w]. apply Hworld. Qed.

Lemma steps_now : steps R (now_isoformat env).
Proof. intros st. apply Hworld. Qed.

End Steps.

Section Actions.
Import Scraper Spec.
Context {W : Type} (env : Env W) (settings : Settings).
Context (P : Action -> Prop).

#[global] Instance acts_preorder : PreOrder (@acts W P).
Proof.
  split.
  - intros st. exists []. by rewrite app_nil_r.
  - intros st1 st2 st3 (l1 & E1 & H1) (l2 & E2 & H2). exists (l1 ++ l2).
    split; [by rewrite E2, E1, app_assoc|by apply Forall_app].
Qed.

Lemma acts_same (st st' : State W) : actions st' = actions st -> acts P st st'.
Proof. intros E. exists []. by rewrite app_nil_r. Qed.

Lemma acts_world (st : State W) w : acts P st (with_world st w).
Proof. by apply acts_same. Qed.

Lemma acts_act a (c : W -> result unit * W) : P a -> steps (acts P) (act a c).
Proof.
  intros Ha st. unfold act. destruct (c (world st)) as [r w]. simpl.
  exists [a]. split; [done|by apply Forall_singleton].
Qed.

Lemma acts_preserved {A} (m : M W A) :
  preserves (@actions W) m -> steps (acts P) m.
Proof. intros H st. apply acts_same, H. Qed.

End Actions.

Create HintDb walk.

#[local] Hint Resolve steps_ret steps_raise steps_observe steps_call steps_now
  acts_preorder acts_world : walk.

(** Decomposes a goal [steps R m] along the structure of [m]. *)
Ltac walk :=
  repeat first
    [ progress intros
    | solve [eauto with walk]
    | apply steps_guard
    | apply steps_bind
    | apply steps_try
    | match goal with
      | |- Spec.steps _ (if ?c then _ else _) => destruct c eqn:?
      | |- Spec.steps _ (match ?x with _ => _ end) => destruct x
      end ].

Section PermittedActions.
Import Scraper Spec.
Context {W : Type} (env : Env W) (settings : Settings).

Lemma ok_goto_library : steps (acts (permitted settings)) (goto env LIBRARY_URL).
Proof. apply acts_act. by right. Qed.

Lemma ok_click_nth l i : steps (acts (permitted settings)) (click_nth env l i).
Proof. by apply acts_act. Qed.

Lemma ok_click selector : steps (acts (permitted settings)) (act (Click selector) (page_click env selector)).
Proof. by apply acts_act. Qed.

Lemma ok_click_password_signin indices : steps (acts (permitted settings)) (click_password_signin env indices).
Proof.
  pose proof ok_click_nth.
  induction indices as [|i rest IH]; simpl; unfold count; walk.
Qed.

Lemma ok_attempt : steps (acts (permitted settings)) (attempt env settings).
Proof.
  pose proof ok_click_nth. pose proof ok_click. pose proof ok_goto_library.
  pose proof ok_click_password_signin.
  unfold attempt, auth_page_steps, email_step, password_step, submit_step, count.
  walk.
  - apply acts_act. simpl. auto.
  - apply acts_act. simpl. auto.
Qed.

Lemma ok_login_loop attempts : steps (acts (permitted settings)) (login_loop env settings attempts).
Proof.
  pose proof ok_attempt. induction attempts as [|n IH]; simpl; walk.
Qed.

Lemma ok_is_logged_in : steps (acts (permitted settings)) (is_logged_in env settings).
Proof.
  pose proof ok_login_loop. pose proof ok_goto_library.
  unfold is_logged_in. walk.
Qed.

Lemma ok_login :
  Py.nonempty (amazon_email settings) = true ->
  Py.nonempty (amazon_password settings) = true ->
  steps (acts (permitted settings)) (login env (amazon_email settings) (amazon_password settings)).
Proof.
  intros He Hp. pose proof ok_click_nth. pose proof ok_click.
  unfold login, count. walk.
  - apply acts_act. by left.
  - apply acts_act. simpl. auto.
  - apply acts_act. simpl. auto.
Qed.

Lemma ok_ensure_login : steps (acts (permitted settings)) (ensure_login env settings).
Proof.
  unfold ensure_login. apply steps_bind; [apply _|apply ok_is_logged_in|].
  intros []; [walk| |walk].
  destruct (Py.nonempty (amazon_email settings)
            && Py.nonempty (amazon_password settings)) eqn:E; [|walk].
  apply andb_prop in E as [He Hp].
  apply steps_bind; [apply _|by apply ok_login|walk].
Qed.

Lemma ok_get_book_progress_from_reader asin :
  steps (acts (permitted settings)) (get_book_progress_from_reader env asin).
Proof.
  pose proof ok_click_nth. pose proof ok_goto_library.
  unfold get_book_progress_from_reader, open_and_read, dismiss_license_dialog,
    reveal_reader_ui, count.
  walk. by apply acts_act.
Qed.

Lemma ok_get_library_and_progress : steps (acts (permitted settings)) (get_library_and_progress env).
Proof.
  pose proof ok_goto_library. unfold get_library_and_progress. walk.
Qed.

Lemma ok_plain_get_library_and_progress : steps (acts (permitted settings)) (plain_get_library_and_progress env).
Proof.
  pose proof ok_goto_library. unfold plain_get_library_and_progress. walk.
Qed.

Lemma ok_upsert_book book total_pages : steps (acts (permitted settings)) (upsert_book env book total_pages).
Proof.
  intros st. apply acts_same. unfold upsert_book.
  destruct total_pages as [t|]; [|done].
  destruct (Js.to_python (Js.of_Z t)) as [z|f]; [|done].
  by destruct (Ledger.sqlite_int z).
Qed.

Lemma ok_record_progress asin pos pc : steps (acts (permitted settings)) (record_progress env settings asin pos pc).
Proof.
  intros st. apply acts_same. unfold record_progress.
  destruct (Js.to_python (Js.of_Z pos)) as [z|f]; [|done].
  by destruct (Ledger.record_progress _ _ _ _ _ _).
Qed.

Lemma ok_yield event : steps (acts (permitted settings)) (yield event : M W unit).
Proof. intros st. by apply acts_same. Qed.

Lemma ok_save_progress book info current_page :
  steps (acts (permitted settings)) (save_progress env settings book info current_page).
Proof.
  pose proof ok_upsert_book. pose proof ok_record_progress.
  unfold save_progress. walk.
Qed.

Lemma ok_process_books books : forall n lic, steps (acts (permitted settings)) (process_books env settings books n lic).
Proof.
  pose proof ok_upsert_book. pose proof ok_save_progress.
  pose proof ok_get_book_progress_from_reader.
  induction books as [|book rest IH]; intros n lic; cbn [process_books]; walk.
Qed.

Lemma ok_stream_books books : forall idx total n lic,
  steps (acts (permitted settings)) (stream_books env settings books idx total n lic).
Proof.
  pose proof ok_upsert_book. pose proof ok_save_progress. pose proof ok_yield.
  pose proof ok_get_book_progress_from_reader.
  induction books as [|book rest IH]; intros idx total n lic; cbn [stream_books]; walk.
Qed.

Lemma ok_plain_save_books books : steps (acts (permitted settings)) (plain_save_books env settings books).
Proof.
  pose proof ok_upsert_book. pose proof ok_record_progress.
  induction books as [|book rest IH]; cbn [plain_save_books]; walk.
Qed.

(** X12.  Whatever the pages show, a pass acts on the browser only in the
    permitted ways.  It navigates to no address but the reader and the
    library.  What it types is the configured e-mail address, into the
    e-mail field, or the configured password, into the password field, and
    never an empty text: without configured credentials nothing is typed at
    all.  This holds for the batch pass, the streaming pass and the
    library-only pass, however they end. *)
Theorem passes_take_permitted_actions (st : State W) :
  acts (permitted settings) st (snd (scrape_and_save env settings st))
  /\ acts (permitted settings) st (stream_run env settings st)
  /\ acts (permitted settings) st (snd (plain_scrape_and_save env settings st)).
Proof.
  pose proof ok_ensure_login. pose proof ok_get_library_and_progress.
  pose proof ok_process_books. pose proof ok_stream_books. pose proof ok_yield.
  pose proof ok_plain_get_library_and_progress. pose proof ok_plain_save_books.
  split; [|split].
  - assert (steps (acts (permitted settings)) (scrape_body env settings)) as Hbody by (unfold scrape_body; walk).
    unfold scrape_and_save. specialize (Hbody st).
    destruct (scrape_body env settings st) as [[r|e] st']; [done|].
    simpl in *. etransitivity; [exact Hbody|apply acts_world].
  - assert (forall t, steps (acts (permitted settings)) (stream_body env settings t)) as Hbody
      by (intros t; unfold stream_body, stream_library; walk).
    unfold stream_run. specialize (Hbody (time_time env (world st)) st).
    destruct (stream_body env settings _ st) as [[r|e] st']; [done|].
    simpl in *. etransitivity; [exact Hbody|by apply acts_same].
  - assert (steps (acts (permitted settings)) (plain_scrape_body env settings)) as Hbody
      by (unfold plain_scrape_body; walk).
    unfold plain_scrape_and_save. specialize (Hbody st).
    destruct (plain_scrape_body env settings st) as [[r|e] st']; [done|].
    simpl in *. etransitivity; [exact Hbody|apply acts_world].
Qed.

End PermittedActions.

Section LedgerKept.
Import Scraper Spec.
Context {W : Type} (env : Env W) (settings : Settings).

#[global] Instance ledger_grows_preorder : PreOrder ledger_grows.
Proof.
  split.
  - intros d. split; [done|]. split; [exists []; by rewrite app_nil_r|]. by split.
  - intros d1 d2 d3 (Hs1 & (m1 & Hr1) & Hb1 & Hp1) (Hs2 & (m2 & Hr2) & Hb2 & Hp2).
    split; [congruence|]. split; [|split].
    + exists (m1 ++ m2). by rewrite Hr2, Hr1, app_assoc.
    + intros asin H. by apply Hb2, Hb1.
    + intros date. etransitivity; [apply Hp1|apply Hp2].
Qed.

#[global] Instance keeps_ledger_preorder : PreOrder (@keeps_ledger W).
Proof.
  split.
  - intros st. unfold keeps_ledger. reflexivity.
  - intros st1 st2 st3 H1 H2. unfold keeps_ledger in *. by etransitivity.
Qed.

Lemma keeps_same (st st' : State W) : db st' = db st -> keeps_ledger st st'.
Proof. unfold keeps_ledger. intros ->. reflexivity. Qed.

Lemma keeps_world (st : State W) w : keeps_ledger st (with_world st w).
Proof. by apply keeps_same. Qed.

#[local] Hint Resolve keeps_ledger_preorder keeps_world : walk.

Lemma keeps_preserved {A} (m : M W A) :
  preserves (@db W) m -> steps keeps_ledger m.
Proof. intros H st. apply keeps_same, H. Qed.

Lemma upsert_book_grows d ts asin t a tp cu :
  ledger_grows d (Ledger.upsert_book d ts asin t a tp cu).
Proof.
  split; [done|]. split; [exists []; by rewrite app_nil_r|]. split; [|done].
  intros other H. unfold Ledger.upsert_book. cbn [Ledger.books].
  destruct (decide (other = asin)) as [->|Hne].
  - rewrite lookup_insert_eq. by eexists.
  - by rewrite lookup_insert_ne.
Qed.

Lemma record_progress_grows cfg d ck asin pos pc d' :
  Ledger.record_progress cfg d ck asin pos pc = Some d' -> ledger_grows d d'.
Proof.
  intros H.
  destruct (record_progress_effect _ _ _ _ _ _ _ H) as (today & _ & Hb & Hs & Hr & Hp).
  split; [done|]. split; [by eexists|]. split; [by rewrite Hb|].
  intros date. rewrite Hp. case_bool_decide; [|lia].
  destruct (Ledger.last_progress d asin); lia.
Qed.

Lemma keeps_upsert_book book total_pages :
  steps keeps_ledger (upsert_book env book total_pages).
Proof.
  intros st. unfold upsert_book. destruct total_pages as [t|].
  - destruct (Js.to_python (Js.of_Z t)) as [z|f]; [|by apply keeps_same].
    destruct (Ledger.sqlite_int z); [apply upsert_book_grows|by apply keeps_same].
  - apply upsert_book_grows.
Qed.

Lemma keeps_record_progress asin pos pc :
  steps keeps_ledger (record_progress env settings asin pos pc).
Proof.
  intros st. unfold record_progress.
  destruct (Js.to_python (Js.of_Z pos)) as [z|f]; [|by apply keeps_same].
  destruct (Ledger.record_progress _ _ _ _ _ _) as [d|] eqn:E.
  - by apply record_progress_grows in E.
  - by apply keeps_same.
Qed.

Lemma keeps_yield event : steps keeps_ledger (yield event : M W unit).
Proof. intros st. by apply keeps_same. Qed.

Lemma keeps_save_progress book info current_page :
  steps keeps_ledger (save_progress env settings book info current_page).
Proof.
  pose proof keeps_upsert_book. pose proof keeps_record_progress.
  unfold save_progress. walk.
Qed.

Lemma keeps_reader asin : steps keeps_ledger (get_book_progress_from_reader env asin).
Proof.
  apply keeps_preserved, preserves_get_book_progress_from_reader, quiet_db.
Qed.

Lemma keeps_process_books books : forall n lic,
  steps keeps_ledger (process_books env settings books n lic).
Proof.
  pose proof keeps_upsert_book. pose proof keeps_save_progress. pose proof keeps_reader.
  induction books as [|book rest IH]; intros n lic; cbn [process_books]; walk.
Qed.

Lemma keeps_stream_books books : forall idx total n lic,
  steps keeps_ledger (stream_books env settings books idx total n lic).
Proof.
  pose proof keeps_upsert_book. pose proof keeps_save_progress. pose proof keeps_reader.
  pose proof keeps_yield.
  induction books as [|book rest IH]; intros idx total n lic; cbn [stream_books]; walk.
Qed.

Lemma keeps_plain_save_books books :
  steps keeps_ledger (plain_save_books env settings books).
Proof.
  pose proof keeps_upsert_book. pose proof keeps_record_progress.
  induction books as [|book rest IH]; cbn [plain_save_books]; walk.
Qed.

(** X13.  A pass only adds to the ledger, however it ends: the settings are
    left as they are, every snapshot that was there is still there, in the
    same order and before the new ones, no book is removed, and the count of
    pages of no date goes down.  This holds for the batch pass, the
    streaming pass and the library-only pass. *)
Theorem passes_only_add_to_the_ledger (st : State W) :
  ledger_grows (db st) (db (snd (scrape_and_save env settings st)))
  /\ ledger_grows (db st) (db (stream_run env settings st))
  /\ ledger_grows (db st) (db (snd (plain_scrape_and_save env settings st))).
Proof.
  assert (steps keeps_ledger (ensure_login env settings)) as Hlogin
    by apply keeps_preserved, preserves_ensure_login, quiet_db.
  assert (steps keeps_ledger (get_library_and_progress env)) as Hlib
    by apply keeps_preserved, preserves_get_library_and_progress, quiet_db.
  assert (steps keeps_ledger (plain_get_library_and_progress env)) as Hplain
    by apply keeps_preserved, preserves_plain_get_library_and_progress, quiet_db.
  pose proof keeps_process_books. pose proof keeps_stream_books.
  pose proof keeps_yield. pose proof keeps_plain_save_books.
  split; [|split].
  - assert (steps keeps_ledger (scrape_body env settings)) as Hbody
      by (unfold scrape_body; walk).
    unfold scrape_and_save. specialize (Hbody st).
    destruct (scrape_body env settings st) as [[r|e] st']; exact Hbody.
  - assert (forall t, steps keeps_ledger (stream_body env settings t)) as Hbody
      by (intros t; unfold stream_body, stream_library; walk).
    unfold stream_run. specialize (Hbody (time_time env (world st)) st).
    destruct (stream_body env settings _ st) as [[r|e] st']; exact Hbody.
  - assert (steps keeps_ledger (plain_scrape_body env settings)) as Hbody
      by (unfold plain_scrape_body; walk).
    unfold plain_scrape_and_save. specialize (Hbody st).
    destruct (plain_scrape_body env settings st) as [[r|e] st']; exact Hbody.
Qed.

End LedgerKept.

(** ** The verdict of the session navigator *)

Section Verdicts.
Import Scraper Spec.
Context {W : Type} (env : Env W) (settings : Settings).

Lemma never_raises_observe {A} (g : W -> A) : never_raises (observe g : M W A).
Proof. intros st. by eexists. Qed.

Lemma returns_ret {A} (Q : A -> Prop) (a : A) : Q a -> returns Q (mret a : M W A).
Proof. intros Ha st a' st' [= <- _]. done. Qed.

Lemma returns_bind {A B} (Q1 : A -> Prop) (Q : B -> Prop) (m : M W A) (k : A -> M W B) :
  returns Q1 m -> (forall a, Q1 a -> returns Q (k a)) -> returns Q (m ≫= k).
Proof.
  intros Hm Hk st b st'. rewrite bind_run.
  destruct (m st) as [[a|msg] st1] eqn:E; [|discriminate].
  apply Hk. by apply (Hm st a st1).
Qed.

Lemma returns_any {A} (m : M W A) : returns (λ _, True) m.
Proof. by intros st a st' _. Qed.

Lemma returns_try {A} (Q : A -> Prop) (m : M W A) (h : string -> M W A) :
  returns Q m -> (forall msg, returns Q (h msg)) -> returns Q (try_except m h).
Proof.
  intros Hm Hh st a st'. unfold try_except.
  destruct (m st) as [[a'|msg] st1] eqn:E.
  - intros [= <- <-]. by apply (Hm st a' st1).
  - apply Hh.
Qed.

Lemma email_step_returns : returns retry_or_false (email_step env settings).
Proof.
  unfold email_step.
  apply (returns_bind (λ _, True)); [apply returns_any|intros n _].
  destruct (0 <? n)%nat; [|by apply returns_ret; left].
  apply (returns_bind (λ _, True)); [apply returns_any|intros v _].
  destruct (Py.nonempty v); [by apply returns_ret; left|].
  destruct (Py.nonempty (amazon_email settings)); [|by apply returns_ret; right].
  apply (returns_bind (λ _, True)); [apply returns_any|intros _ _].
  apply (returns_bind (λ _, True)); [apply returns_any|intros c _].
  apply (returns_bind (λ _, True)); [apply returns_any|intros _ _].
  by apply returns_ret; left.
Qed.

Lemma password_step_returns : returns retry_or_false (password_step env settings).
Proof.
  unfold password_step.
  apply (returns_bind (λ _, True)); [apply returns_any|intros n _].
  apply (returns_bind (λ _, True)); [apply returns_any|intros _ _].
  apply (returns_bind (λ _, True)); [apply returns_any|intros n' _].
  destruct (0 <? n')%nat; [|by apply returns_ret; left].
  apply (returns_bind (λ _, True)); [apply returns_any|intros v _].
  destruct (Py.nonempty v); [by apply returns_ret; left|].
  destruct (Py.nonempty (amazon_password settings)); [|by apply returns_ret; right].
  apply (returns_bind (λ _, True)); [apply returns_any|intros _ _].
  by apply returns_ret; left.
Qed.

Lemma auth_page_steps_returns : returns retry_or_false (auth_page_steps env settings).
Proof.
  unfold auth_page_steps. apply returns_try; [|intros; by apply returns_ret; left].
  apply (returns_bind retry_or_false); [apply email_step_returns|].
  intros r [->| ->]; [|by apply returns_ret; right].
  apply (returns_bind retry_or_false); [apply password_step_returns|].
  intros r [->| ->]; [|by apply returns_ret; right].
  apply (returns_bind (λ _, True)); [apply returns_any|intros _ _].
  by apply returns_ret; left.
Qed.

Lemma attempt_verdict st r st' :
  attempt env settings st = (Ok (Some r), st') -> verdict_holds env r st'.
Proof.
  unfold attempt. rewrite bind_run. cbn [observe].
  unfold verdict_holds, classify.
  destruct (Py.contains "read.amazon.com/kindle-library"
              (Py.lower (page_url env (world st)))) eqn:E1.
  { intros [= <- <-]. by rewrite E1. }
  destruct (Py.contains "landing" (Py.lower (page_url env (world st)))) eqn:E2.
  { intros H. exfalso.
    eapply (returns_bind (λ _, True) (λ x, x = None)) in H;
      [done|apply returns_any|intros; by apply returns_ret]. }
  destruct (any_in auth_pages (Py.lower (page_url env (world st)))) eqn:E3.
  - destruct (any_in manual_pages (Py.lower (page_url env (world st)))) eqn:E4.
    + intros [= <- <-]. by rewrite E1, E2, E3, E4.
    + intros H. apply auth_page_steps_returns in H as [H|H]; [done|].
      by injection H as ->.
  - intros H. exfalso.
    eapply (returns_bind (λ _, True) (λ x, x = None)) in H;
      [done|apply returns_any|intros; by apply returns_ret].
Qed.

Lemma attempt_returns : never_raises (attempt env settings).
Proof.
  unfold attempt. apply never_raises_bind; [apply never_raises_observe|].
  intros url.
  destruct (Py.contains "read.amazon.com/kindle-library" url);
    [apply never_raises_ret|].
  assert (forall (m : M W unit),
            never_raises (try_except m (λ _, mret ());; mret (@None login_status)))
    as Htry.
  { intros m. apply never_raises_bind; [|intros; apply never_raises_ret].
    apply never_raises_try. intros; apply never_raises_ret. }
  destruct (Py.contains "landing" url); [apply Htry|].
  destruct (any_in auth_pages url); [|apply Htry].
  destruct (any_in manual_pages url); [apply never_raises_ret|].
  apply never_raises_try. intros; apply never_raises_ret.
Qed.

Lemma login_loop_verdict attempts : forall st,
  exists r st',
    login_loop env settings attempts st = (Ok r, st') /\ verdict_holds env r st'.
Proof.
  induction attempts as [|n IH]; intros st.
  { by exists NotLoggedIn, st. }
  cbn [login_loop]. rewrite bind_run.
  destruct (attempt_returns st) as [a Ha].
  destruct (attempt env settings st) as [r st1] eqn:E. simpl in Ha. subst r.
  destruct a as [r|]; [|apply IH].
  exists r, st1. split; [done|]. by apply (attempt_verdict st).
Qed.

(** X14.  [is_logged_in] never raises, whatever the browser does: it always
    returns one of its three verdicts.  It returns [True] only with the
    browser on the library page, and ["2fa"] only with the browser on a
    multi-factor, verification or challenge page.  Without a page it returns
    [False] and does nothing. *)
Theorem is_logged_in_verdict (st : State W) :
  exists r st',
    is_logged_in env settings st = (Ok r, st')
    /\ match r with
       | LoggedIn => classify (page_url env (world st')) = Library
       | Manual2FARequired => classify (page_url env (world st')) = AuthChallenge true
       | NotLoggedIn => True
       end
    /\ (has_page st = false -> r = NotLoggedIn /\ st' = st).
Proof.
  unfold is_logged_in. destruct (has_page st) eqn:Hp.
  - rewrite bind_run.
    destruct (never_raises_try (goto env LIBRARY_URL) (λ _, mret ())
                (λ _, never_raises_ret ()) st) as [u Hu].
    destruct (try_except (goto env LIBRARY_URL) (λ _, mret ()) st) as [r0 st0].
    simpl in Hu. subst r0.
    destruct (login_loop_verdict 5 st0) as (r & st' & Hrun & Hv).
    exists r, st'. split; [exact Hrun|]. split; [exact Hv|discriminate].
  - exists NotLoggedIn, st. by repeat split.
Qed.

End Verdicts.

(** ** The reader and the library page *)

Section ReaderRoundTrip.
Import Scraper Spec.
Context {W : Type} (env : Env W) (settings : Settings).

Lemma closes_goto_ret {A} url (x : A) :
  closes_with (Goto url) (goto env url;; mret x).
Proof.
  intros st r st'. rewrite bind_run. unfold goto, act.
  destruct (page_goto env url (world st)) as [[[]|msg] w]; [|discriminate].
  intros [= _ <-]. exists []. done.
Qed.

Lemma closes_bind {A B} a (m : M W A) (k : A -> M W B) :
  steps (acts (λ _, True)) m -> (forall x, closes_with a (k x)) ->
  closes_with a (m ≫= k).
Proof.
  intros Hm Hk st r st'. rewrite bind_run. specialize (Hm st).
  destruct (m st) as [[x|msg] st1]; [|discriminate].
  destruct Hm as (l1 & E1 & _). intros H.
  destruct (Hk x st1 r st' H) as (l & E). exists (l1 ++ l).
  simpl in E1. by rewrite E, E1, !app_assoc.
Qed.

Lemma any_click_nth l i : steps (acts (λ _, True)) (click_nth env l i).
Proof. by apply acts_act. Qed.

Lemma any_goto url : steps (acts (λ _, True)) (goto env url).
Proof. by apply acts_act. Qed.

Lemma any_dismiss_license_dialog :
  steps (acts (λ _, True)) (dismiss_license_dialog env).
Proof. pose proof any_click_nth. unfold dismiss_license_dialog, count. walk. Qed.

Lemma any_reveal_reader_ui : steps (acts (λ _, True)) (reveal_reader_ui env).
Proof. unfold reveal_reader_ui. walk. by apply acts_act. Qed.

Lemma any_open_and_read asin : steps (acts (λ _, True)) (open_and_read env asin).
Proof.
  pose proof any_click_nth. pose proof any_goto.
  pose proof any_dismiss_license_dialog. pose proof any_reveal_reader_ui.
  unfold open_and_read, count. walk.
Qed.

(** Opening a book: when the element of the book is not found nothing
    is done; otherwise the reader view is left for the library before
    the result is returned. *)
Lemma open_and_read_closes asin st r st' :
  open_and_read env asin st = (Ok r, st') ->
  actions st' = actions st /\ r = NoData
  \/ exists l, actions st' = actions st ++ l ++ [Goto LIBRARY_URL].
Proof.
  unfold open_and_read. rewrite bind_run. unfold count at 1, call at 1.
  destruct (locator_count env (book_el asin) (world st)) as [[n|msg] w]; [|discriminate].
  destruct (n =? 0)%nat; [intros [= <- <-]; by left|].
  intros H. right. revert H.
  generalize (with_world st w), (eq_refl : actions (with_world st w) = actions st).
  intros st0 <-. revert st0 r st'.
  pose proof any_click_nth. pose proof any_dismiss_license_dialog.
  pose proof any_reveal_reader_ui.
  apply closes_bind; [apply any_click_nth|intros _].
  apply closes_bind; [walk|intros _].
  apply closes_bind; [walk|intros bodyText].
  destruct (Extractor.license_dialog _).
  - apply closes_bind; [apply any_dismiss_license_dialog|intros _].
    apply closes_goto_ret.
  - apply closes_bind; [apply any_reveal_reader_ui|intros _].
    apply closes_bind; [walk|intros doc].
    apply closes_goto_ret.
Qed.

(** X15.  Whatever happens in the reader view,
    [get_book_progress_from_reader] ends with the navigation back to the
    library: either it has done nothing at all, the book not being on the
    page, and returns the empty result, or the last thing it did is [goto]
    the library, also when the page raised. *)
Theorem reader_returns_to_the_library asin (st : State W) :
  let '(r, st') := get_book_progress_from_reader env asin st in
  actions st' = actions st /\ r = Ok NoData
  \/ exists l, actions st' = actions st ++ l ++ [Goto LIBRARY_URL].
Proof.
  unfold get_book_progress_from_reader. destruct (has_page st); [|by left].
  unfold try_except at 1.
  pose proof (any_open_and_read asin st) as (l1 & E1 & _).
  destruct (open_and_read env asin st) as [[r|msg] st1] eqn:E.
  - apply open_and_read_closes in E as [[Ha ->]|Hl]; [by left|by right].
  - rewrite bind_run. unfold try_except, goto, act.
    destruct (page_goto env LIBRARY_URL (world st1)) as [[[]|msg'] w];
      simpl in *; right; exists l1; by rewrite E1, app_assoc.
Qed.

(** X16.  Without a browser page a pass fails at once: with stored
    credentials [login] raises and the summary carries its message, without
    them the summary says so.  Nothing is done on the page and the ledger is
    not touched; the streaming pass yields the one error event. *)
Theorem pass_without_a_page (st : State W) :
  has_page st = false ->
  let message :=
    if Py.nonempty (amazon_email settings) && Py.nonempty (amazon_password settings)
    then "Browser not initialized" else msg_no_credentials in
  scrape_and_save env settings st
  = (failure_summary message (Py.datetime_isoformat (datetime_now env (world st))),
     with_world st (clock_tick env (world st)))
  /\ scrape_and_save_streaming env settings st = [error_event message].
Proof.
  intros Hp message. subst message.
  unfold scrape_and_save_streaming, stream_run, stream_body.
  unfold scrape_and_save, scrape_body, ensure_login.
  rewrite !bind_run. unfold is_logged_in. cbn [has_page]. rewrite Hp.
  destruct (Py.nonempty (amazon_email settings)
            && Py.nonempty (amazon_password settings)).
  - rewrite !bind_run. unfold login. cbn [has_page]. rewrite Hp. done.
  - done.
Qed.

End ReaderRoundTrip.

Section PassExamples.
Import Scraper Spec Samples.

Lemma pass_without_a_page_witness :
  fst (scrape_and_save sample_env sample_settings no_page_state)
  = failure_summary msg_no_credentials "2024-01-15T12:00:00"
  /\ db (snd (scrape_and_save sample_env sample_settings no_page_state)) = seen_db.
Proof.
  destruct (pass_without_a_page sample_env sample_settings no_page_state eq_refl)
    as [H _].
  rewrite H. split; reflexivity.
Defined.

End PassExamples.

(** ** The counters of a pass *)

Section Counters.
Import Scraper Spec.
Context {W : Type} (env : Env W) (settings : Settings).

Lemma record_progress_adds_one asin pos pc (st st' : State W) :
  record_progress env settings asin pos pc st = (Ok (), st') ->
  length (Ledger.reading_progress (db st'))
  = S (length (Ledger.reading_progress (db st))).
Proof.
  unfold record_progress.
  destruct (Js.to_python (Js.of_Z pos)) as [z|f]; [|discriminate].
  destruct (Ledger.record_progress _ _ _ _ _ _) as [d|] eqn:E; [|discriminate].
  intros [= <-]. cbn.
  destruct (record_progress_effect _ _ _ _ _ _ _ E) as (_ & _ & _ & _ & -> & _).
  rewrite length_app. simpl. lia.
Qed.

Lemma save_progress_adds_one book info current_page (st st' : State W) :
  save_progress env settings book info current_page st = (Ok (), st') ->
  length (Ledger.reading_progress (db st'))
  = S (length (Ledger.reading_progress (db st))).
Proof.
  unfold save_progress. rewrite bind_run.
  assert (forall r st1,
    (match Extractor.total info with
     | Some t =>
         if negb (t =? 0) && negb (t =? 100) then upsert_book env book (Some t)
         else mret ()
     | None => mret ()
     end) st = (r, st1) ->
    Ledger.reading_progress (db st1) = Ledger.reading_progress (db st)) as Hup.
  { intros r st1. destruct (Extractor.total info) as [t|]; [|by intros [= _ <-]].
    destruct (negb (t =? 0) && negb (t =? 100)); [|by intros [= _ <-]].
    pose proof (upsert_book_run env book (Some t) st) as Hrun. cbv zeta in Hrun.
    intros E. rewrite E in Hrun. by destruct Hrun as [? _]. }
  destruct (match Extractor.total info with
            | Some t =>
                if negb (t =? 0) && negb (t =? 100) then upsert_book env book (Some t)
                else mret ()
            | None => mret ()
            end st) as [[[]|msg] st1] eqn:E; [|discriminate].
  rewrite <- (Hup _ _ eq_refl). apply record_progress_adds_one.
Qed.

(** The loop: the counter goes up by one with every snapshot added, and
    no item is counted twice. *)
Lemma process_books_count books : forall n lic (st : State W) n' lic' st',
  process_books env settings books n lic st = (Ok (n', lic'), st') ->
  (length (Ledger.reading_progress (db st')) + n
   = length (Ledger.reading_progress (db st)) + n')%nat
  /\ (n' + length lic' <= n + length lic + length books)%nat.
Proof.
  induction books as [|book rest IH]; intros n lic st n' lic' st'.
  { intros [= <- <- <-]. simpl. lia. }
  cbn [process_books]. rewrite bind_run.
  pose proof (upsert_book_run env book (Extractor.totalPages book) st) as Hrun.
  cbv zeta in Hrun. destruct Hrun as [Hr1 _].
  destruct (upsert_book env book (Extractor.totalPages book) st) as [[[]|msg] st1];
    [|discriminate].
  simpl in Hr1. rewrite bind_run.
  destruct (get_book_progress_from_reader_run env (Extractor.asin book) st1)
    as (r & st2 & -> & Hd2 & _).
  assert (Ledger.reading_progress (db st2) = Ledger.reading_progress (db st)) as Hr2
    by congruence.
  destruct r as [| |info].
  - intros H. apply IH in H. rewrite Hr2 in H. simpl. lia.
  - intros H. apply IH in H. rewrite Hr2, length_app in H. simpl in *. lia.
  - destruct (Extractor.current info) as [current_page|].
    2:{ intros H. apply IH in H. rewrite Hr2 in H. simpl. lia. }
    rewrite bind_run.
    destruct (save_progress env settings book info current_page st2)
      as [[[]|msg] st3] eqn:E; [|discriminate].
    apply save_progress_adds_one in E. intros H. apply IH in H.
    rewrite E, Hr2 in H. simpl. lia.
Qed.

Lemma failure_not_success msg ts :
  failure_summary msg ts !! "success" = Some (VBool false).
Proof. reflexivity. Qed.

(** X17.  In a successful summary [books_with_progress] is exactly the
    number of snapshots the pass has added to the ledger, and the books with
    progress and the license-limited books together are no more than the
    books scraped. *)
Theorem books_with_progress_counts_snapshots (st : State W) r st' :
  scrape_and_save env settings st = (r, st') ->
  r !! "success" = Some (VBool true) ->
  exists scraped with_progress timestamp lic,
    r = success_summary scraped with_progress timestamp lic
    /\ r !! "books_scraped" = Some (VInt (Z.of_nat scraped))
    /\ r !! "books_with_progress" = Some (VInt (Z.of_nat with_progress))
    /\ length (Ledger.reading_progress (db st'))
       = (length (Ledger.reading_progress (db st)) + with_progress)%nat
    /\ (with_progress + length lic <= scraped)%nat.
Proof.
  unfold scrape_and_save, scrape_body. rewrite bind_run.
  pose proof (preserves_ensure_login env settings (@db W) (@quiet_db W) st) as Hd1.
  destruct (ensure_login env settings st) as [[[|message]|e] st1]; simpl in Hd1.
  - rewrite bind_run.
    pose proof (preserves_get_library_and_progress env (@db W) (@quiet_db W) st1) as Hd2.
    destruct (get_library_and_progress env st1) as [[books|e] st2]; simpl in Hd2.
    + rewrite bind_run.
      destruct (process_books env settings books 0 [] st2) as [[[n lic]|e] st3] eqn:E.
      * intros [= <- <-] _. apply process_books_count in E as [E1 E2].
        exists (length books), n, (Py.datetime_isoformat (datetime_now env (world st3))), lic.
        split; [done|]. split; [by destruct lic|]. split; [by destruct lic|].
        simpl in *. rewrite Hd2, Hd1 in E1. split; lia.
      * intros [= <- _] H. by rewrite failure_not_success in H.
    + intros [= <- _] H. by rewrite failure_not_success in H.
  - intros [= <- _] H. by rewrite failure_not_success in H.
  - intros [= <- _] H. by rewrite failure_not_success in H.
Qed.

End Counters.

Section CounterExamples.
Import Scraper Spec Samples.

Lemma books_with_progress_counts_snapshots_witness :
  exists with_progress,
    fst (scrape_and_save sample_env sample_settings logged_in_state)
      !! "books_with_progress" = Some (VInt (Z.of_nat with_progress))
    /\ length (Ledger.reading_progress
                 (db (snd (scrape_and_save sample_env sample_settings logged_in_state))))
       = (length (Ledger.reading_progress (db logged_in_state)) + with_progress)%nat.
Proof.
  destruct (scrape_and_save sample_env sample_settings logged_in_state) as [r st'] eqn:E.
  assert (r !! "success" = Some (VBool true)) as Hs.
  { apply (f_equal (λ p, fst p !! "success")) in E. vm_compute in E.
    exact (eq_sym E). }
  destruct (books_with_progress_counts_snapshots sample_env sample_settings
              logged_in_state r st' E Hs) as (s & k & ts & lic & _ & _ & Hk & Hl & _).
  exists k. split; [exact Hk|exact Hl].
Defined.

End CounterExamples.

(** ** The extractor: what the scripts can and cannot return *)

Section ExtractorMore.
Import Extractor.

Lemma span_class p s :
  Js.all_chars p (fst (Js.span p s)) = true.
Proof.
  induction s as [|c s IH]; [done|]. cbn [Js.span].
  destruct (p c) eqn:E; [|done].
  destruct (Js.span p s) as [a r]. cbn in *. by rewrite E.
Qed.

Lemma span_rest (q : ascii -> bool) p s :
  Js.all_chars q s = true -> Js.all_chars q (snd (Js.span p s)) = true.
Proof.
  induction s as [|c s IH]; [done|]. cbn [Js.span]. intros H.
  destruct (p c); [|done].
  cbn in H. apply andb_prop in H as [_ H]. specialize (IH H).
  by destruct (Js.span p s).
Qed.

Lemma digits1_digits s d r :
  Js.digits1 s = Some (d, r) -> Js.all_chars Js.is_digit d = true.
Proof.
  unfold Js.digits1. pose proof (span_class Js.is_digit s) as H.
  destruct (Js.span Js.is_digit s) as [[|c a] r']; [discriminate|].
  by intros [= <- _].
Qed.

Lemma digit_code c : Js.is_digit c = true -> 48 <= Z.of_N (Js.code c).
Proof.
  unfold Js.is_digit. intros H. apply andb_prop in H as [H _].
  apply N.leb_le in H. lia.
Qed.

Lemma digits_value_nonneg d : forall acc,
  Js.all_chars Js.is_digit d = true -> 0 <= acc -> 0 <= Js.digits_value acc d.
Proof.
  induction d as [|c d IH]; intros acc Hd Hacc; [done|].
  cbn in Hd. apply andb_prop in Hd as [Hc Hd]. cbn [Js.digits_value].
  apply IH; [done|]. pose proof (digit_code c Hc). lia.
Qed.

(** Rounding to a double keeps the sign. *)
Lemma integer_of_of_Z_nonneg v : 0 <= v -> 0 <= Js.integer_of (Js.of_Z v).
Proof.
  intros Hv. unfold Js.of_Z, binary_normalize.
  destruct v as [|m|m]; [done| |lia].
  unfold binary_round. destruct (shl_align _ _ _) as [mz ez].
  unfold binary_round_aux. destruct (shr_fexp _ _ _ _ _) as [mrs' e'].
  destruct (shr_fexp _ _ _ _ _) as [mrs'' e''].
  destruct (shr_m mrs'') as [|q|q]; [done| |done].
  destruct (e'' <=? Js.emax - Js.prec); unfold Js.integer_of.
  - destruct (0 <=? e'') eqn:E; cbn [cond_Zopp].
    + apply Z.mul_nonneg_nonneg; [lia|]. apply Z.pow_nonneg. lia.
    + apply Z.leb_gt in E. apply Z.div_pos; [lia|]. apply Z.pow_pos_nonneg; lia.
  - cbn [cond_Zopp]. apply Z.pow_nonneg. lia.
Qed.

Lemma parseInt_nonneg d : Js.all_chars Js.is_digit d = true -> 0 <= Js.parseInt d.
Proof. intros H. by apply integer_of_of_Z_nonneg, digits_value_nonneg. Qed.

Lemma search_some {A} (at_head : string -> option A) s a :
  Js.search at_head s = Some a -> exists s', at_head s' = Some a.
Proof.
  induction s as [|c s IH]; cbn [Js.search].
  - destruct (at_head EmptyString) eqn:E; [|discriminate]. intros [= <-]. by eexists.
  - destruct (at_head (String c s)) eqn:E; [intros [= <-]; by eexists|apply IH].
Qed.

Lemma x_of_y_digits s d1 d2 r :
  Js.x_of_y s = Some (d1, d2, r) ->
  Js.all_chars Js.is_digit d1 = true /\ Js.all_chars Js.is_digit d2 = true.
Proof.
  unfold Js.x_of_y.
  destruct (Js.spaces1 s) as [r1|]; [|discriminate]. cbn [mbind option_bind].
  destruct (Js.digits1 r1) as [[a r2]|] eqn:E1; [|discriminate]. cbn [mbind option_bind].
  destruct (Js.spaces1 r2) as [r3|]; [|discriminate]. cbn [mbind option_bind].
  destruct (Js.lit_ci "of" r3) as [r4|]; [|discriminate]. cbn [mbind option_bind].
  destruct (Js.spaces1 r4) as [r5|]; [|discriminate]. cbn [mbind option_bind].
  destruct (Js.digits1 r5) as [[b r6]|] eqn:E2; [|discriminate]. cbn [mbind option_bind].
  intros [= <- <- _]. split; by eapply digits1_digits.
Qed.

Lemma page_at_digits s d1 d2 :
  Js.page_at s = Some (d1, d2) ->
  Js.all_chars Js.is_digit d1 = true /\ Js.all_chars Js.is_digit d2 = true.
Proof.
  unfold Js.page_at.
  destruct (Js.lit_ci "page" s) as [r|]; [|discriminate]. cbn [mbind option_bind].
  destruct (Js.x_of_y r) as [[[a b] r']|] eqn:E; [|discriminate].
  cbn [mbind option_bind]. intros [= <- <-]. by eapply x_of_y_digits.
Qed.

Lemma loc_at_digits s d1 d2 :
  Js.loc_at s = Some (d1, d2) ->
  Js.all_chars Js.is_digit d1 = true /\ Js.all_chars Js.is_digit d2 = true.
Proof.
  unfold Js.loc_at.
  destruct (Js.lit_ci "loc" s) as [r|]; [|discriminate]. cbn [mbind option_bind].
  destruct (Js.lit_ci "ation" r ≫= Js.x_of_y) as [[[a b] r']|] eqn:E.
  - cbn [mbind option_bind]. intros [= <- <-].
    destruct (Js.lit_ci "ation" r) as [r2|]; [|discriminate].
    by eapply x_of_y_digits.
  - destruct (Js.x_of_y r) as [[[a b] r']|] eqn:E2; [|discriminate].
    cbn [mbind option_bind]. intros [= <- <-]. by eapply x_of_y_digits.
Qed.

Lemma generic_whole_digits s d1 d2 :
  Js.generic_whole s = Some (d1, d2) ->
  Js.all_chars Js.is_digit d1 = true /\ Js.all_chars Js.is_digit d2 = true.
Proof.
  unfold Js.generic_whole.
  destruct (Js.digits1 s) as [[a r2]|] eqn:E1; [|discriminate]. cbn [mbind option_bind].
  destruct (Js.spaces1 r2) as [r3|]; [|discriminate]. cbn [mbind option_bind].
  destruct (Js.lit_ci "of" r3) as [r4|]; [|discriminate]. cbn [mbind option_bind].
  destruct (Js.spaces1 r4) as [r5|]; [|discriminate]. cbn [mbind option_bind].
  destruct (Js.digits1 r5) as [[b r6]|] eqn:E2; [|discriminate]. cbn [mbind option_bind].
  destruct r6; [|discriminate]. intros [= <- <-]. split; by eapply digits1_digits.
Qed.

Lemma percent_at_digits s d :
  Js.percent_at s = Some d -> Js.all_chars Js.is_digit d = true.
Proof.
  unfold Js.percent_at.
  destruct (Js.digits1 s) as [[a r]|] eqn:E; [|discriminate]. cbn [mbind option_bind].
  destruct r as [|c r]; [discriminate|].
  destruct (Ascii.eqb_spec c "%") as [->|Hne].
  - intros [= <-]. by eapply digits1_digits.
  - destruct c as [[] [] [] [] [] [] [] []]; try discriminate. by destruct Hne.
Qed.

Lemma number_at_digits s d :
  Js.number_at s = Some d -> Js.all_chars Js.is_digit d = true.
Proof.
  unfold Js.number_at.
  destruct (Js.digits1 s) as [[a r]|] eqn:E; [|discriminate].
  intros [= <-]. by eapply digits1_digits.
Qed.

(** No number a pattern captures is negative. *)
Lemma findPattern_nonneg text f :
  findPattern text = Some f ->
  match f with
  | FoundPosition c t _ => 0 <= c /\ 0 <= t
  | FoundPercent p => 0 <= p
  end.
Proof.
  unfold findPattern, rule_page, rule_location, rule_generic, rule_percent.
  destruct (Js.search Js.page_at text) as [[d1 d2]|] eqn:E1.
  { intros [= <-]. apply search_some in E1 as (s' & H).
    apply page_at_digits in H as [H1 H2]. split; by apply parseInt_nonneg. }
  destruct (Js.search Js.loc_at text) as [[d1 d2]|] eqn:E2.
  { intros [= <-]. apply search_some in E2 as (s' & H).
    apply loc_at_digits in H as [H1 H2]. split; by apply parseInt_nonneg. }
  destruct (Js.generic_whole text) as [[d1 d2]|] eqn:E3.
  { intros [= <-]. apply generic_whole_digits in E3 as [H1 H2].
    split; by apply parseInt_nonneg. }
  destruct (Js.search Js.percent_at text) as [d|] eqn:E4; [|discriminate].
  intros [= <-]. apply search_some in E4 as (s' & H).
  apply percent_at_digits in H. by apply parseInt_nonneg.
Qed.

Lemma first_found_nonneg texts f :
  first_found texts = Some f -> exists text, findPattern text = Some f.
Proof.
  induction texts as [|text rest IH]; [discriminate|]. cbn [first_found].
  destruct (findPattern text) eqn:E; [intros [= <-]; by eexists|apply IH].
Qed.

(** X18.  The reader script reports a position only together with a total
    and a percentage, and neither the position nor the total is negative,
    whatever the page shows. *)
Theorem progress_info_well_formed doc :
  let r := progress_info doc in
  match current r, total r, percent r with
  | Some c, Some t, Some _ => 0 <= c /\ 0 <= t
  | None, None, None => True
  | _, _, _ => False
  end.
Proof.
  intros r. pose proof (progress_info_fields doc) as H. cbn zeta in H. fold r in H.
  destruct (first_found (fragments doc)) as [f|] eqn:E1.
  - apply first_found_nonneg in E1 as (text & Hf). apply findPattern_nonneg in Hf.
    destruct f as [c t ty|p]; destruct H as (-> & -> & ->); [done|lia].
  - destruct (findPattern (Js.or_else (body_innerText doc) EmptyString)) as [f|] eqn:E2.
    + apply findPattern_nonneg in E2.
      destruct f as [c t ty|p]; destruct H as (-> & -> & ->); [done|lia].
    + by destruct H as (-> & -> & ->).
Qed.

(** *** Text without a digit *)

Lemma lit_ci_rest (q : ascii -> bool) pat : forall s r,
  Js.lit_ci pat s = Some r -> Js.all_chars q s = true -> Js.all_chars q r = true.
Proof.
  induction pat as [|p pat IH]; intros s r; cbn [Js.lit_ci].
  - by intros [= <-].
  - destruct s as [|c s]; [discriminate|].
    destruct (Js.ci_char p c); [|discriminate].
    intros H Hq. cbn in Hq. apply andb_prop in Hq as [_ Hq]. by apply (IH s).
Qed.

Lemma spaces1_rest (q : ascii -> bool) s r :
  Js.spaces1 s = Some r -> Js.all_chars q s = true -> Js.all_chars q r = true.
Proof.
  unfold Js.spaces1. intros H Hq.
  pose proof (span_rest q Js.is_space s Hq) as Hr.
  destruct (Js.span Js.is_space s) as [[|c a] r']; [discriminate|].
  by injection H as <-.
Qed.

Lemma digits1_none s :
  Js.all_chars (λ c, negb (Js.is_digit c)) s = true -> Js.digits1 s = None.
Proof.
  destruct s as [|c s]; [done|]. cbn. intros H.
  apply andb_prop in H as [H _]. apply negb_true_iff in H.
  unfold Js.digits1. cbn [Js.span]. by rewrite H.
Qed.

Lemma x_of_y_none s :
  Js.all_chars (λ c, negb (Js.is_digit c)) s = true -> Js.x_of_y s = None.
Proof.
  intros H. unfold Js.x_of_y.
  destruct (Js.spaces1 s) as [r1|] eqn:E; [|done]. cbn [mbind option_bind].
  by rewrite (digits1_none r1 (spaces1_rest _ _ _ E H)).
Qed.

Lemma search_none {A} (at_head : string -> option A) (q : ascii -> bool) :
  (forall s, Js.all_chars q s = true -> at_head s = None) ->
  forall s, Js.all_chars q s = true -> Js.search at_head s = None.
Proof.
  intros Hf s. induction s as [|c s IH]; intros Hs; cbn [Js.search].
  - by rewrite (Hf _ Hs).
  - rewrite (Hf _ Hs). apply IH. cbn in Hs. by apply andb_prop in Hs as [_ Hs].
Qed.

(** X19.  A text without a digit matches no rule; the empty text is the
    first case.  A page whose short fragments and body show no digit gives a
    result without position, total and percentage. *)
Theorem no_digit_no_progress :
  (forall text,
     Js.all_chars (λ c, negb (Js.is_digit c)) text = true -> findPattern text = None)
  /\ forall doc,
       (forall text, In text (fragments doc) ->
          Js.all_chars (λ c, negb (Js.is_digit c)) text = true) ->
       Js.all_chars (λ c, negb (Js.is_digit c)) (body_innerText doc) = true ->
       current (progress_info doc) = None
       /\ total (progress_info doc) = None
       /\ percent (progress_info doc) = None.
Proof.
  assert (forall text,
            Js.all_chars (λ c, negb (Js.is_digit c)) text = true ->
            findPattern text = None) as Hnone.
  { intros text H.
    unfold findPattern, rule_page, rule_location, rule_generic, rule_percent.
    rewrite (search_none Js.page_at (λ c, negb (Js.is_digit c))); [|
      intros s Hs; unfold Js.page_at;
      destruct (Js.lit_ci "page" s) as [r|] eqn:E; [|done];
      cbn [mbind option_bind];
      by rewrite (x_of_y_none r (lit_ci_rest _ _ _ _ E Hs))|done].
    rewrite (search_none Js.loc_at (λ c, negb (Js.is_digit c))); [|
      intros s Hs; unfold Js.loc_at;
      destruct (Js.lit_ci "loc" s) as [r|] eqn:E; [|done];
      cbn [mbind option_bind];
      pose proof (lit_ci_rest _ _ _ _ E Hs) as Hr;
      rewrite (x_of_y_none r Hr);
      destruct (Js.lit_ci "ation" r) as [r2|] eqn:E2; [|done];
      cbn [mbind option_bind];
      by rewrite (x_of_y_none r2 (lit_ci_rest _ _ _ _ E2 Hr))|done].
    unfold Js.generic_whole. rewrite (digits1_none text H).
    rewrite (search_none Js.percent_at (λ c, negb (Js.is_digit c))); [done| |done].
    intros s Hs. unfold Js.percent_at. by rewrite (digits1_none s Hs). }
  split; [exact Hnone|].
  intros doc Hfrag Hbody.
  pose proof (progress_info_fields doc) as H. cbn zeta in H.
  assert (forall texts,
            (forall text, In text texts ->
               Js.all_chars (λ c, negb (Js.is_digit c)) text = true) ->
            first_found texts = None) as Hff.
  { induction texts as [|text rest IH]; intros Hall; [done|].
    cbn [first_found]. rewrite (Hnone text) by (apply Hall; by left).
    apply IH. intros t Ht. apply Hall. by right. }
  rewrite (Hff _ Hfrag) in H.
  assert (Js.all_chars (λ c, negb (Js.is_digit c))
            (Js.or_else (body_innerText doc) EmptyString) = true) as Hb.
  { by destruct (body_innerText doc). }
  by rewrite (Hnone _ Hb) in H.
Qed.

End ExtractorMore.

Section LibraryListing.
Import Extractor.

Lemma no_digit_no_progress_witness : findPattern "Chapter One" = None.
Proof. exact (proj1 no_digit_no_progress "Chapter One" eq_refl). Defined.

Lemma first_title_nonempty nodes t : first_title nodes = Some t -> t ≠ EmptyString.
Proof.
  induction nodes as [|node rest IH]; [discriminate|]. cbn [first_title].
  destruct ((3 <? String.length (Js.trim node))
            && (String.length (Js.trim node) <? 200))%nat eqn:E; [|apply IH].
  intros [= <-] Hempty. rewrite Hempty in E. discriminate E.
Qed.

Lemma item_title_nonempty item : item_title item ≠ EmptyString.
Proof.
  unfold item_title.
  assert (default "Unknown" (first_title (text_nodes item)) ≠ EmptyString) as H.
  { destruct (first_title (text_nodes item)) as [t|] eqn:E; [|done].
    by apply first_title_nonempty in E. }
  by destruct (aria_label item) as [[|c l]|].
Qed.

Lemma item_percent_nonneg doc item asin : 0 <= item_percent doc item asin.
Proof.
  unfold item_percent.
  assert (0 <= percent_method1 doc asin) as H1.
  { unfold percent_method1. destruct (getElementById doc _) as [el|]; [|done].
    destruct (Js.search Js.number_at _) as [d|] eqn:E; [|done].
    apply search_some in E as (s' & H). by apply parseInt_nonneg, (number_at_digits s'). }
  assert (forall p, 0 <= p -> 0 <= percent_method2 item p) as H2.
  { intros p Hp. unfold percent_method2. destruct (p =? 0); [|done].
    destruct (progress_text item) as [t|]; [|done].
    destruct (Js.search Js.number_at t) as [d|] eqn:E; [|done].
    apply search_some in E as (s' & H). by apply parseInt_nonneg, (number_at_digits s'). }
  assert (forall p, 0 <= p -> 0 <= percent_method3 item p) as H3.
  { intros p Hp. unfold percent_method3. destruct (p =? 0); [|done].
    destruct (Js.search Js.percent_at _) as [d|] eqn:E; [|done].
    apply search_some in E as (s' & H). by apply parseInt_nonneg, (percent_at_digits s'). }
  by apply H3, H2.
Qed.

Lemma library_book_entry doc first item b :
  library_book doc first item = Some b ->
  asin b ≠ EmptyString
  /\ title b ≠ EmptyString
  /\ 0 <= percentComplete b
  /\ Js.includes "sample" (item_id item) = false
  /\ asin b = Js.remove_first "library-item-option-" (item_id item)
  /\ (debug_html b = None <-> first = false).
Proof.
  unfold library_book.
  destruct (Js.includes "sample" (item_id item)); [discriminate|].
  destruct (Js.remove_first "library-item-option-" (item_id item)) as [|c a] eqn:E;
    [discriminate|].
  intros [= <-]. cbn.
  split; [done|]. split; [apply item_title_nonempty|].
  split; [apply item_percent_nonneg|]. split; [done|]. split; [done|].
  by destruct first.
Qed.

(** The loop adds entries at the end, at most one for an item; an entry
    carries the debug fields exactly when it is added to an empty list. *)
Lemma library_loop_appends doc items : forall books,
  exists more,
    library_loop doc items books = books ++ more
    /\ (length more <= length items)%nat
    /\ (forall b, In b more ->
          exists first item, In item items /\ library_book doc first item = Some b)
    /\ match books, more with
       | [], b :: rest =>
           debug_html b ≠ None /\ Forall (λ b, debug_html b = None) rest
       | _, _ => Forall (λ b, debug_html b = None) more
       end.
Proof.
  induction items as [|item rest IH]; intros books.
  { exists []. rewrite app_nil_r. split; [done|]. split; [done|].
    split; [by intros ? []|by destruct books]. }
  cbn [library_loop].
  destruct (library_book doc (length books =? 0)%nat item) as [b|] eqn:E.
  - destruct (IH (books ++ [b])) as (more & Hrun & Hlen & Hin & Hdebug).
    exists (b :: more). rewrite Hrun, <- app_assoc. split; [done|].
    split; [simpl; lia|]. split.
    + intros x [<-|Hx]; [exists (length books =? 0)%nat, item; by split; [left|]|].
      destruct (Hin x Hx) as (f & it & Hit & Hb). exists f, it. by split; [right|].
    + apply library_book_entry in E as (_ & _ & _ & _ & _ & Hd).
      destruct books as [|b0 books]; cbn in *.
      * split; [intros H; by apply Hd in H|]. by destruct more.
      * apply Forall_cons. split; [by apply Hd|]. by destruct more.
  - destruct (IH books) as (more & Hrun & Hlen & Hin & Hdebug).
    exists more. split; [done|]. split; [simpl; lia|]. split; [|done].
    intros x Hx. destruct (Hin x Hx) as (f & it & Hit & Hb).
    exists f, it. by split; [right|].
Qed.

(** X20.  The library script lists no more entries than the page has items,
    and none for a sample.  Every entry has a non-empty [asin], the id of
    its item without the prefix, a non-empty title and a percentage that is
    not negative.  The first entry, and no other, carries the debug fields. *)
Theorem books_data_well_formed doc :
  (length (books_data doc) <= length (library_items doc))%nat
  /\ (forall b, In b (books_data doc) ->
        asin b ≠ EmptyString /\ title b ≠ EmptyString /\ 0 <= percentComplete b
        /\ exists item,
             In item (library_items doc)
             /\ Js.includes "sample" (item_id item) = false
             /\ asin b = Js.remove_first "library-item-option-" (item_id item))
  /\ forall i b,
       nth_error (books_data doc) i = Some b -> (debug_html b ≠ None <-> i = 0%nat).
Proof.
  unfold books_data.
  destruct (library_loop_appends doc (library_items doc) [])
    as (more & -> & Hlen & Hin & Hdebug).
  cbn [app]. split; [done|]. split.
  - intros b Hb. destruct (Hin b Hb) as (first & item & Hitem & Hbook).
    apply library_book_entry in Hbook as (H1 & H2 & H3 & H4 & H5 & _).
    repeat split; try done. by exists item.
  - intros i b Hi. destruct more as [|b0 rest]; [by destruct i|].
    destruct Hdebug as [H0 Hrest]. destruct i as [|i]; cbn in Hi.
    + injection Hi as <-. by split.
    + rewrite Forall_forall in Hrest.
      apply nth_error_In, list_elem_of_In, Hrest in Hi. by split.
Qed.

Lemma books_data_well_formed_witness :
  exists b,
    nth_error (books_data Samples.library_doc) 0 = Some b
    /\ asin b ≠ EmptyString /\ debug_html b ≠ None.
Proof.
  destruct (nth_error (books_data Samples.library_doc) 0) as [b|] eqn:E;
    [|vm_compute in E; discriminate E].
  destruct (books_data_well_formed Samples.library_doc) as (_ & Hall & Hdebug).
  exists b. split; [reflexivity|]. split.
  - exact (proj1 (Hall b (nth_error_In _ _ E))).
  - exact (proj2 (Hdebug 0%nat b E) eq_refl).
Defined.

End LibraryListing.
